(** * mediaplayer.cpp: a GStreamer playback loop with one deferred pad link

    A shallow embedding of [src/mediaplayer/mediaplayer/mediaplayer.cpp].

    The program is glue around the GStreamer C API.  It is modelled as a
    function from the answers of the framework (which elements could be
    created, what each call returned, which messages are posted on the bus,
    which pads the demuxer announces) to the sequence of API calls the
    program makes and the way the process ends.

    - A pointer to a framework object is its (non-null) address, a
      [positive]; a nullable pointer is an [option].
    - An enumeration that is only compared is an inductive type; one that
      is used as an integer or as a bit mask keeps its values in [Z], and
      the mask handed to the bus is built with the program's own
      [operator |].
    - Every API call the program makes is recorded, in order, in a trace of
      [Call]s, with the arguments it was given.
    - The do-while loop of [main] consumes one [Round] of answers per
      iteration; a run whose script of rounds ends is still [Running]. *)

From Stdlib Require Import ZArith List String QArith Bool Lia.
From stdpp Require Import gmap strings.
Import ListNotations.

Local Open Scope string_scope.
Local Open Scope list_scope.
Local Open Scope Z_scope.

(** ** Framework data *)

(** Address of a live framework object (element, pad, bus, pipeline). *)
Definition GstObject := positive.

(** [GstState], gstelement.h. *)
Inductive GstState :=
| GST_STATE_VOID_PENDING
| GST_STATE_NULL
| GST_STATE_READY
| GST_STATE_PAUSED
| GST_STATE_PLAYING.

(** [gst_element_state_get_name], gstutils.c. *)
Definition gst_element_state_get_name (s : GstState) : string :=
  match s with
  | GST_STATE_VOID_PENDING => "VOID_PENDING"
  | GST_STATE_NULL => "NULL"
  | GST_STATE_READY => "READY"
  | GST_STATE_PAUSED => "PAUSED"
  | GST_STATE_PLAYING => "PLAYING"
  end.

(** [GstStateChangeReturn], gstelement.h. *)
Inductive GstStateChangeReturn :=
| GST_STATE_CHANGE_FAILURE
| GST_STATE_CHANGE_SUCCESS
| GST_STATE_CHANGE_ASYNC
| GST_STATE_CHANGE_NO_PREROLL.

Definition GstStateChangeReturn_eqb (a b : GstStateChangeReturn) : bool :=
  match a, b with
  | GST_STATE_CHANGE_FAILURE, GST_STATE_CHANGE_FAILURE
  | GST_STATE_CHANGE_SUCCESS, GST_STATE_CHANGE_SUCCESS
  | GST_STATE_CHANGE_ASYNC, GST_STATE_CHANGE_ASYNC
  | GST_STATE_CHANGE_NO_PREROLL, GST_STATE_CHANGE_NO_PREROLL => true
  | _, _ => false
  end.

(** [GstPadLinkReturn], gstpad.h, with the integer value of each result. *)
Inductive GstPadLinkReturn :=
| GST_PAD_LINK_OK
| GST_PAD_LINK_WRONG_HIERARCHY
| GST_PAD_LINK_WAS_LINKED
| GST_PAD_LINK_WRONG_DIRECTION
| GST_PAD_LINK_NOFORMAT
| GST_PAD_LINK_NOSCHED
| GST_PAD_LINK_REFUSED.

Definition GstPadLinkReturn_value (r : GstPadLinkReturn) : Z :=
  match r with
  | GST_PAD_LINK_OK => 0
  | GST_PAD_LINK_WRONG_HIERARCHY => -1
  | GST_PAD_LINK_WAS_LINKED => -2
  | GST_PAD_LINK_WRONG_DIRECTION => -3
  | GST_PAD_LINK_NOFORMAT => -4
  | GST_PAD_LINK_NOSCHED => -5
  | GST_PAD_LINK_REFUSED => -6
  end.

(** [#define GST_PAD_LINK_FAILED(ret) ((ret) < GST_PAD_LINK_OK)]. *)
Definition GST_PAD_LINK_FAILED (ret : GstPadLinkReturn) : bool :=
  GstPadLinkReturn_value ret <? GstPadLinkReturn_value GST_PAD_LINK_OK.

(** A [GstStructure] is used here only through its name, the media type. *)
Record GstStructure := { structure_name : string }.

(** [GstCaps]: an array of structures. *)
Definition GstCaps := list GstStructure.

(** [GstMessageType], gstmessage.h.  The enumerators are bit flags; the
    extended types are [GST_MESSAGE_EXTENDED] plus a small number. *)
Definition GstMessageType := Z.

Definition GST_MESSAGE_UNKNOWN : GstMessageType := 0.
Definition GST_MESSAGE_EOS : GstMessageType := Z.shiftl 1 0.
Definition GST_MESSAGE_ERROR : GstMessageType := Z.shiftl 1 1.
Definition GST_MESSAGE_WARNING : GstMessageType := Z.shiftl 1 2.
Definition GST_MESSAGE_INFO : GstMessageType := Z.shiftl 1 3.
Definition GST_MESSAGE_TAG : GstMessageType := Z.shiftl 1 4.
Definition GST_MESSAGE_BUFFERING : GstMessageType := Z.shiftl 1 5.
Definition GST_MESSAGE_STATE_CHANGED : GstMessageType := Z.shiftl 1 6.
Definition GST_MESSAGE_STATE_DIRTY : GstMessageType := Z.shiftl 1 7.
Definition GST_MESSAGE_STEP_DONE : GstMessageType := Z.shiftl 1 8.
Definition GST_MESSAGE_CLOCK_PROVIDE : GstMessageType := Z.shiftl 1 9.
Definition GST_MESSAGE_CLOCK_LOST : GstMessageType := Z.shiftl 1 10.
Definition GST_MESSAGE_NEW_CLOCK : GstMessageType := Z.shiftl 1 11.
Definition GST_MESSAGE_STRUCTURE_CHANGE : GstMessageType := Z.shiftl 1 12.
Definition GST_MESSAGE_STREAM_STATUS : GstMessageType := Z.shiftl 1 13.
Definition GST_MESSAGE_APPLICATION : GstMessageType := Z.shiftl 1 14.
Definition GST_MESSAGE_ELEMENT : GstMessageType := Z.shiftl 1 15.
Definition GST_MESSAGE_SEGMENT_START : GstMessageType := Z.shiftl 1 16.
Definition GST_MESSAGE_SEGMENT_DONE : GstMessageType := Z.shiftl 1 17.
Definition GST_MESSAGE_DURATION_CHANGED : GstMessageType := Z.shiftl 1 18.
Definition GST_MESSAGE_LATENCY : GstMessageType := Z.shiftl 1 19.
Definition GST_MESSAGE_ASYNC_START : GstMessageType := Z.shiftl 1 20.
Definition GST_MESSAGE_ASYNC_DONE : GstMessageType := Z.shiftl 1 21.
Definition GST_MESSAGE_REQUEST_STATE : GstMessageType := Z.shiftl 1 22.
Definition GST_MESSAGE_STEP_START : GstMessageType := Z.shiftl 1 23.
Definition GST_MESSAGE_QOS : GstMessageType := Z.shiftl 1 24.
Definition GST_MESSAGE_PROGRESS : GstMessageType := Z.shiftl 1 25.
Definition GST_MESSAGE_TOC : GstMessageType := Z.shiftl 1 26.
Definition GST_MESSAGE_RESET_TIME : GstMessageType := Z.shiftl 1 27.
Definition GST_MESSAGE_STREAM_START : GstMessageType := Z.shiftl 1 28.
Definition GST_MESSAGE_NEED_CONTEXT : GstMessageType := Z.shiftl 1 29.
Definition GST_MESSAGE_HAVE_CONTEXT : GstMessageType := Z.shiftl 1 30.
(** [(gint) (1u << 31)]: the sign bit of a 32-bit int. *)
Definition GST_MESSAGE_EXTENDED : GstMessageType := - Z.shiftl 1 31.
Definition GST_MESSAGE_DEVICE_ADDED : GstMessageType := GST_MESSAGE_EXTENDED + 1.
Definition GST_MESSAGE_DEVICE_REMOVED : GstMessageType := GST_MESSAGE_EXTENDED + 2.
Definition GST_MESSAGE_PROPERTY_NOTIFY : GstMessageType := GST_MESSAGE_EXTENDED + 3.
Definition GST_MESSAGE_STREAM_COLLECTION : GstMessageType := GST_MESSAGE_EXTENDED + 4.
Definition GST_MESSAGE_STREAMS_SELECTED : GstMessageType := GST_MESSAGE_EXTENDED + 5.
Definition GST_MESSAGE_REDIRECT : GstMessageType := GST_MESSAGE_EXTENDED + 6.
Definition GST_MESSAGE_DEVICE_CHANGED : GstMessageType := GST_MESSAGE_EXTENDED + 7.
Definition GST_MESSAGE_INSTANT_RATE_REQUEST : GstMessageType := GST_MESSAGE_EXTENDED + 8.

(** The types a posted message can carry: one enumerator each. *)
Definition message_types : list GstMessageType :=
  [ GST_MESSAGE_UNKNOWN; GST_MESSAGE_EOS; GST_MESSAGE_ERROR;
    GST_MESSAGE_WARNING; GST_MESSAGE_INFO; GST_MESSAGE_TAG;
    GST_MESSAGE_BUFFERING; GST_MESSAGE_STATE_CHANGED;
    GST_MESSAGE_STATE_DIRTY; GST_MESSAGE_STEP_DONE;
    GST_MESSAGE_CLOCK_PROVIDE; GST_MESSAGE_CLOCK_LOST; GST_MESSAGE_NEW_CLOCK;
    GST_MESSAGE_STRUCTURE_CHANGE; GST_MESSAGE_STREAM_STATUS;
    GST_MESSAGE_APPLICATION; GST_MESSAGE_ELEMENT; GST_MESSAGE_SEGMENT_START;
    GST_MESSAGE_SEGMENT_DONE; GST_MESSAGE_DURATION_CHANGED;
    GST_MESSAGE_LATENCY; GST_MESSAGE_ASYNC_START; GST_MESSAGE_ASYNC_DONE;
    GST_MESSAGE_REQUEST_STATE; GST_MESSAGE_STEP_START; GST_MESSAGE_QOS;
    GST_MESSAGE_PROGRESS; GST_MESSAGE_TOC; GST_MESSAGE_RESET_TIME;
    GST_MESSAGE_STREAM_START; GST_MESSAGE_NEED_CONTEXT;
    GST_MESSAGE_HAVE_CONTEXT; GST_MESSAGE_DEVICE_ADDED;
    GST_MESSAGE_DEVICE_REMOVED; GST_MESSAGE_PROPERTY_NOTIFY;
    GST_MESSAGE_STREAM_COLLECTION; GST_MESSAGE_STREAMS_SELECTED;
    GST_MESSAGE_REDIRECT; GST_MESSAGE_DEVICE_CHANGED;
    GST_MESSAGE_INSTANT_RATE_REQUEST ].

Definition is_message_type (t : GstMessageType) : bool :=
  existsb (Z.eqb t) message_types.

(** A message on the bus, with the fields the parse functions read:
    [gst_message_parse_error] reads [msg_error] ([err->message]) and
    [msg_debug]; [gst_message_parse_state_changed] reads the three states. *)
Record GstMessage := {
  msg_type : GstMessageType;
  msg_src : GstObject;
  msg_error : string;
  msg_debug : option string;
  msg_old_state : GstState;
  msg_new_state : GstState;
  msg_pending_state : GstState
}.

(** [GstClockTime] is a guint64; [GST_CLOCK_TIME_NONE] is
    [(GstClockTime) -1]. *)
Definition GstClockTime := Z.
Definition GST_CLOCK_TIME_NONE : GstClockTime := 2 ^ 64 - 1.

(** Conversion of a 64-bit value to [gint64] (the [stop] argument of
    [gst_element_seek]). *)
Definition to_gint64 (x : Z) : Z := (x + 2 ^ 63) mod 2 ^ 64 - 2 ^ 63.

Inductive GstFormat :=
| GST_FORMAT_UNDEFINED | GST_FORMAT_DEFAULT | GST_FORMAT_BYTES
| GST_FORMAT_TIME | GST_FORMAT_BUFFERS | GST_FORMAT_PERCENT.

Inductive GstSeekType :=
| GST_SEEK_TYPE_NONE | GST_SEEK_TYPE_SET | GST_SEEK_TYPE_END.

(** [GstSeekFlags] is a bit set; the program passes one flag. *)
Definition GstSeekFlags := Z.
Definition GST_SEEK_FLAG_FLUSH : GstSeekFlags := Z.shiftl 1 0.

(** The callback registered with [g_signal_connect]. *)
Inductive Callback := CALLBACK_pad_added_handler.

(** ** The calls the program makes

    One constructor per API function the source calls, named as in the
    source.  The return value is recorded for the three calls whose result
    is read off a trace below: the bus wait, the seek and the pad link. *)
Inductive Call :=
| gst_init
| gst_element_factory_make (factoryname name : string)
| gst_pipeline_new (name : string)
| g_printerr (text : string)
| g_print (text : string)
| getchar
| gst_bin_add_many (bin : GstObject) (elements : list GstObject)
| gst_element_link (src dest : GstObject)
| gst_object_unref (object : GstObject)
| g_object_set (object : GstObject) (property value : string)
| g_signal_connect (instance : GstObject) (signal : string) (handler : Callback)
| gst_element_set_state (element : GstObject) (state : GstState)
| gst_element_get_bus (element : GstObject)
| gst_bus_timed_pop_filtered (bus : GstObject) (timeout : GstClockTime)
    (types : GstMessageType) (ret : option GstMessage)
| gst_message_parse_error (message : GstMessage)
| g_clear_error
| g_free
| gst_element_seek (element : GstObject) (rate : Q) (format : GstFormat)
    (flags : GstSeekFlags) (start_type : GstSeekType) (start : Z)
    (stop_type : GstSeekType) (stop : Z) (ret : bool)
| gst_message_parse_state_changed (message : GstMessage)
| gst_message_unref (message : GstMessage)
| gst_element_get_static_pad (element : GstObject) (name : string)
| gst_pad_is_linked (pad : GstObject)
| gst_pad_get_current_caps (pad : GstObject)
| gst_caps_get_structure (caps : option GstCaps) (index : nat)
| gst_pad_link (srcpad sinkpad : GstObject) (ret : GstPadLinkReturn)
| gst_caps_unref (caps : GstCaps).

Definition Trace := list Call.

(** How the process ends, as far as the script of answers goes. *)
Inductive Outcome :=
| Exit (status : Z)   (* [main] returned [status] *)
| Blocked             (* waiting in [gst_bus_timed_pop_filtered] for a
                         message that is never posted *)
| Running.            (* at the head of the loop, script of rounds used up *)

(** ** The answers of the framework *)

(** Answers that do not change during a run. *)
Record Framework := {
  (* result of [gst_element_factory_make (factoryname, name)] *)
  element_factory_make : string -> string -> option GstObject;
  (* result of [gst_pipeline_new (name)] *)
  pipeline_new : string -> option GstObject;
  (* result of [gst_element_link (src, dest)] *)
  element_link : GstObject -> GstObject -> bool;
  (* the bus of a pipeline *)
  element_get_bus : GstObject -> GstObject;
  (* the static pad of an element with the given name *)
  element_get_static_pad : GstObject -> string -> GstObject;
  (* [GST_OBJECT_NAME], [GST_ELEMENT_NAME], [GST_PAD_NAME] *)
  object_name : GstObject -> string
}.

(** The part of the framework's state the program observes: which pad is
    linked to which peer, and the messages posted on the pipeline's bus, in
    the order they are posted. *)
Record World := {
  peers : gmap positive positive;
  bus_queue : list GstMessage
}.

(** A pad-added signal from the source: the new pad, its current caps
    ([NULL] when none are negotiated) and what [gst_pad_link] would answer
    for it. *)
Record PadAdded := {
  pa_src : GstObject;
  pa_pad : GstObject;
  pa_caps : option GstCaps;
  pa_link : GstPadLinkReturn
}.

(** The answers used by one iteration of the playback loop: the result of
    setting the pipeline to playing, the pad-added signals emitted by the
    streaming threads while the control thread waits on the bus, and the
    result of the seek if one is requested. *)
Record Round := {
  set_state_ret : GstStateChangeReturn;
  pads : list PadAdded;
  seek_ret : bool
}.

(** *** Semantics of the framework functions the program depends on *)

(** [gst_pad_is_linked]: the pad has a peer. *)
Definition pad_is_linked (w : World) (pad : GstObject) : bool :=
  match peers w !! pad with Some _ => true | None => false end.

(** [gst_pad_link]: on [GST_PAD_LINK_OK] the two pads become peers of each
    other; any other result leaves them as they were.  The answer itself is
    left to the framework. *)
Definition pad_link (w : World) (srcpad sinkpad : GstObject)
    (answer : GstPadLinkReturn) : World :=
  match answer with
  | GST_PAD_LINK_OK =>
      {| peers := <[srcpad := sinkpad]> (<[sinkpad := srcpad]> (peers w));
         bus_queue := bus_queue w |}
  | _ => w
  end.

(** [gst_caps_get_structure]: the structure at [index]; [NULL] when the
    caps are [NULL] or shorter (the checked build's [g_return_val_if_fail]). *)
Definition caps_get_structure (caps : option GstCaps) (index : nat)
    : option GstStructure :=
  match caps with
  | Some c => nth_error c index
  | None => None
  end.

(** [gst_structure_get_name]; [NULL] for a [NULL] structure. *)
Definition structure_get_name (s : option GstStructure) : option string :=
  match s with
  | Some s => Some (structure_name s)
  | None => None
  end.

(** [g_str_has_prefix (str, prefix)]; [FALSE] for a [NULL] string. *)
Definition g_str_has_prefix (str : option string) (prefix : string) : bool :=
  match str with
  | Some s => String.prefix prefix s
  | None => false
  end.

(** [GST_MESSAGE_TYPE_IS_EXTENDED]. *)
Definition GST_MESSAGE_TYPE_IS_EXTENDED (m : GstMessage) : bool :=
  negb (Z.land (msg_type m) GST_MESSAGE_EXTENDED =? 0).

(** The test of gstbus.c on each queued message: the type meets the mask,
    and an extended type is matched only when the mask asks for extended
    types. *)
Definition message_matches (types : GstMessageType) (m : GstMessage) : bool :=
  negb (Z.land (msg_type m) types =? 0)
  && (negb (GST_MESSAGE_TYPE_IS_EXTENDED m)
      || negb (Z.land types GST_MESSAGE_EXTENDED =? 0)).

(** The first queued message that matches, and the queue after it; the
    messages before it are discarded. *)
Fixpoint pop_matching (types : GstMessageType) (queue : list GstMessage)
    : option (GstMessage * list GstMessage) :=
  match queue with
  | [] => None
  | m :: queue' =>
      if message_matches types m then Some (m, queue')
      else pop_matching types queue'
  end.

Inductive BusWait :=
| Returns (msg : option GstMessage) (queue : list GstMessage)
| Never.

(** [gst_bus_timed_pop_filtered]: the first matching message; when none is
    ever posted the call returns [NULL] after a finite timeout and does not
    return with [GST_CLOCK_TIME_NONE]. *)
Definition bus_timed_pop_filtered (queue : list GstMessage)
    (timeout : GstClockTime) (types : GstMessageType) : BusWait :=
  match pop_matching types queue with
  | Some (m, queue') => Returns (Some m) queue'
  | None => if timeout =? GST_CLOCK_TIME_NONE then Never else Returns None []
  end.

(** ** Sequencing of calls with early exit *)

Inductive Step (A : Type) :=
| Next (a : A)
| Stop (o : Outcome).
Arguments Next {A} a.
Arguments Stop {A} o.

Definition Prog (A : Type) : Type := Trace * Step A.

Definition ret {A} (a : A) : Prog A := ([], Next a).

Definition bind {A B} (p : Prog A) (k : A -> Prog B) : Prog B :=
  match p with
  | (t, Next a) => let (t', s) := k a in (t ++ t', s)
  | (t, Stop o) => (t, Stop o)
  end.

Definition call (c : Call) : Prog unit := ([c], Next tt).
Definition calls (t : Trace) : Prog unit := (t, Next tt).
(** [return status;] in [main]. *)
Definition exit {A} (status : Z) : Prog A := ([], Stop (Exit status)).
Definition stop {A} (o : Outcome) : Prog A := ([], Stop o).

Declare Scope prog_scope.
Delimit Scope prog_scope with prog.
Notation "x <- c ;; k" := (bind c (fun x => k))
  (at level 100, c at next level, right associativity) : prog_scope.
Notation "c ;; k" := (bind c (fun _ => k))
  (at level 100, right associativity) : prog_scope.

(** The run of [main]: falling off the end is [return]. *)
Definition run (p : Prog Z) : Trace * Outcome :=
  match p with
  | (t, Next status) => (t, Exit status)
  | (t, Stop o) => (t, o)
  end.

(** Line feed, and [%s] of a possibly [NULL] string. *)
Definition LF : string := String (Ascii.ascii_of_nat 10) EmptyString.
Definition fmt_s (s : option string) : string :=
  match s with
  | Some s => s
  | None => "(null)"
  end.

(** ** The program *)

(** [struct _CustomData], after the null check of [main]: five live
    elements. *)
Record CustomData := {
  pipeline : GstObject;
  source : GstObject;
  videoconvert : GstObject;
  videosink : GstObject;
  filter : GstObject
}.

(** [inline GstMessageType operator | (GstMessageType lhs, GstMessageType rhs)]:
    both operands cast to int and or-ed. *)
Definition operator_or (lhs rhs : GstMessageType) : GstMessageType :=
  Z.lor lhs rhs.

Module PadAddedHandler.

(** The code at the label [exit]: the caps are unreferenced if the handler
    got them, then the sink pad. *)
Definition exit_label (new_pad_caps : option GstCaps)
    (video_sink_pad : GstObject) : Trace :=
  match new_pad_caps with
  | Some caps => [gst_caps_unref caps]
  | None => []
  end ++ [gst_object_unref video_sink_pad].

(** The handler down to the label [exit]: the calls made, the value of
    [new_pad_caps] on arrival there, and the world. *)
Definition body (fw : Framework) (ev : PadAdded) (data : CustomData)
    (video_sink_pad : GstObject) (w : World)
    : Trace * option GstCaps * World :=
  let src := pa_src ev in
  let new_pad := pa_pad ev in
  let t0 :=
    [g_print ("Received new pad " +:+ object_name fw new_pad +:+ " from "
              +:+ object_name fw src +:+ ":" +:+ LF);
     gst_pad_is_linked video_sink_pad] in
  (* If our converter is already linked, we have nothing to do here *)
  if pad_is_linked w video_sink_pad then
    (t0 ++ [g_print ("We are already linked. Ignoring." +:+ LF)], None, w)
  else
    (* Check the new pad's type *)
    let new_pad_caps := pa_caps ev in
    let new_pad_struct := caps_get_structure new_pad_caps 0 in
    let new_pad_type := structure_get_name new_pad_struct in
    let t1 :=
      t0 ++ [gst_pad_get_current_caps new_pad;
             gst_caps_get_structure new_pad_caps 0] in
    if negb (g_str_has_prefix new_pad_type "video/x-raw") then
      (t1 ++ [g_print ("It has type '" +:+ fmt_s new_pad_type
                       +:+ "', which is not raw video. Ignoring." +:+ LF)],
       new_pad_caps, w)
    else
      (* Attempt the link *)
      let ret := pa_link ev in
      let w' := pad_link w new_pad video_sink_pad ret in
      let t2 := t1 ++ [gst_pad_link new_pad video_sink_pad ret] in
      if GST_PAD_LINK_FAILED ret then
        (t2 ++ [g_print ("Type is '" +:+ fmt_s new_pad_type
                         +:+ "', but link failed." +:+ LF)],
         new_pad_caps, w')
      else
        (t2 ++ [g_print ("Link succeeded (type '" +:+ fmt_s new_pad_type
                         +:+ "'). " +:+ LF)],
         new_pad_caps, w').

End PadAddedHandler.

(** [static void pad_added_handler (GstElement *src, GstPad *new_pad,
    CustomData *data)]; [src] and [new_pad] are the signal's. *)
Definition pad_added_handler (fw : Framework) (ev : PadAdded)
    (data : CustomData) (w : World) : Trace * World :=
  let video_sink_pad := element_get_static_pad fw (videoconvert data) "sink" in
  let '(t, new_pad_caps, w') :=
    PadAddedHandler.body fw ev data video_sink_pad w in
  ([gst_element_get_static_pad (videoconvert data) "sink"] ++ t
   ++ PadAddedHandler.exit_label new_pad_caps video_sink_pad,
   w').

(** The pad-added signals of one round, delivered to the handler in order. *)
Fixpoint pad_added_signals (fw : Framework) (evs : list PadAdded)
    (data : CustomData) (w : World) : Trace * World :=
  match evs with
  | [] => ([], w)
  | ev :: evs' =>
      let (t, w1) := pad_added_handler fw ev data w in
      let (t', w2) := pad_added_signals fw evs' data w1 in
      (t ++ t', w2)
  end.

Module Main.

Local Open Scope prog_scope.

(** The message types the bus wait of [main] asks for. *)
Definition bus_types : GstMessageType :=
  operator_or (operator_or GST_MESSAGE_STATE_CHANGED GST_MESSAGE_ERROR)
              GST_MESSAGE_EOS.

(** [switch (GST_MESSAGE_TYPE (msg))]: the calls of the branch taken and the
    value of [terminate] after it. *)
Definition message_switch (fw : Framework) (data : CustomData)
    (seek_answer : bool) (msg : GstMessage) (terminate : bool)
    : Trace * bool :=
  let type := msg_type msg in
  if type =? GST_MESSAGE_ERROR then
    ([gst_message_parse_error msg;
      g_printerr ("Error received from element "
                  +:+ object_name fw (msg_src msg) +:+ ": "
                  +:+ msg_error msg +:+ LF);
      g_printerr ("Debugging information: "
                  +:+ match msg_debug msg with
                      | Some debug_info => debug_info
                      | None => "none"
                      end +:+ " " +:+ LF);
      g_clear_error;
      g_free],
     true)
  else if type =? GST_MESSAGE_EOS then
    ([g_print ("End-Of-Stream reached." +:+ LF);
      (* If end-of-stream reached, restart from the beginning *)
      gst_element_seek (pipeline data) 1%Q GST_FORMAT_TIME GST_SEEK_FLAG_FLUSH
        GST_SEEK_TYPE_SET 0 GST_SEEK_TYPE_NONE (to_gint64 GST_CLOCK_TIME_NONE)
        seek_answer]
     ++ (if negb seek_answer then [g_print ("Seek failed!" +:+ LF)] else []),
     false)
  else if type =? GST_MESSAGE_STATE_CHANGED then
    (* We are only interested in state-changed messages from the pipeline *)
    (if Pos.eqb (msg_src msg) (pipeline data) then
       [gst_message_parse_state_changed msg;
        g_print ("Pipeline state changed from "
                 +:+ gst_element_state_get_name (msg_old_state msg) +:+ " to "
                 +:+ gst_element_state_get_name (msg_new_state msg) +:+ ":"
                 +:+ LF)]
     else [],
     terminate)
  else
    (* Should not be reached, but just in case *)
    ([g_printerr ("Unexpected message received." +:+ LF)], terminate).

(** One pass through the body of the do-while loop.  It yields the values
    of [terminate] and [bus] at the loop test, and the world. *)
Definition loop_body (fw : Framework) (data : CustomData) (r : Round)
    (w : World) (terminate : bool) : Prog (bool * GstObject * World) :=
  (* Start playing *)
  let ret_ := set_state_ret r in
  call (gst_element_set_state (pipeline data) GST_STATE_PLAYING) ;;
  if GstStateChangeReturn_eqb ret_ GST_STATE_CHANGE_FAILURE then
    call (g_printerr ("Unable to set pipeline to the playing state." +:+ LF)) ;;
    call (gst_object_unref (pipeline data)) ;;
    call getchar ;;
    exit (-1)
  else
    (* Listen to the bus *)
    let bus := element_get_bus fw (pipeline data) in
    call (gst_element_get_bus (pipeline data)) ;;
    (* meanwhile, on the streaming threads *)
    let (signals, w1) := pad_added_signals fw (pads r) data w in
    calls signals ;;
    match bus_timed_pop_filtered (bus_queue w1) GST_CLOCK_TIME_NONE
            bus_types with
    | Never => stop Blocked
    | Returns msg queue =>
        let w2 := {| peers := peers w1; bus_queue := queue |} in
        call (gst_bus_timed_pop_filtered bus GST_CLOCK_TIME_NONE bus_types
                msg) ;;
        (* Parse message *)
        match msg with
        | Some m =>
            let (t, terminate') :=
              message_switch fw data (seek_ret r) m terminate in
            calls t ;;
            call (gst_message_unref m) ;;
            ret (terminate', bus, w2)
        | None => ret (terminate, bus, w2)
        end
    end.

(** [do { ... } while (!terminate);] over the script of rounds; it yields
    [bus] when the loop is left through its test. *)
Fixpoint play_loop (fw : Framework) (data : CustomData) (rounds : list Round)
    (w : World) (terminate : bool) : Prog GstObject :=
  match rounds with
  | [] => stop Running
  | r :: rounds' =>
      after <- loop_body fw data r w terminate ;;
      let '(terminate', bus, w') := after in
      if negb terminate' then play_loop fw data rounds' w' terminate'
      else ret bus
  end.

(** The statements of [main] after the elements are known to exist. *)
Definition play (fw : Framework) (data : CustomData) (rounds : list Round)
    (w : World) : Prog Z :=
  let terminate := false in
  (* Construct the pipeline and link everything but the source *)
  call (gst_bin_add_many (pipeline data)
          [source data; videoconvert data; filter data; videosink data]) ;;
  call (gst_element_link (videoconvert data) (filter data)) ;;
  if negb (element_link fw (videoconvert data) (filter data)) then
    call (g_printerr ("Elements could not be linked." +:+ LF)) ;;
    call (gst_object_unref (pipeline data)) ;;
    call getchar ;;
    exit (-1)
  else
  call (gst_element_link (filter data) (videosink data)) ;;
  if negb (element_link fw (filter data) (videosink data)) then
    call (g_printerr ("Elements could not be linked." +:+ LF)) ;;
    call (gst_object_unref (pipeline data)) ;;
    call getchar ;;
    exit (-1)
  else
  (* Set the URI to the test video, must be set by the user *)
  call (g_object_set (source data) "uri"
          "file:///C:/Change/to/Address/to/Repository/ContextVision/media/testvideo4.mp4") ;;
  (* Connect to pad-added signal for dynamic pipeline handling *)
  call (g_signal_connect (source data) "pad-added" CALLBACK_pad_added_handler) ;;
  (* Video playing loop *)
  bus <- play_loop fw data rounds w terminate ;;
  (* Free resources *)
  call (gst_object_unref bus) ;;
  call (gst_element_set_state (pipeline data) GST_STATE_NULL) ;;
  call (gst_object_unref (pipeline data)) ;;
  call getchar ;;
  ret 0.

(** The statements of [main] that create the elements. *)
Definition create : Trace :=
  [ gst_init;
    gst_element_factory_make "uridecodebin" "source";
    gst_element_factory_make "videoconvert" "videoconvert";
    gst_element_factory_make "blurfilter" "blurfilter";
    gst_element_factory_make "autovideosink" "videosink";
    gst_pipeline_new "video-pipeline" ].

End Main.

(** [int main (int argc, char *argv[])]. *)
Definition main (fw : Framework) (rounds : list Round) (w : World)
    : Trace * Outcome :=
  let data_source := element_factory_make fw "uridecodebin" "source" in
  let data_videoconvert := element_factory_make fw "videoconvert" "videoconvert" in
  let data_filter := element_factory_make fw "blurfilter" "blurfilter" in
  let data_videosink := element_factory_make fw "autovideosink" "videosink" in
  let data_pipeline := pipeline_new fw "video-pipeline" in
  run (bind (calls Main.create) (fun _ =>
    match data_pipeline, data_source, data_videosink, data_videoconvert,
          data_filter with
    | Some p, Some s, Some vs, Some vc, Some f =>
        Main.play fw
          {| pipeline := p; source := s; videoconvert := vc;
             videosink := vs; filter := f |}
          rounds w
    | _, _, _, _, _ =>
        bind (call (g_printerr ("All elements could not be created." +:+ LF)))
          (fun _ => bind (call getchar) (fun _ => exit (-1)))
    end)).

(** ** Reading a trace *)

Definition is_pad_link (c : Call) : bool :=
  match c with
  | gst_pad_link _ _ _ => true
  | _ => false
  end.

(** The calls of [gst_pad_link] in a trace. *)
Definition link_attempts (t : Trace) : Trace := List.filter is_pad_link t.

Definition is_link_established (c : Call) : bool :=
  match c with
  | gst_pad_link _ _ GST_PAD_LINK_OK => true
  | _ => false
  end.

(** The calls of [gst_pad_link] that returned [GST_PAD_LINK_OK]. *)
Definition links_established (t : Trace) : Trace :=
  List.filter is_link_established t.

Definition is_seek (c : Call) : bool :=
  match c with
  | gst_element_seek _ _ _ _ _ _ _ _ _ => true
  | _ => false
  end.

(** The calls of [gst_element_seek] in a trace. *)
Definition seeks (t : Trace) : Trace := List.filter is_seek t.

Definition is_eos_received (c : Call) : bool :=
  match c with
  | gst_bus_timed_pop_filtered _ _ _ (Some m) => msg_type m =? GST_MESSAGE_EOS
  | _ => false
  end.

(** The bus waits that returned an end-of-stream message. *)
Definition eos_received (t : Trace) : Trace := List.filter is_eos_received t.

Definition is_print (c : Call) : bool :=
  match c with
  | g_print _ | g_printerr _ => true
  | _ => false
  end.

(** What the program writes on the console. *)
Definition console (t : Trace) : Trace := List.filter is_print t.

(** The media type the handler reads off the new pad: the name of the first
    structure of its current caps. *)
Definition new_pad_type (ev : PadAdded) : option string :=
  structure_get_name (caps_get_structure (pa_caps ev) 0).

(** The converter's sink pad, as the handler looks it up. *)
Definition video_sink_pad (fw : Framework) (data : CustomData) : GstObject :=
  element_get_static_pad fw (videoconvert data) "sink".

(** ** A concrete playback session

    Addresses 1 to 5 are the source, the converter, the filter, the sink
    and the pipeline; 6 is the bus, 7 the converter's sink pad, 8 and 9 are
    pads announced by the source. *)
Module Demo.

Definition fw : Framework := {|
  element_factory_make := fun factoryname _ =>
    if String.eqb factoryname "uridecodebin" then Some 1%positive
    else if String.eqb factoryname "videoconvert" then Some 2%positive
    else if String.eqb factoryname "blurfilter" then Some 3%positive
    else Some 4%positive;
  pipeline_new := fun _ => Some 5%positive;
  element_link := fun _ _ => true;
  element_get_bus := fun _ => 6%positive;
  element_get_static_pad := fun _ _ => 7%positive;
  object_name := fun o =>
    match o with
    | 1%positive => "source"
    | 2%positive => "videoconvert"
    | 3%positive => "blurfilter"
    | 4%positive => "videosink"
    | 5%positive => "video-pipeline"
    | 7%positive => "sink"
    | 8%positive => "src_0"
    | _ => "src_1"
    end
|}.

(** The same framework without the blurfilter plugin installed. *)
Definition fw_without_filter : Framework := {|
  element_factory_make := fun factoryname name =>
    if String.eqb factoryname "blurfilter" then None
    else element_factory_make fw factoryname name;
  pipeline_new := pipeline_new fw;
  element_link := element_link fw;
  element_get_bus := element_get_bus fw;
  element_get_static_pad := element_get_static_pad fw;
  object_name := object_name fw
|}.

Definition data : CustomData := {|
  pipeline := 5%positive; source := 1%positive;
  videoconvert := 2%positive; videosink := 4%positive; filter := 3%positive
|}.

Definition message (type : GstMessageType) (src : GstObject) : GstMessage := {|
  msg_type := type;
  msg_src := src;
  msg_error := "Internal data stream error.";
  msg_debug := None;
  msg_old_state := GST_STATE_READY;
  msg_new_state := GST_STATE_PAUSED;
  msg_pending_state := GST_STATE_PLAYING
|}.

Definition video_pad : PadAdded := {|
  pa_src := 1%positive; pa_pad := 8%positive;
  pa_caps := Some [ {| structure_name := "video/x-raw" |} ];
  pa_link := GST_PAD_LINK_OK
|}.

Definition audio_pad : PadAdded := {|
  pa_src := 1%positive; pa_pad := 9%positive;
  pa_caps := Some [ {| structure_name := "audio/x-raw" |} ];
  pa_link := GST_PAD_LINK_OK
|}.

(** A pad announced before its caps are negotiated. *)
Definition pad_without_caps : PadAdded := {|
  pa_src := 1%positive; pa_pad := 9%positive;
  pa_caps := None;
  pa_link := GST_PAD_LINK_OK
|}.

Definition unlinked (queue : list GstMessage) : World :=
  {| peers := ∅; bus_queue := queue |}.

Definition linked (queue : list GstMessage) : World :=
  {| peers := <[8%positive := 7%positive]> (<[7%positive := 8%positive]> ∅);
     bus_queue := queue |}.

Definition round (ret_ : GstStateChangeReturn) (signals : list PadAdded)
    (seek_answer : bool) : Round :=
  {| set_state_ret := ret_; pads := signals; seek_ret := seek_answer |}.

End Demo.

(** ** The shape of a run *)

(** Link budget of the converter: 1 while its sink pad is free, 0 once the
    pad has a peer. *)
Definition links_left (fw : Framework) (data : CustomData) (w : World) : nat :=
  if pad_is_linked w (video_sink_pad fw data) then 0%nat else 1%nat.

(** The calls of an iteration of the loop up to the bus wait. *)
Definition until_wait (fw : Framework) (data : CustomData) (r : Round)
    (w : World) : Trace :=
  [gst_element_set_state (pipeline data) GST_STATE_PLAYING;
   gst_element_get_bus (pipeline data)]
  ++ fst (pad_added_signals fw (pads r) data w).

(** The world when the bus wait has returned and left [queue]. *)
Definition after_wait (fw : Framework) (data : CustomData) (r : Round)
    (w : World) (queue : list GstMessage) : World :=
  {| peers := peers (snd (pad_added_signals fw (pads r) data w));
     bus_queue := queue |}.

(** The calls of an iteration in which the bus wait returns [m]. *)
Definition iteration (fw : Framework) (data : CustomData) (r : Round)
    (w : World) (terminate : bool) (m : GstMessage) : Trace :=
  until_wait fw data r w
  ++ [gst_bus_timed_pop_filtered (element_get_bus fw (pipeline data))
        GST_CLOCK_TIME_NONE Main.bus_types (Some m)]
  ++ fst (Main.message_switch fw data (seek_ret r) m terminate)
  ++ [gst_message_unref m].

(** The calls of the iteration in which the pipeline cannot be set to
    playing. *)
Definition set_state_failed (data : CustomData) : Trace :=
  [gst_element_set_state (pipeline data) GST_STATE_PLAYING;
   g_printerr ("Unable to set pipeline to the playing state." +:+ LF);
   gst_object_unref (pipeline data);
   getchar].

(** The calls of the error branch of the switch. *)
Definition error_report (fw : Framework) (m : GstMessage) : Trace :=
  [gst_message_parse_error m;
   g_printerr ("Error received from element "
               +:+ object_name fw (msg_src m) +:+ ": "
               +:+ msg_error m +:+ LF);
   g_printerr ("Debugging information: "
               +:+ match msg_debug m with
                   | Some debug_info => debug_info
                   | None => "none"
                   end +:+ " " +:+ LF);
   g_clear_error;
   g_free].

(** The runs of the do-while loop from a world and a value of [terminate]:
    the calls made and how the loop is left. *)
Inductive LoopRun (fw : Framework) (data : CustomData)
    : World -> bool -> Trace -> Step GstObject -> Prop :=
| LoopRun_script_end w terminate :
    LoopRun fw data w terminate [] (Stop Running)
| LoopRun_set_state_failure w terminate :
    LoopRun fw data w terminate (set_state_failed data) (Stop (Exit (-1)))
| LoopRun_blocked w terminate r :
    pop_matching Main.bus_types (bus_queue w) = None ->
    LoopRun fw data w terminate (until_wait fw data r w) (Stop Blocked)
| LoopRun_terminate w terminate r m queue :
    pop_matching Main.bus_types (bus_queue w) = Some (m, queue) ->
    snd (Main.message_switch fw data (seek_ret r) m terminate) = true ->
    LoopRun fw data w terminate (iteration fw data r w terminate m)
      (Next (element_get_bus fw (pipeline data)))
| LoopRun_again w terminate r m queue t s :
    pop_matching Main.bus_types (bus_queue w) = Some (m, queue) ->
    snd (Main.message_switch fw data (seek_ret r) m terminate) = false ->
    LoopRun fw data (after_wait fw data r w queue) false t s ->
    LoopRun fw data w terminate (iteration fw data r w terminate m ++ t) s.

(** The calls of [main] between the creation of the elements and the loop. *)
Definition static_phase (data : CustomData) : Trace :=
  [gst_bin_add_many (pipeline data)
     [source data; videoconvert data; filter data; videosink data];
   gst_element_link (videoconvert data) (filter data);
   gst_element_link (filter data) (videosink data);
   g_object_set (source data) "uri"
     "file:///C:/Change/to/Address/to/Repository/ContextVision/media/testvideo4.mp4";
   g_signal_connect (source data) "pad-added" CALLBACK_pad_added_handler].

(** The calls of [main] after the loop. *)
Definition shutdown (data : CustomData) (bus : GstObject) : Trace :=
  [gst_object_unref bus;
   gst_element_set_state (pipeline data) GST_STATE_NULL;
   gst_object_unref (pipeline data);
   getchar].

(** The elements [main] obtained, when it obtained all five. *)
Definition created (fw : Framework) : option CustomData :=
  match pipeline_new fw "video-pipeline",
        element_factory_make fw "uridecodebin" "source",
        element_factory_make fw "autovideosink" "videosink",
        element_factory_make fw "videoconvert" "videoconvert",
        element_factory_make fw "blurfilter" "blurfilter" with
  | Some p, Some s, Some vs, Some vc, Some f =>
      Some {| pipeline := p; source := s; videoconvert := vc;
              videosink := vs; filter := f |}
  | _, _, _, _, _ => None
  end.

(** The calls the pad-added handler can make. *)
Definition is_handler_call (c : Call) : bool :=
  match c with
  | gst_element_get_static_pad _ _ | g_print _ | gst_pad_is_linked _
  | gst_pad_get_current_caps _ | gst_caps_get_structure _ _
  | gst_pad_link _ _ _ | gst_caps_unref _ | gst_object_unref _ => true
  | _ => false
  end.

(** The seek of the end-of-stream branch: back to position 0 of the given
    pipeline, flushing, at rate 1.0, with no stop position. *)
Definition seek_to_start (p : GstObject) (answer : bool) : Call :=
  gst_element_seek p 1%Q GST_FORMAT_TIME GST_SEEK_FLAG_FLUSH
    GST_SEEK_TYPE_SET 0 GST_SEEK_TYPE_NONE (-1) answer.

(** A trace in which receiving an end-of-stream message and requesting a
    seek alternate, starting and ending with no seek owed: [owed] tells
    whether an end-of-stream message still waits for its seek. *)
Fixpoint seeks_alternate (owed : bool) (t : Trace) : bool :=
  match t with
  | [] => negb owed
  | c :: t' =>
      if is_seek c then owed && seeks_alternate false t'
      else if is_eos_received c then negb owed && seeks_alternate true t'
      else seeks_alternate owed t'
  end.

(** What [main] does once the loop is left: the shutdown calls and
    [return 0] when it is left through its test. *)
Definition finish (data : CustomData) (s : Step GstObject) : Trace :=
  match s with
  | Next bus => shutdown data bus
  | Stop _ => []
  end.

Definition outcome_of (s : Step GstObject) : Outcome :=
  match s with
  | Next _ => Exit 0
  | Stop o => o
  end.

(** The calls that report a failure at startup. *)
Definition not_created : Trace :=
  [g_printerr ("All elements could not be created." +:+ LF); getchar].

Definition first_link_failed (data : CustomData) : Trace :=
  [gst_bin_add_many (pipeline data)
     [source data; videoconvert data; filter data; videosink data];
   gst_element_link (videoconvert data) (filter data);
   g_printerr ("Elements could not be linked." +:+ LF);
   gst_object_unref (pipeline data);
   getchar].

Definition second_link_failed (data : CustomData) : Trace :=
  [gst_bin_add_many (pipeline data)
     [source data; videoconvert data; filter data; videosink data];
   gst_element_link (videoconvert data) (filter data);
   gst_element_link (filter data) (videosink data);
   g_printerr ("Elements could not be linked." +:+ LF);
   gst_object_unref (pipeline data);
   getchar].

(** The runs of [main] in a world: the calls made and the outcome. *)
Inductive MainRun (fw : Framework) (w : World) : Trace -> Outcome -> Prop :=
| MainRun_not_created :
    created fw = None ->
    MainRun fw w (Main.create ++ not_created) (Exit (-1))
| MainRun_first_link_failed data :
    created fw = Some data ->
    element_link fw (videoconvert data) (filter data) = false ->
    MainRun fw w (Main.create ++ first_link_failed data) (Exit (-1))
| MainRun_second_link_failed data :
    created fw = Some data ->
    element_link fw (videoconvert data) (filter data) = true ->
    element_link fw (filter data) (videosink data) = false ->
    MainRun fw w (Main.create ++ second_link_failed data) (Exit (-1))
| MainRun_loop data t s :
    created fw = Some data ->
    element_link fw (videoconvert data) (filter data) = true ->
    element_link fw (filter data) (videosink data) = true ->
    LoopRun fw data w false t s ->
    MainRun fw w (Main.create ++ static_phase data ++ t ++ finish data s)
      (outcome_of s).

(** What is shown of each stretch of a run: end of stream and seek
    alternate, there are as many of the one as of the other, and every seek
    is the seek to the start of the pipeline. *)
Definition seeks_follow_eos (p : GstObject) (t : Trace) : Prop :=
  seeks_alternate false t = true
  /\ length (seeks t) = length (eos_received t)
  /\ Forall (fun c => exists answer, c = seek_to_start p answer) (seeks t).


(** Every message posted on the bus carries one of the message types. *)
Definition well_typed_queue (queue : list GstMessage) : Prop :=
  Forall (fun m => is_message_type (msg_type m) = true) queue.

(** What is shown of each call of a run about the bus wait: it is made with
    no timeout and the mask of the three types, it returns a message of one
    of the three types, and the default branch's report is never printed. *)
Definition bus_wait_as_filtered (c : Call) : Prop :=
  match c with
  | gst_bus_timed_pop_filtered _ timeout types ret =>
      timeout = GST_CLOCK_TIME_NONE
      /\ types = Z.lor (Z.lor GST_MESSAGE_STATE_CHANGED GST_MESSAGE_ERROR)
                       GST_MESSAGE_EOS
      /\ exists m, ret = Some m
                   /\ (msg_type m = GST_MESSAGE_STATE_CHANGED
                       \/ msg_type m = GST_MESSAGE_ERROR
                       \/ msg_type m = GST_MESSAGE_EOS)
  | g_printerr text => text <> "Unexpected message received." +:+ LF
  | _ => True
  end.

Definition is_bus_wait (c : Call) : bool :=
  match c with
  | gst_bus_timed_pop_filtered _ _ _ _ => true
  | _ => false
  end.

Definition is_element_link (c : Call) : bool :=
  match c with
  | gst_element_link _ _ => true
  | _ => false
  end.

(** How the loop can be left when it is entered with [terminate] FALSE:
    through its test after the report of an error message, or by the
    [return -1] that follows a failed change to playing. *)
Definition loop_left (fw : Framework) (data : CustomData) (t : Trace)
    (s : Step GstObject) : Prop :=
  match s with
  | Next bus =>
      bus = element_get_bus fw (pipeline data)
      /\ exists t0 m,
           msg_type m = GST_MESSAGE_ERROR
           /\ t = t0
                  ++ [gst_bus_timed_pop_filtered
                        (element_get_bus fw (pipeline data))
                        GST_CLOCK_TIME_NONE Main.bus_types (Some m)]
                  ++ error_report fw m ++ [gst_message_unref m]
  | Stop (Exit status) =>
      status = -1 /\ exists t0, t = t0 ++ set_state_failed data
  | Stop Blocked | Stop Running => True
  end.

(** A call of [gst_pad_link] onto the converter's sink pad. *)
Definition links_converter (fw : Framework) (data : CustomData) (c : Call)
    : Prop :=
  exists new_pad ret_, c = gst_pad_link new_pad (video_sink_pad fw data) ret_.

(** What is shown of each stretch of a run started in world [w]: it
    establishes no more links than the converter has left, and links
    nothing but the converter's sink pad. *)
Definition links_within (fw : Framework) (data : CustomData) (w : World)
    (t : Trace) : Prop :=
  (length (links_established t) <= links_left fw data w)%nat
  /\ Forall (links_converter fw data) (link_attempts t).

(** ** Further readings of a trace *)

(** A value of a 32-bit [int], the type [operator |] computes in. *)
Definition is_int (x : Z) : Prop := - 2 ^ 31 <= x < 2 ^ 31.

Definition message_received (c : Call) : list GstMessage :=
  match c with
  | gst_bus_timed_pop_filtered _ _ _ (Some m) => [m]
  | _ => []
  end.

(** The messages the bus waits of a trace returned, in order. *)
Definition received (t : Trace) : list GstMessage :=
  flat_map message_received t.

Definition message_released (c : Call) : list GstMessage :=
  match c with
  | gst_message_unref m => [m]
  | _ => []
  end.

(** The messages handed to [gst_message_unref], in order. *)
Definition released (t : Trace) : list GstMessage :=
  flat_map message_released t.

Definition caps_released (c : Call) : list GstCaps :=
  match c with
  | gst_caps_unref caps => [caps]
  | _ => []
  end.

(** The caps handed to [gst_caps_unref], in order. *)
Definition caps_unrefs (t : Trace) : list GstCaps := flat_map caps_released t.

Definition is_get_current_caps (c : Call) : bool :=
  match c with
  | gst_pad_get_current_caps _ => true
  | _ => false
  end.

Definition is_get_static_pad (c : Call) : bool :=
  match c with
  | gst_element_get_static_pad _ _ => true
  | _ => false
  end.

Definition is_object_unref (c : Call) : bool :=
  match c with
  | gst_object_unref _ => true
  | _ => false
  end.

Definition is_unref_of (object : GstObject) (c : Call) : bool :=
  match c with
  | gst_object_unref o => Pos.eqb o object
  | _ => false
  end.

(** How often a trace unreferences the given object. *)
Definition unrefs_of (object : GstObject) (t : Trace) : nat :=
  length (List.filter (is_unref_of object) t).

Definition is_set_playing (c : Call) : bool :=
  match c with
  | gst_element_set_state _ GST_STATE_PLAYING => true
  | _ => false
  end.

Definition is_get_bus (c : Call) : bool :=
  match c with
  | gst_element_get_bus _ => true
  | _ => false
  end.

Definition is_getchar (c : Call) : bool :=
  match c with
  | getchar => true
  | _ => false
  end.

(** How often a trace makes a call of the given kind. *)
Definition count (kind : Call -> bool) (t : Trace) : nat :=
  length (List.filter kind t).

(** The iterations of the loop a run has begun, has got the bus in, and has
    got a message in, against the way the loop is left. *)
Definition iterations_accounted (t : Trace) (s : Step GstObject) : Prop :=
  let playing := count is_set_playing t in
  let buses := count is_get_bus t in
  let messages := length (received t) in
  match s with
  | Next _ => playing = buses /\ buses = messages /\ (1 <= messages)%nat
  | Stop (Exit _) => playing = S buses /\ buses = messages
  | Stop Blocked => playing = buses /\ buses = S messages
  | Stop Running => playing = buses /\ buses = messages
  end.

(** An error message, if one is among the messages, is the last of them. *)
Definition error_is_last (messages : list GstMessage) : Prop :=
  forall before m after,
    messages = before ++ m :: after ->
    msg_type m = GST_MESSAGE_ERROR ->
    after = [].

Definition is_exit (o : Outcome) : bool :=
  match o with
  | Exit _ => true
  | _ => false
  end.

(** The calls the switch on the message type can make. *)
Definition is_switch_call (c : Call) : bool :=
  match c with
  | gst_message_parse_error _ | g_printerr _ | g_print _ | g_clear_error
  | g_free | gst_element_seek _ _ _ _ _ _ _ _ _
  | gst_message_parse_state_changed _ => true
  | _ => false
  end.

(** The calls [main] makes outside the loop that involve neither the bus
    nor a message. *)
Definition is_startup_call (c : Call) : bool :=
  match c with
  | gst_init | gst_element_factory_make _ _ | gst_pipeline_new _
  | g_printerr _ | gst_bin_add_many _ _ | gst_element_link _ _
  | g_object_set _ _ _ | g_signal_connect _ _ _ => true
  | _ => false
  end.

(** A pad-added signal the handler can turn into a link: the pad carries raw
    video and the framework accepts the link. *)
Definition linkable (ev : PadAdded) : bool :=
  g_str_has_prefix (new_pad_type ev) "video/x-raw"
  && negb (GST_PAD_LINK_FAILED (pa_link ev)).

(** A round without its pad-added signals. *)
Definition without_signals (r : Round) : Round :=
  {| set_state_ret := set_state_ret r; pads := []; seek_ret := seek_ret r |}.

Definition is_set_null (c : Call) : bool :=
  match c with
  | gst_element_set_state _ GST_STATE_NULL => true
  | _ => false
  end.

(** ** The pad-added handler *)

Section Handler.

Variable fw : Framework.
Variable data : CustomData.

Lemma link_attempts_app (t1 t2 : Trace) :
  link_attempts (t1 ++ t2) = link_attempts t1 ++ link_attempts t2.
Proof. apply List.filter_app. Qed.

Lemma links_established_app (t1 t2 : Trace) :
  links_established (t1 ++ t2) = links_established t1 ++ links_established t2.
Proof. apply List.filter_app. Qed.

Lemma exit_label_no_link (caps : option GstCaps) (pad : GstObject) :
  link_attempts (PadAddedHandler.exit_label caps pad) = [].
Proof. destruct caps; reflexivity. Qed.

(** The handler when the converter's sink pad has a peer. *)
Lemma handler_already_linked (ev : PadAdded) (w : World) :
  pad_is_linked w (video_sink_pad fw data) = true ->
  pad_added_handler fw ev data w =
    ([gst_element_get_static_pad (videoconvert data) "sink";
      g_print ("Received new pad " +:+ object_name fw (pa_pad ev) +:+ " from "
               +:+ object_name fw (pa_src ev) +:+ ":" +:+ LF);
      gst_pad_is_linked (video_sink_pad fw data);
      g_print ("We are already linked. Ignoring." +:+ LF);
      gst_object_unref (video_sink_pad fw data)],
     w).
Proof.
  intros Hl. unfold pad_added_handler, PadAddedHandler.body.
  fold (video_sink_pad fw data). rewrite Hl. reflexivity.
Qed.

(** The link attempts of one handler run, in all cases. *)
Lemma handler_link_attempts (ev : PadAdded) (w : World) :
  link_attempts (fst (pad_added_handler fw ev data w)) =
    if negb (pad_is_linked w (video_sink_pad fw data))
       && g_str_has_prefix (new_pad_type ev) "video/x-raw"
    then [gst_pad_link (pa_pad ev) (video_sink_pad fw data) (pa_link ev)]
    else [].
Proof.
  unfold pad_added_handler, PadAddedHandler.body, new_pad_type.
  fold (video_sink_pad fw data).
  destruct (pad_is_linked w (video_sink_pad fw data)); [reflexivity|].
  destruct (g_str_has_prefix _ _); cbn [negb andb].
  - destruct (GST_PAD_LINK_FAILED (pa_link ev)); cbn [fst];
      destruct (pa_caps ev); reflexivity.
  - cbn [fst]. destruct (pa_caps ev); reflexivity.
Qed.

(** The world after one handler run, in all cases. *)
Lemma handler_world (ev : PadAdded) (w : World) :
  snd (pad_added_handler fw ev data w) =
    if negb (pad_is_linked w (video_sink_pad fw data))
       && g_str_has_prefix (new_pad_type ev) "video/x-raw"
    then pad_link w (pa_pad ev) (video_sink_pad fw data) (pa_link ev)
    else w.
Proof.
  unfold pad_added_handler, PadAddedHandler.body, new_pad_type.
  fold (video_sink_pad fw data).
  destruct (pad_is_linked w (video_sink_pad fw data)); [reflexivity|].
  destruct (g_str_has_prefix _ _); cbn [negb andb]; [|reflexivity].
  destruct (GST_PAD_LINK_FAILED (pa_link ev)); reflexivity.
Qed.

End Handler.

(** C1: a pad whose media type does not start with "video/x-raw" is never
    handed to [gst_pad_link]: the handler makes no link attempt, leaves the
    pads as they were and, unless it stopped earlier at the already-linked
    test, prints that the type is not raw video.  Conversely every link
    attempt of the handler is for a pad whose type has that prefix. *)
Theorem pad_added_handler_links_only_raw_video
    (fw : Framework) (ev : PadAdded) (data : CustomData) (w : World) :
  (g_str_has_prefix (new_pad_type ev) "video/x-raw" = false ->
     link_attempts (fst (pad_added_handler fw ev data w)) = []
     /\ snd (pad_added_handler fw ev data w) = w
     /\ (pad_is_linked w (video_sink_pad fw data) = false ->
         In (g_print ("It has type '" +:+ fmt_s (new_pad_type ev)
                      +:+ "', which is not raw video. Ignoring." +:+ LF))
            (fst (pad_added_handler fw ev data w))))
  /\ (forall c, In c (link_attempts (fst (pad_added_handler fw ev data w))) ->
        exists type, new_pad_type ev = Some type
                     /\ String.prefix "video/x-raw" type = true).
Proof.
  split.
  - intros Hp. rewrite handler_link_attempts, handler_world, Hp, andb_false_r.
    repeat split. intros Hl.
    unfold pad_added_handler, PadAddedHandler.body.
    fold (video_sink_pad fw data) (new_pad_type ev). rewrite Hl, Hp.
    cbn [negb fst]. apply in_or_app. right. apply in_or_app. left.
    apply in_or_app. right. left. reflexivity.
  - intros c. rewrite handler_link_attempts.
    destruct (pad_is_linked w (video_sink_pad fw data)); [intros []|].
    unfold g_str_has_prefix. destruct (new_pad_type ev) as [type|]; [|intros []].
    destruct (String.prefix "video/x-raw" type) eqn:Hp; [|intros []].
    intros _. exists type. split; [reflexivity|exact Hp].
Qed.

Lemma pad_added_handler_links_only_raw_video_witness :
  (link_attempts (fst (pad_added_handler Demo.fw Demo.audio_pad Demo.data
                         (Demo.unlinked []))) = []
   /\ snd (pad_added_handler Demo.fw Demo.audio_pad Demo.data
             (Demo.unlinked [])) = Demo.unlinked []
   /\ In (g_print ("It has type 'audio/x-raw', which is not raw video. Ignoring."
                   +:+ LF))
         (fst (pad_added_handler Demo.fw Demo.audio_pad Demo.data
                 (Demo.unlinked []))))
  /\ exists type, new_pad_type Demo.video_pad = Some type
                  /\ String.prefix "video/x-raw" type = true.
Proof.
  split.
  - destruct (proj1 (pad_added_handler_links_only_raw_video
                       Demo.fw Demo.audio_pad Demo.data (Demo.unlinked []))
                eq_refl) as (H1 & H2 & H3).
    split; [exact H1|]. split; [exact H2|]. exact (H3 eq_refl).
  - apply (proj2 (pad_added_handler_links_only_raw_video
                    Demo.fw Demo.video_pad Demo.data (Demo.unlinked []))
             (gst_pad_link 8%positive 7%positive GST_PAD_LINK_OK)).
    left. reflexivity.
Defined.

(** *** The deferred link is made at most once *)

Section LinkOnce.

Variable fw : Framework.
Variable data : CustomData.

Lemma pad_link_ok_linked (w : World) (srcpad sinkpad : GstObject) :
  pad_is_linked (pad_link w srcpad sinkpad GST_PAD_LINK_OK) sinkpad = true.
Proof.
  unfold pad_is_linked, pad_link. cbn [peers].
  destruct (decide (srcpad = sinkpad)) as [->|Hne].
  - rewrite lookup_insert_eq. reflexivity.
  - rewrite lookup_insert_ne by exact Hne.
    rewrite lookup_insert_eq. reflexivity.
Qed.

Lemma links_established_attempts (t : Trace) :
  links_established t = links_established (link_attempts t).
Proof.
  unfold links_established, link_attempts.
  induction t as [|c t IH]; [reflexivity|].
  destruct c; cbn [List.filter is_pad_link is_link_established]; try exact IH.
  match goal with |- context [gst_pad_link _ _ ?r] => destruct r end;
    cbn [List.filter is_link_established]; rewrite IH; reflexivity.
Qed.

(** Each handler run uses up what it establishes. *)
Lemma handler_links_left (ev : PadAdded) (w : World) :
  (length (links_established (fst (pad_added_handler fw ev data w)))
   + links_left fw data (snd (pad_added_handler fw ev data w)) <= links_left fw data w)%nat.
Proof.
  rewrite links_established_attempts, handler_link_attempts, handler_world.
  unfold links_left.
  destruct (pad_is_linked w (video_sink_pad fw data)) eqn:Hl; cbn [negb andb].
  - rewrite Hl. cbn. lia.
  - destruct (g_str_has_prefix _ _).
    + destruct (pa_link ev) eqn:Hr;
        cbn [links_established List.filter is_link_established length];
        rewrite ?pad_link_ok_linked; cbn [pad_link]; rewrite ?Hl; cbn; lia.
    + rewrite Hl. cbn. lia.
Qed.

Lemma signals_links_left (evs : list PadAdded) (w : World) :
  (length (links_established (fst (pad_added_signals fw evs data w)))
   + links_left fw data (snd (pad_added_signals fw evs data w)) <= links_left fw data w)%nat.
Proof.
  revert w. induction evs as [|ev evs IH]; intros w; cbn [pad_added_signals].
  - cbn. lia.
  - pose proof (handler_links_left ev w) as Hh.
    destruct (pad_added_handler fw ev data w) as [t w1]. cbn [fst snd] in Hh.
    specialize (IH w1).
    destruct (pad_added_signals fw evs data w1) as [t' w2].
    cbn [fst snd] in *.
    rewrite links_established_app, length_app. lia.
Qed.

End LinkOnce.

(** C9 (the code does otherwise): for a pad announced without current caps
    while the converter is still unlinked, the handler hands the [NULL] caps
    to [gst_caps_get_structure]; only the unreference at the label [exit] is
    guarded, so no [gst_caps_unref] is made. *)
Theorem pad_added_handler_passes_null_caps
    (fw : Framework) (data : CustomData) (src new_pad : GstObject)
    (answer : GstPadLinkReturn) :
  let ev := {| pa_src := src; pa_pad := new_pad; pa_caps := None;
               pa_link := answer |} in
  let t := fst (pad_added_handler fw ev data (Demo.unlinked [])) in
  In (gst_caps_get_structure None 0) t
  /\ (forall caps, ~ In (gst_caps_unref caps) t).
Proof.
  cbn zeta. unfold pad_added_handler, PadAddedHandler.body. cbn.
  split.
  - do 4 right. left. reflexivity.
  - intros caps H. repeat (destruct H as [H|H]; [discriminate H|]). exact H.
Qed.

(** ** The playback loop *)

Section Loop.

Variable fw : Framework.
Variable data : CustomData.

Lemma handler_bus_queue (ev : PadAdded) (w : World) :
  bus_queue (snd (pad_added_handler fw ev data w)) = bus_queue w.
Proof.
  rewrite handler_world. destruct (_ && _); [|reflexivity].
  destruct (pa_link ev); reflexivity.
Qed.

Lemma signals_bus_queue (evs : list PadAdded) (w : World) :
  bus_queue (snd (pad_added_signals fw evs data w)) = bus_queue w.
Proof.
  revert w. induction evs as [|ev evs IH]; intros w; [reflexivity|].
  cbn [pad_added_signals].
  pose proof (handler_bus_queue ev w) as Hh.
  destruct (pad_added_handler fw ev data w) as [t w1]. cbn [snd] in Hh.
  specialize (IH w1). destruct (pad_added_signals fw evs data w1) as [t' w2].
  cbn [snd] in *. congruence.
Qed.

(** The three ways through the loop body. *)
Lemma loop_body_failure (r : Round) (w : World) (terminate : bool) :
  set_state_ret r = GST_STATE_CHANGE_FAILURE ->
  Main.loop_body fw data r w terminate =
    ([gst_element_set_state (pipeline data) GST_STATE_PLAYING;
      g_printerr ("Unable to set pipeline to the playing state." +:+ LF);
      gst_object_unref (pipeline data);
      getchar],
     Stop (Exit (-1))).
Proof. intros H. unfold Main.loop_body. rewrite H. reflexivity. Qed.

Lemma loop_body_blocked (r : Round) (w : World) (terminate : bool) :
  set_state_ret r <> GST_STATE_CHANGE_FAILURE ->
  pop_matching Main.bus_types (bus_queue w) = None ->
  Main.loop_body fw data r w terminate = (until_wait fw data r w, Stop Blocked).
Proof.
  intros Hr Hq. unfold Main.loop_body, until_wait.
  destruct (set_state_ret r); [congruence| | |];
    cbn [GstStateChangeReturn_eqb];
    pose proof (signals_bus_queue (pads r) w) as Hb;
    destruct (pad_added_signals fw (pads r) data w) as [t w1];
    cbn [fst snd] in *; unfold bus_timed_pop_filtered;
    rewrite Hb, Hq, Z.eqb_refl; cbn; rewrite app_nil_r; reflexivity.
Qed.

Lemma loop_body_message (r : Round) (w : World) (terminate : bool)
    (m : GstMessage) (queue : list GstMessage) :
  set_state_ret r <> GST_STATE_CHANGE_FAILURE ->
  pop_matching Main.bus_types (bus_queue w) = Some (m, queue) ->
  Main.loop_body fw data r w terminate =
    (iteration fw data r w terminate m,
     Next (snd (Main.message_switch fw data (seek_ret r) m terminate),
           element_get_bus fw (pipeline data),
           after_wait fw data r w queue)).
Proof.
  intros Hr Hq. unfold Main.loop_body, iteration, until_wait, after_wait.
  destruct (set_state_ret r); [congruence| | |];
    cbn [GstStateChangeReturn_eqb];
    pose proof (signals_bus_queue (pads r) w) as Hb;
    destruct (pad_added_signals fw (pads r) data w) as [t w1];
    cbn [fst snd] in *; unfold bus_timed_pop_filtered;
    rewrite Hb, Hq;
    destruct (Main.message_switch fw data (seek_ret r) m terminate)
      as [ts terminate'];
    cbn -[Main.bus_types GST_CLOCK_TIME_NONE];
    rewrite ?app_nil_r, <- ?app_assoc; reflexivity.
Qed.

(** One unfolding of the loop. *)
Lemma play_loop_cons (r : Round) (rounds : list Round) (w : World)
    (terminate : bool) :
  Main.play_loop fw data (r :: rounds) w terminate =
    match Main.loop_body fw data r w terminate with
    | (t, Next (terminate', bus, w')) =>
        if terminate' then (t, Next bus)
        else (t ++ fst (Main.play_loop fw data rounds w' terminate'),
              snd (Main.play_loop fw data rounds w' terminate'))
    | (t, Stop o) => (t, Stop o)
    end.
Proof.
  cbn [Main.play_loop]. unfold bind.
  destruct (Main.loop_body fw data r w terminate) as [t [[[terminate' bus] w']|o]];
    [|reflexivity].
  destruct terminate'; cbn [negb].
  - unfold ret. rewrite app_nil_r. reflexivity.
  - destruct (Main.play_loop fw data rounds w' false); reflexivity.
Qed.

End Loop.

(** Every script of rounds gives a run of the loop. *)
Lemma play_loop_run (fw : Framework) (data : CustomData)
    (rounds : list Round) (w : World) (terminate : bool) :
  LoopRun fw data w terminate
    (fst (Main.play_loop fw data rounds w terminate))
    (snd (Main.play_loop fw data rounds w terminate)).
Proof.
  revert w terminate.
  induction rounds as [|r rounds IH]; intros w terminate.
  - apply LoopRun_script_end.
  - rewrite play_loop_cons.
    assert (Hdec : set_state_ret r = GST_STATE_CHANGE_FAILURE
                   \/ set_state_ret r <> GST_STATE_CHANGE_FAILURE)
      by (destruct (set_state_ret r); (left; reflexivity) || (right; discriminate)).
    destruct Hdec as [Hf|Hf].
    + rewrite (loop_body_failure fw data r w terminate Hf).
      apply LoopRun_set_state_failure.
    + destruct (pop_matching Main.bus_types (bus_queue w))
        as [[m queue]|] eqn:Hq.
      * rewrite (loop_body_message fw data r w terminate m queue Hf Hq).
        destruct (snd (Main.message_switch fw data (seek_ret r) m terminate))
          eqn:Ht; cbn [fst snd].
        -- eapply LoopRun_terminate; eassumption.
        -- eapply LoopRun_again; [eassumption|eassumption|apply IH].
      * rewrite (loop_body_blocked fw data r w terminate Hf Hq).
        apply LoopRun_blocked. exact Hq.
Qed.

(** ** The whole of [main] *)

Lemma main_not_created (fw : Framework) (rounds : list Round) (w : World) :
  created fw = None ->
  main fw rounds w =
    (Main.create
     ++ [g_printerr ("All elements could not be created." +:+ LF); getchar],
     Exit (-1)).
Proof.
  unfold created, main. intros H.
  destruct (pipeline_new fw _); [|reflexivity].
  destruct (element_factory_make fw "uridecodebin" _); [|reflexivity].
  destruct (element_factory_make fw "autovideosink" _); [|reflexivity].
  destruct (element_factory_make fw "videoconvert" _); [|reflexivity].
  destruct (element_factory_make fw "blurfilter" _); [discriminate H|reflexivity].
Qed.

Lemma main_created (fw : Framework) (rounds : list Round) (w : World)
    (data : CustomData) :
  created fw = Some data ->
  main fw rounds w =
    run (bind (calls Main.create)
           (fun _ => Main.play fw data rounds w)).
Proof.
  unfold created, main. intros H.
  destruct (pipeline_new fw _); [|discriminate H].
  destruct (element_factory_make fw "uridecodebin" _); [|discriminate H].
  destruct (element_factory_make fw "autovideosink" _); [|discriminate H].
  destruct (element_factory_make fw "videoconvert" _); [|discriminate H].
  destruct (element_factory_make fw "blurfilter" _); [|discriminate H].
  injection H as <-. reflexivity.
Qed.

(** The calls that report a failed static link. *)
Lemma play_first_link_fails (fw : Framework) (data : CustomData)
    (rounds : list Round) (w : World) :
  element_link fw (videoconvert data) (filter data) = false ->
  Main.play fw data rounds w =
    ([gst_bin_add_many (pipeline data)
        [source data; videoconvert data; filter data; videosink data];
      gst_element_link (videoconvert data) (filter data);
      g_printerr ("Elements could not be linked." +:+ LF);
      gst_object_unref (pipeline data);
      getchar],
     Stop (Exit (-1))).
Proof. intros H. unfold Main.play. rewrite H. reflexivity. Qed.

Lemma play_second_link_fails (fw : Framework) (data : CustomData)
    (rounds : list Round) (w : World) :
  element_link fw (videoconvert data) (filter data) = true ->
  element_link fw (filter data) (videosink data) = false ->
  Main.play fw data rounds w =
    ([gst_bin_add_many (pipeline data)
        [source data; videoconvert data; filter data; videosink data];
      gst_element_link (videoconvert data) (filter data);
      gst_element_link (filter data) (videosink data);
      g_printerr ("Elements could not be linked." +:+ LF);
      gst_object_unref (pipeline data);
      getchar],
     Stop (Exit (-1))).
Proof. intros H1 H2. unfold Main.play. rewrite H1, H2. reflexivity. Qed.

Lemma play_linked (fw : Framework) (data : CustomData)
    (rounds : list Round) (w : World) :
  element_link fw (videoconvert data) (filter data) = true ->
  element_link fw (filter data) (videosink data) = true ->
  Main.play fw data rounds w =
    match Main.play_loop fw data rounds w false with
    | (t, Next bus) => (static_phase data ++ t ++ shutdown data bus, Next 0)
    | (t, Stop o) => (static_phase data ++ t, Stop o)
    end.
Proof.
  intros H1 H2. unfold Main.play. rewrite H1, H2. cbn [negb].
  destruct (Main.play_loop fw data rounds w false) as [t [bus|o]];
    reflexivity.
Qed.

(** ** The calls of the handler inside a run *)

Lemma handler_calls (fw : Framework) (ev : PadAdded) (data : CustomData)
    (w : World) :
  forallb is_handler_call (fst (pad_added_handler fw ev data w)) = true.
Proof.
  unfold pad_added_handler, PadAddedHandler.body.
  destruct (pad_is_linked w _); [reflexivity|].
  destruct (negb (g_str_has_prefix _ _)).
  - destruct (pa_caps ev); reflexivity.
  - destruct (GST_PAD_LINK_FAILED (pa_link ev)); destruct (pa_caps ev);
      reflexivity.
Qed.

Lemma signals_calls (fw : Framework) (evs : list PadAdded)
    (data : CustomData) (w : World) :
  forallb is_handler_call (fst (pad_added_signals fw evs data w)) = true.
Proof.
  revert w. induction evs as [|ev evs IH]; intros w; [reflexivity|].
  cbn [pad_added_signals].
  pose proof (handler_calls fw ev data w) as Hh.
  destruct (pad_added_handler fw ev data w) as [t w1]. cbn [fst] in Hh.
  specialize (IH w1). destruct (pad_added_signals fw evs data w1) as [t' w2].
  cbn [fst] in *. rewrite forallb_app, Hh, IH. reflexivity.
Qed.

(** A filter that rejects the handler's calls finds nothing in them. *)
Lemma filter_handler_calls (f : Call -> bool) (t : Trace) :
  (forall c, is_handler_call c = true -> f c = false) ->
  forallb is_handler_call t = true ->
  List.filter f t = [].
Proof.
  intros Hf. induction t as [|c t IH]; [reflexivity|].
  cbn [forallb List.filter]. intros H. apply andb_prop in H as [Hc Ht].
  rewrite (Hf c Hc). exact (IH Ht).
Qed.

(** ** The switch on the message type *)

Section Switch.

Variable fw : Framework.
Variable data : CustomData.

Lemma switch_error (answer : bool) (m : GstMessage) (terminate : bool) :
  msg_type m = GST_MESSAGE_ERROR ->
  Main.message_switch fw data answer m terminate =
    ([gst_message_parse_error m;
      g_printerr ("Error received from element "
                  +:+ object_name fw (msg_src m) +:+ ": "
                  +:+ msg_error m +:+ LF);
      g_printerr ("Debugging information: "
                  +:+ match msg_debug m with
                      | Some debug_info => debug_info
                      | None => "none"
                      end +:+ " " +:+ LF);
      g_clear_error;
      g_free],
     true).
Proof. intros H. unfold Main.message_switch. rewrite H. reflexivity. Qed.

Lemma switch_eos (answer : bool) (m : GstMessage) (terminate : bool) :
  msg_type m = GST_MESSAGE_EOS ->
  Main.message_switch fw data answer m terminate =
    ([g_print ("End-Of-Stream reached." +:+ LF);
      seek_to_start (pipeline data) answer]
     ++ (if negb answer then [g_print ("Seek failed!" +:+ LF)] else []),
     false).
Proof. intros H. unfold Main.message_switch. rewrite H. reflexivity. Qed.

Lemma switch_state_changed (answer : bool) (m : GstMessage)
    (terminate : bool) :
  msg_type m = GST_MESSAGE_STATE_CHANGED ->
  Main.message_switch fw data answer m terminate =
    (if Pos.eqb (msg_src m) (pipeline data) then
       [gst_message_parse_state_changed m;
        g_print ("Pipeline state changed from "
                 +:+ gst_element_state_get_name (msg_old_state m) +:+ " to "
                 +:+ gst_element_state_get_name (msg_new_state m) +:+ ":"
                 +:+ LF)]
     else [],
     terminate).
Proof. intros H. unfold Main.message_switch. rewrite H. reflexivity. Qed.

Lemma switch_default (answer : bool) (m : GstMessage) (terminate : bool) :
  msg_type m <> GST_MESSAGE_ERROR ->
  msg_type m <> GST_MESSAGE_EOS ->
  msg_type m <> GST_MESSAGE_STATE_CHANGED ->
  Main.message_switch fw data answer m terminate =
    ([g_printerr ("Unexpected message received." +:+ LF)], terminate).
Proof.
  intros H1 H2 H3. unfold Main.message_switch.
  apply Z.eqb_neq in H1, H2, H3. rewrite H1, H2, H3. reflexivity.
Qed.

(** The four cases of the switch. *)
Lemma switch_cases (m : GstMessage) :
  msg_type m = GST_MESSAGE_ERROR
  \/ msg_type m = GST_MESSAGE_EOS
  \/ msg_type m = GST_MESSAGE_STATE_CHANGED
  \/ (msg_type m <> GST_MESSAGE_ERROR /\ msg_type m <> GST_MESSAGE_EOS
      /\ msg_type m <> GST_MESSAGE_STATE_CHANGED).
Proof.
  destruct (Z.eq_dec (msg_type m) GST_MESSAGE_ERROR); [tauto|].
  destruct (Z.eq_dec (msg_type m) GST_MESSAGE_EOS); [tauto|].
  destruct (Z.eq_dec (msg_type m) GST_MESSAGE_STATE_CHANGED); tauto.
Qed.

(** [terminate] comes out of the switch set exactly by an error message. *)
Lemma switch_terminate (answer : bool) (m : GstMessage) :
  snd (Main.message_switch fw data answer m false) = true <->
  msg_type m = GST_MESSAGE_ERROR.
Proof.
  destruct (switch_cases m) as [H|[H|[H|(H1 & H2 & H3)]]].
  - rewrite switch_error by exact H. tauto.
  - rewrite switch_eos by exact H. cbn [snd]. rewrite H.
    split; discriminate.
  - rewrite switch_state_changed by exact H. cbn [snd]. rewrite H.
    split; discriminate.
  - rewrite switch_default by assumption. cbn [snd].
    split; [discriminate|contradiction].
Qed.

End Switch.

(** Every script of answers gives a run of [main]. *)
Lemma main_run (fw : Framework) (rounds : list Round) (w : World) :
  MainRun fw w (fst (main fw rounds w)) (snd (main fw rounds w)).
Proof.
  destruct (created fw) as [data|] eqn:Hc.
  - rewrite (main_created fw rounds w data Hc).
    destruct (element_link fw (videoconvert data) (filter data)) eqn:H1.
    + destruct (element_link fw (filter data) (videosink data)) eqn:H2.
      * rewrite (play_linked fw data rounds w H1 H2).
        pose proof (play_loop_run fw data rounds w false) as Hrun.
        destruct (Main.play_loop fw data rounds w false) as [t [bus|o]];
          cbn [fst snd] in Hrun.
        -- apply (MainRun_loop fw w data t (Next bus) Hc H1 H2 Hrun).
        -- pose proof (MainRun_loop fw w data t (Stop o) Hc H1 H2 Hrun) as H.
           cbn [finish outcome_of] in H. rewrite app_nil_r in H. exact H.
      * rewrite (play_second_link_fails fw data rounds w H1 H2).
        apply (MainRun_second_link_failed fw w data Hc H1 H2).
    + rewrite (play_first_link_fails fw data rounds w H1).
      apply (MainRun_first_link_failed fw w data Hc H1).
  - rewrite (main_not_created fw rounds w Hc).
    apply (MainRun_not_created fw w Hc).
Qed.

(** ** End of stream and the seek to the start *)

Section Seek.

Variable fw : Framework.
Variable data : CustomData.

Lemma seeks_app (t1 t2 : Trace) : seeks (t1 ++ t2) = seeks t1 ++ seeks t2.
Proof. apply List.filter_app. Qed.

Lemma eos_received_app (t1 t2 : Trace) :
  eos_received (t1 ++ t2) = eos_received t1 ++ eos_received t2.
Proof. apply List.filter_app. Qed.

Lemma seeks_alternate_app (owed : bool) (t1 t2 : Trace) :
  seeks_alternate owed t1 = true ->
  seeks_alternate false t2 = true ->
  seeks_alternate owed (t1 ++ t2) = true.
Proof.
  revert owed. induction t1 as [|c t1 IH]; intros owed H1 H2.
  - destruct owed; [discriminate H1|exact H2].
  - cbn [app seeks_alternate] in *.
    destruct (is_seek c).
    + apply andb_prop in H1 as [-> H1]. cbn [andb]. exact (IH _ H1 H2).
    + destruct (is_eos_received c).
      * apply andb_prop in H1 as [-> H1]. cbn [andb]. exact (IH _ H1 H2).
      * exact (IH _ H1 H2).
Qed.

Lemma seeks_follow_eos_app (p : GstObject) (t1 t2 : Trace) :
  seeks_follow_eos p t1 -> seeks_follow_eos p t2 ->
  seeks_follow_eos p (t1 ++ t2).
Proof.
  intros (A1 & L1 & F1) (A2 & L2 & F2). repeat split.
  - apply seeks_alternate_app; assumption.
  - rewrite seeks_app, eos_received_app, !length_app. lia.
  - rewrite seeks_app. apply Forall_app. split; assumption.
Qed.

Lemma seeks_follow_eos_handler_calls (p : GstObject) (t : Trace) :
  forallb is_handler_call t = true -> seeks_follow_eos p t.
Proof.
  intros H. unfold seeks_follow_eos, seeks, eos_received.
  rewrite !filter_handler_calls by (exact H || (intros []; (discriminate || reflexivity))).
  repeat split; [|constructor].
  induction t as [|c t IH]; [reflexivity|].
  cbn [forallb] in H. apply andb_prop in H as [Hc Ht].
  cbn [seeks_alternate].
  destruct c; try discriminate Hc; cbn [is_seek is_eos_received]; exact (IH Ht).
Qed.

Lemma seeks_follow_eos_switch (answer : bool) (m : GstMessage)
    (terminate : bool) :
  seeks_follow_eos (pipeline data)
    ([gst_bus_timed_pop_filtered (element_get_bus fw (pipeline data))
        GST_CLOCK_TIME_NONE Main.bus_types (Some m)]
     ++ fst (Main.message_switch fw data answer m terminate)
     ++ [gst_message_unref m]).
Proof.
  unfold seeks_follow_eos, seeks, eos_received.
  destruct (switch_cases m) as [H|[H|[H|(H1 & H2 & H3)]]].
  - rewrite switch_error by exact H.
    cbn [fst app List.filter seeks_alternate is_seek is_eos_received].
    rewrite H. repeat split. constructor.
  - rewrite switch_eos by exact H.
    cbn -[Z.eqb GST_MESSAGE_EOS LF]. rewrite H, Z.eqb_refl.
    destruct answer; cbn; repeat split;
      (constructor; [eexists; reflexivity|constructor]).
  - rewrite switch_state_changed by exact H.
    destruct (Pos.eqb _ _);
      cbn [fst app List.filter seeks_alternate is_seek is_eos_received];
      rewrite H; repeat split; constructor.
  - rewrite switch_default by assumption.
    cbn [fst app List.filter seeks_alternate is_seek is_eos_received].
    apply Z.eqb_neq in H2. rewrite H2. repeat split. constructor.
Qed.

Lemma seeks_follow_eos_iteration (r : Round) (w : World) (terminate : bool)
    (m : GstMessage) :
  seeks_follow_eos (pipeline data) (iteration fw data r w terminate m).
Proof.
  unfold iteration, until_wait. rewrite <- app_assoc.
  apply seeks_follow_eos_app; [repeat split; constructor|].
  apply seeks_follow_eos_app.
  - apply seeks_follow_eos_handler_calls, signals_calls.
  - apply seeks_follow_eos_switch.
Qed.

Lemma seeks_follow_eos_loop (w : World) (terminate : bool) (t : Trace)
    (s : Step GstObject) :
  LoopRun fw data w terminate t s -> seeks_follow_eos (pipeline data) t.
Proof.
  induction 1 as [| |w terminate r Hq|w terminate r m queue Hq Ht
                  |w terminate r m queue t s Hq Ht Hrun IH].
  - repeat split. constructor.
  - repeat split. constructor.
  - unfold until_wait. apply seeks_follow_eos_app; [repeat split; constructor|].
    apply seeks_follow_eos_handler_calls, signals_calls.
  - apply seeks_follow_eos_iteration.
  - apply seeks_follow_eos_app; [apply seeks_follow_eos_iteration|exact IH].
Qed.

End Seek.

Lemma seeks_follow_eos_main (fw : Framework) (w : World) (t : Trace)
    (o : Outcome) :
  MainRun fw w t o ->
  seeks_alternate false t = true
  /\ length (seeks t) = length (eos_received t)
  /\ Forall (fun c => exists p answer,
                 pipeline_new fw "video-pipeline" = Some p
                 /\ c = seek_to_start p answer) (seeks t).
Proof.
  intros [Hc|data Hc H1|data Hc H1 H2|data t' s Hc H1 H2 Hrun];
    try (repeat split; constructor).
  assert (Hp : pipeline_new fw "video-pipeline" = Some (pipeline data)).
  { unfold created in Hc.
    destruct (pipeline_new fw _); [|discriminate Hc].
    destruct (element_factory_make fw "uridecodebin" _); [|discriminate Hc].
    destruct (element_factory_make fw "autovideosink" _); [|discriminate Hc].
    destruct (element_factory_make fw "videoconvert" _); [|discriminate Hc].
    destruct (element_factory_make fw "blurfilter" _); [|discriminate Hc].
    injection Hc as <-. reflexivity. }
  assert (H : seeks_follow_eos (pipeline data)
                (Main.create ++ static_phase data ++ t' ++ finish data s)).
  { apply seeks_follow_eos_app; [repeat split; constructor|].
    apply seeks_follow_eos_app; [repeat split; constructor|].
    apply seeks_follow_eos_app; [exact (seeks_follow_eos_loop _ _ _ _ _ _ Hrun)|].
    destruct s; repeat split; constructor. }
  destruct H as (A & L & F). split; [exact A|]. split; [exact L|].
  revert F. apply List.Forall_impl. intros c [answer ->].
  exists (pipeline data), answer. split; [exact Hp|reflexivity].
Qed.

Lemma seeks_iteration (fw : Framework) (data : CustomData) (r : Round)
    (w : World) (terminate : bool) (m : GstMessage) :
  seeks (iteration fw data r w terminate m) =
    seeks (fst (Main.message_switch fw data (seek_ret r) m terminate)).
Proof.
  unfold iteration, until_wait. rewrite !seeks_app.
  assert (Hs : seeks (fst (pad_added_signals fw (pads r) data w)) = []).
  { apply filter_handler_calls; [|apply signals_calls].
    intros []; (discriminate || reflexivity). }
  rewrite Hs. cbn. apply app_nil_r.
Qed.

(** C4: an iteration of the loop that receives an end-of-stream message
    makes exactly one call of [gst_element_seek], the flushing seek of the
    pipeline to position 0 ([GST_SEEK_TYPE_SET], 0).  Over a whole run of
    [main], receiving end of stream and seeking alternate one for one: there
    are as many seeks as end-of-stream messages received, each seek follows
    its message before the next one is received, and every seek is that seek
    to the start. *)
Theorem eos_requests_one_seek_to_start (fw : Framework) :
  (forall data r w terminate m,
      msg_type m = GST_MESSAGE_EOS ->
      seeks (iteration fw data r w terminate m) =
        [gst_element_seek (pipeline data) 1%Q GST_FORMAT_TIME
           GST_SEEK_FLAG_FLUSH GST_SEEK_TYPE_SET 0 GST_SEEK_TYPE_NONE (-1)
           (seek_ret r)])
  /\ (forall rounds w,
        seeks_alternate false (fst (main fw rounds w)) = true
        /\ length (seeks (fst (main fw rounds w)))
           = length (eos_received (fst (main fw rounds w)))
        /\ Forall (fun c => exists p answer,
                       pipeline_new fw "video-pipeline" = Some p
                       /\ c = seek_to_start p answer)
             (seeks (fst (main fw rounds w)))).
Proof.
  split.
  - intros data r w terminate m H.
    rewrite seeks_iteration, switch_eos by exact H.
    destruct (seek_ret r); reflexivity.
  - intros rounds w.
    exact (seeks_follow_eos_main fw w _ _ (main_run fw rounds w)).
Qed.

Lemma eos_requests_one_seek_to_start_witness :
  seeks (iteration Demo.fw Demo.data
           (Demo.round GST_STATE_CHANGE_ASYNC [Demo.video_pad] true)
           (Demo.unlinked [Demo.message GST_MESSAGE_EOS 5%positive]) false
           (Demo.message GST_MESSAGE_EOS 5%positive))
  = [gst_element_seek 5%positive 1%Q GST_FORMAT_TIME GST_SEEK_FLAG_FLUSH
       GST_SEEK_TYPE_SET 0 GST_SEEK_TYPE_NONE (-1) true].
Proof.
  apply (proj1 (eos_requests_one_seek_to_start Demo.fw) Demo.data
           (Demo.round GST_STATE_CHANGE_ASYNC [Demo.video_pad] true)
           (Demo.unlinked [Demo.message GST_MESSAGE_EOS 5%positive]) false
           (Demo.message GST_MESSAGE_EOS 5%positive)).
  reflexivity.
Defined.

(** C5: when the seek requested for an end-of-stream message fails, the
    program prints "Seek failed!" and nothing more happens for that message:
    the iteration holds that one seek, [terminate] is FALSE after the switch,
    and the loop goes on with the next iteration on the rest of the script. *)
Theorem failed_seek_is_only_logged
    (fw : Framework) (data : CustomData) (r : Round) (rounds : list Round)
    (w : World) (terminate : bool) (m : GstMessage)
    (queue : list GstMessage) :
  set_state_ret r <> GST_STATE_CHANGE_FAILURE ->
  pop_matching Main.bus_types (bus_queue w) = Some (m, queue) ->
  msg_type m = GST_MESSAGE_EOS ->
  seek_ret r = false ->
  Main.message_switch fw data (seek_ret r) m terminate =
    ([g_print ("End-Of-Stream reached." +:+ LF);
      seek_to_start (pipeline data) false;
      g_print ("Seek failed!" +:+ LF)],
     false)
  /\ seeks (iteration fw data r w terminate m)
     = [seek_to_start (pipeline data) false]
  /\ Main.loop_body fw data r w terminate =
       (iteration fw data r w terminate m,
        Next (false, element_get_bus fw (pipeline data),
              after_wait fw data r w queue))
  /\ Main.play_loop fw data (r :: rounds) w terminate =
       (iteration fw data r w terminate m
        ++ fst (Main.play_loop fw data rounds (after_wait fw data r w queue)
                  false),
        snd (Main.play_loop fw data rounds (after_wait fw data r w queue)
               false)).
Proof.
  intros Hr Hq Ht Hs.
  assert (Hsw : Main.message_switch fw data (seek_ret r) m terminate =
                ([g_print ("End-Of-Stream reached." +:+ LF);
                  seek_to_start (pipeline data) false;
                  g_print ("Seek failed!" +:+ LF)], false)).
  { rewrite switch_eos by exact Ht. rewrite Hs. reflexivity. }
  assert (Hb : Main.loop_body fw data r w terminate =
               (iteration fw data r w terminate m,
                Next (false, element_get_bus fw (pipeline data),
                      after_wait fw data r w queue))).
  { rewrite (loop_body_message fw data r w terminate m queue Hr Hq), Hsw.
    reflexivity. }
  split; [exact Hsw|]. split; [|split; [exact Hb|]].
  - rewrite seeks_iteration, Hsw. reflexivity.
  - rewrite play_loop_cons, Hb. reflexivity.
Qed.

Lemma failed_seek_is_only_logged_witness :
  snd (Main.play_loop Demo.fw Demo.data
         [Demo.round GST_STATE_CHANGE_ASYNC [] false]
         (Demo.unlinked [Demo.message GST_MESSAGE_EOS 5%positive]) false)
  = Stop Running.
Proof.
  destruct (failed_seek_is_only_logged Demo.fw Demo.data
              (Demo.round GST_STATE_CHANGE_ASYNC [] false) []
              (Demo.unlinked [Demo.message GST_MESSAGE_EOS 5%positive]) false
              (Demo.message GST_MESSAGE_EOS 5%positive) [])
    as (_ & _ & _ & H).
  - discriminate.
  - reflexivity.
  - reflexivity.
  - reflexivity.
  - rewrite H. reflexivity.
Defined.

(** C7: for a state-changed message the switch parses the message and
    prints the old and the new state exactly when the message comes from the
    pipeline; for a state-changed message from any other object it makes no
    call at all.  Either way [terminate] keeps its value, and for another
    object the iteration is the wait followed by the release of the message. *)
Theorem state_changed_logged_for_pipeline_only
    (fw : Framework) (data : CustomData) (r : Round) (w : World)
    (terminate : bool) (m : GstMessage) :
  msg_type m = GST_MESSAGE_STATE_CHANGED ->
  snd (Main.message_switch fw data (seek_ret r) m terminate) = terminate
  /\ (msg_src m = pipeline data ->
      fst (Main.message_switch fw data (seek_ret r) m terminate) =
        [gst_message_parse_state_changed m;
         g_print ("Pipeline state changed from "
                  +:+ gst_element_state_get_name (msg_old_state m) +:+ " to "
                  +:+ gst_element_state_get_name (msg_new_state m) +:+ ":"
                  +:+ LF)])
  /\ (msg_src m <> pipeline data ->
      fst (Main.message_switch fw data (seek_ret r) m terminate) = []
      /\ iteration fw data r w terminate m =
           until_wait fw data r w
           ++ [gst_bus_timed_pop_filtered (element_get_bus fw (pipeline data))
                 GST_CLOCK_TIME_NONE Main.bus_types (Some m);
               gst_message_unref m])
  /\ (console (fst (Main.message_switch fw data (seek_ret r) m terminate))
      <> [] <-> msg_src m = pipeline data).
Proof.
  intros Ht. rewrite switch_state_changed by exact Ht. cbn [fst snd].
  split; [reflexivity|].
  destruct (Pos.eqb_spec (msg_src m) (pipeline data)) as [He|Hne].
  - split; [reflexivity|]. split; [contradiction|].
    split; [intros _; exact He|intros _; discriminate].
  - split; [contradiction|]. split.
    + intros _. split; [reflexivity|].
      unfold iteration. rewrite switch_state_changed by exact Ht.
      apply Pos.eqb_neq in Hne. rewrite Hne. reflexivity.
    + split; [intros H; contradiction H; reflexivity|contradiction].
Qed.

Lemma state_changed_logged_for_pipeline_only_witness :
  fst (Main.message_switch Demo.fw Demo.data true
         (Demo.message GST_MESSAGE_STATE_CHANGED 5%positive) false) =
    [gst_message_parse_state_changed
       (Demo.message GST_MESSAGE_STATE_CHANGED 5%positive);
     g_print ("Pipeline state changed from READY to PAUSED:" +:+ LF)]
  /\ fst (Main.message_switch Demo.fw Demo.data true
            (Demo.message GST_MESSAGE_STATE_CHANGED 2%positive) false) = [].
Proof.
  split.
  - apply (state_changed_logged_for_pipeline_only Demo.fw Demo.data
             (Demo.round GST_STATE_CHANGE_ASYNC [] true) (Demo.unlinked [])
             false (Demo.message GST_MESSAGE_STATE_CHANGED 5%positive)
             eq_refl).
    reflexivity.
  - apply (state_changed_logged_for_pipeline_only Demo.fw Demo.data
             (Demo.round GST_STATE_CHANGE_ASYNC [] true) (Demo.unlinked [])
             false (Demo.message GST_MESSAGE_STATE_CHANGED 2%positive)
             eq_refl).
    discriminate.
Defined.

(** ** The filter of the bus wait *)

(** Among the message types, the mask of [main] lets through the three it
    names and no other. *)
Lemma bus_types_filter (m : GstMessage) :
  is_message_type (msg_type m) = true ->
  message_matches Main.bus_types m = true ->
  msg_type m = GST_MESSAGE_STATE_CHANGED
  \/ msg_type m = GST_MESSAGE_ERROR
  \/ msg_type m = GST_MESSAGE_EOS.
Proof.
  unfold is_message_type, message_types, message_matches,
    GST_MESSAGE_TYPE_IS_EXTENDED.
  cbn [existsb]. rewrite !orb_true_iff.
  intros H. repeat destruct H as [H|H]; try discriminate H;
    apply Z.eqb_eq in H; rewrite H; vm_compute; intros Hm;
    (discriminate Hm || (left; reflexivity) || (right; left; reflexivity)
     || (right; right; reflexivity)).
Qed.

Lemma bus_types_pass (m : GstMessage) :
  msg_type m = GST_MESSAGE_STATE_CHANGED
  \/ msg_type m = GST_MESSAGE_ERROR
  \/ msg_type m = GST_MESSAGE_EOS ->
  message_matches Main.bus_types m = true.
Proof.
  unfold message_matches, GST_MESSAGE_TYPE_IS_EXTENDED.
  intros [H|[H|H]]; rewrite H; reflexivity.
Qed.

(** The bus wait returns the first queued message that matches; the
    messages before it are dropped and the ones after it stay queued. *)
Lemma pop_matching_some (types : GstMessageType)
    (queue queue' : list GstMessage) (m : GstMessage) :
  pop_matching types queue = Some (m, queue') ->
  message_matches types m = true
  /\ exists discarded,
       queue = discarded ++ m :: queue'
       /\ forallb (fun x => negb (message_matches types x)) discarded = true.
Proof.
  revert m queue'. induction queue as [|x queue IH]; intros m queue' H.
  - discriminate H.
  - cbn [pop_matching] in H. destruct (message_matches types x) eqn:Hx.
    + injection H as <- <-. split; [exact Hx|]. exists []. split; reflexivity.
    + destruct (IH _ _ H) as (Hm & discarded & -> & Hd).
      split; [exact Hm|]. exists (x :: discarded).
      split; [reflexivity|]. cbn [forallb]. rewrite Hx, Hd. reflexivity.
Qed.

Lemma pop_matching_well_typed (types : GstMessageType)
    (queue queue' : list GstMessage) (m : GstMessage) :
  well_typed_queue queue ->
  pop_matching types queue = Some (m, queue') ->
  is_message_type (msg_type m) = true /\ well_typed_queue queue'.
Proof.
  intros Hw H. destruct (pop_matching_some _ _ _ _ H) as (_ & d & -> & _).
  unfold well_typed_queue in *. apply Forall_app in Hw as [_ Hw].
  inversion Hw; subst. split; assumption.
Qed.

Section BusWait.

Variable fw : Framework.
Variable data : CustomData.

Lemma bus_wait_handler_calls (t : Trace) :
  forallb is_handler_call t = true -> Forall bus_wait_as_filtered t.
Proof.
  induction t as [|c t IH]; intros H; [constructor|].
  cbn [forallb] in H. apply andb_prop in H as [Hc Ht].
  constructor; [|exact (IH Ht)].
  destruct c; try discriminate Hc; exact I.
Qed.

Lemma bus_wait_switch (answer : bool) (m : GstMessage) (terminate : bool) :
  msg_type m = GST_MESSAGE_STATE_CHANGED
  \/ msg_type m = GST_MESSAGE_ERROR
  \/ msg_type m = GST_MESSAGE_EOS ->
  Forall bus_wait_as_filtered
    (fst (Main.message_switch fw data answer m terminate)).
Proof.
  intros [H|[H|H]].
  - rewrite switch_state_changed by exact H. cbn [fst].
    destruct (Pos.eqb _ _); repeat constructor.
  - rewrite switch_error by exact H. cbn [fst].
    repeat constructor; cbn; discriminate.
  - rewrite switch_eos by exact H. cbn [fst].
    destruct answer; repeat constructor.
Qed.

Lemma bus_wait_iteration (r : Round) (w : World) (terminate : bool)
    (m : GstMessage) (queue : list GstMessage) :
  well_typed_queue (bus_queue w) ->
  pop_matching Main.bus_types (bus_queue w) = Some (m, queue) ->
  Forall bus_wait_as_filtered (iteration fw data r w terminate m).
Proof.
  intros Hw Hq.
  destruct (pop_matching_well_typed _ _ _ _ Hw Hq) as [Hm _].
  destruct (pop_matching_some _ _ _ _ Hq) as [Hf _].
  pose proof (bus_types_filter m Hm Hf) as Ht.
  unfold iteration, until_wait. rewrite !Forall_app. repeat split.
  - repeat constructor.
  - apply bus_wait_handler_calls, signals_calls.
  - constructor; [|constructor]. cbn [bus_wait_as_filtered].
    split; [reflexivity|]. split; [reflexivity|]. exists m. tauto.
  - apply bus_wait_switch. exact Ht.
  - repeat constructor.
Qed.

Lemma bus_wait_loop (w : World) (terminate : bool) (t : Trace)
    (s : Step GstObject) :
  LoopRun fw data w terminate t s ->
  well_typed_queue (bus_queue w) ->
  Forall bus_wait_as_filtered t.
Proof.
  induction 1 as [| |w terminate r Hq|w terminate r m queue Hq Ht
                  |w terminate r m queue t s Hq Ht Hrun IH]; intros Hw.
  - constructor.
  - repeat constructor. cbn. discriminate.
  - unfold until_wait. apply Forall_app. split; [repeat constructor|].
    apply bus_wait_handler_calls, signals_calls.
  - exact (bus_wait_iteration r w terminate m queue Hw Hq).
  - apply Forall_app. split.
    + exact (bus_wait_iteration r w terminate m queue Hw Hq).
    + apply IH. exact (proj2 (pop_matching_well_typed _ _ _ _ Hw Hq)).
Qed.

End BusWait.

(** C6: the bus wait of [main] is made with [GST_CLOCK_TIME_NONE] and the
    mask of state-changed, error and end-of-stream, and of the message types
    that mask lets through exactly these three.  So in every run every bus
    wait that returns returns a message (never [NULL]) of one of the three
    types, and the default branch of the switch is never taken: "Unexpected
    message received." is not printed. *)
Theorem bus_wait_is_filtered_to_three_types :
  Main.bus_types =
    Z.lor (Z.lor GST_MESSAGE_STATE_CHANGED GST_MESSAGE_ERROR) GST_MESSAGE_EOS
  /\ (forall m, is_message_type (msg_type m) = true ->
        (message_matches Main.bus_types m = true <->
         msg_type m = GST_MESSAGE_STATE_CHANGED
         \/ msg_type m = GST_MESSAGE_ERROR
         \/ msg_type m = GST_MESSAGE_EOS))
  /\ (forall fw rounds w,
        well_typed_queue (bus_queue w) ->
        Forall bus_wait_as_filtered (fst (main fw rounds w))
        /\ ~ In (g_printerr ("Unexpected message received." +:+ LF))
              (fst (main fw rounds w))).
Proof.
  split; [reflexivity|]. split.
  - intros m Hm. split; [apply bus_types_filter; exact Hm|apply bus_types_pass].
  - intros fw rounds w Hw.
    assert (H : Forall bus_wait_as_filtered (fst (main fw rounds w))).
    { destruct (main_run fw rounds w)
        as [Hc|data Hc H1|data Hc H1 H2|data t s Hc H1 H2 Hrun].
      - repeat constructor. cbn. discriminate.
      - repeat constructor. cbn. discriminate.
      - repeat constructor. cbn. discriminate.
      - rewrite !Forall_app. repeat split.
        + repeat constructor.
        + repeat constructor.
        + exact (bus_wait_loop fw data w false t s Hrun Hw).
        + destruct s; repeat constructor. }
    split; [exact H|]. intros Hin.
    rewrite List.Forall_forall in H. apply (H _ Hin). reflexivity.
Qed.

Lemma bus_wait_is_filtered_to_three_types_witness :
  (message_matches Main.bus_types
     (Demo.message GST_MESSAGE_DEVICE_ADDED 1%positive) = true <->
   GST_MESSAGE_DEVICE_ADDED = GST_MESSAGE_STATE_CHANGED
   \/ GST_MESSAGE_DEVICE_ADDED = GST_MESSAGE_ERROR
   \/ GST_MESSAGE_DEVICE_ADDED = GST_MESSAGE_EOS)
  /\ ~ In (g_printerr ("Unexpected message received." +:+ LF))
         (fst (main Demo.fw
                 [Demo.round GST_STATE_CHANGE_ASYNC [Demo.video_pad] true;
                  Demo.round GST_STATE_CHANGE_SUCCESS [] true;
                  Demo.round GST_STATE_CHANGE_SUCCESS [] true]
                 (Demo.unlinked
                    [Demo.message GST_MESSAGE_TAG 1%positive;
                     Demo.message GST_MESSAGE_DEVICE_ADDED 1%positive;
                     Demo.message GST_MESSAGE_STATE_CHANGED 5%positive;
                     Demo.message GST_MESSAGE_EOS 5%positive;
                     Demo.message GST_MESSAGE_ERROR 1%positive]))).
Proof.
  split.
  - apply (proj1 (proj2 bus_wait_is_filtered_to_three_types)
             (Demo.message GST_MESSAGE_DEVICE_ADDED 1%positive)).
    reflexivity.
  - apply (proj2 (proj2 bus_wait_is_filtered_to_three_types) Demo.fw).
    repeat constructor.
Defined.

(** ** Leaving the loop *)

Lemma loop_left_run (fw : Framework) (data : CustomData) (w : World)
    (t : Trace) (s : Step GstObject) :
  LoopRun fw data w false t s -> loop_left fw data t s.
Proof.
  intros H. remember false as terminate eqn:E.
  induction H as [| |w terminate r Hq|w terminate r m queue Hq Ht
                  |w terminate r m queue t s Hq Ht Hrun IH]; subst terminate.
  - exact I.
  - split; [reflexivity|]. exists []. reflexivity.
  - exact I.
  - apply switch_terminate in Ht. split; [reflexivity|].
    exists (until_wait fw data r w), m. split; [exact Ht|].
    unfold iteration. rewrite switch_error by exact Ht. reflexivity.
  - specialize (IH eq_refl). unfold loop_left in *.
    destruct s as [bus|[status| |]]; try exact I.
    + destruct IH as (Hb & t0 & m' & Hm & ->). split; [exact Hb|].
      exists (iteration fw data r w false m ++ t0), m'.
      split; [exact Hm|]. rewrite <- app_assoc. reflexivity.
    + destruct IH as (Hz & t0 & ->). split; [exact Hz|].
      exists (iteration fw data r w false m ++ t0).
      rewrite <- app_assoc. reflexivity.
Qed.

(** The loop goes round again after a message that is not an error. *)
Lemma play_loop_again (fw : Framework) (data : CustomData) (r : Round)
    (rounds : list Round) (w : World) (m : GstMessage)
    (queue : list GstMessage) :
  set_state_ret r <> GST_STATE_CHANGE_FAILURE ->
  pop_matching Main.bus_types (bus_queue w) = Some (m, queue) ->
  msg_type m <> GST_MESSAGE_ERROR ->
  Main.play_loop fw data (r :: rounds) w false =
    (iteration fw data r w false m
     ++ fst (Main.play_loop fw data rounds (after_wait fw data r w queue)
               false),
     snd (Main.play_loop fw data rounds (after_wait fw data r w queue) false)).
Proof.
  intros Hr Hq Hm.
  rewrite play_loop_cons, (loop_body_message fw data r w false m queue Hr Hq).
  destruct (snd (Main.message_switch fw data (seek_ret r) m false)) eqn:Ht.
  - apply switch_terminate in Ht. contradiction.
  - reflexivity.
Qed.

(** Each iteration starts by setting the pipeline to playing. *)
Lemma play_loop_starts_playing (fw : Framework) (data : CustomData)
    (r : Round) (rounds : list Round) (w : World) (terminate : bool) :
  exists t,
    fst (Main.play_loop fw data (r :: rounds) w terminate) =
      gst_element_set_state (pipeline data) GST_STATE_PLAYING :: t.
Proof.
  rewrite play_loop_cons. unfold Main.loop_body.
  destruct (GstStateChangeReturn_eqb _ _).
  - eexists. reflexivity.
  - destruct (pad_added_signals fw (pads r) data w) as [t1 w1].
    destruct (bus_timed_pop_filtered _ _ _) as [[m|] queue|].
    + destruct (Main.message_switch fw data (seek_ret r) m terminate)
        as [ts [|]]; eexists; reflexivity.
    + destruct terminate; eexists; reflexivity.
    + eexists. reflexivity.
Qed.

(** A run of [main] that gets past the static links is the startup calls,
    a run of the loop, and what follows the loop. *)
Lemma main_enters_loop (fw : Framework) (rounds : list Round) (w : World)
    (data : CustomData) :
  created fw = Some data ->
  element_link fw (videoconvert data) (filter data) = true ->
  element_link fw (filter data) (videosink data) = true ->
  main fw rounds w =
    (Main.create ++ static_phase data
     ++ fst (Main.play_loop fw data rounds w false)
     ++ finish data (snd (Main.play_loop fw data rounds w false)),
     outcome_of (snd (Main.play_loop fw data rounds w false))).
Proof.
  intros Hc H1 H2.
  rewrite (main_created fw rounds w data Hc), (play_linked fw data rounds w H1 H2).
  destruct (Main.play_loop fw data rounds w false) as [t [bus|o]];
    cbn [fst snd finish outcome_of]; [reflexivity|].
  rewrite app_nil_r. reflexivity.
Qed.

(** C3 as it is stated fails twice.  An error message on the bus ends the
    process with status 0; and when the filter element cannot be created
    while the pipeline can, the process ends without unreferencing the
    pipeline. *)
Lemma fatal_failures_counterexample :
  (In (g_printerr ("Error received from element source: "
                   +:+ "Internal data stream error." +:+ LF))
      (fst (main Demo.fw [Demo.round GST_STATE_CHANGE_ASYNC [] true]
              (Demo.unlinked [Demo.message GST_MESSAGE_ERROR 1%positive])))
   /\ snd (main Demo.fw [Demo.round GST_STATE_CHANGE_ASYNC [] true]
             (Demo.unlinked [Demo.message GST_MESSAGE_ERROR 1%positive]))
      = Exit 0)
  /\ (pipeline_new Demo.fw_without_filter "video-pipeline" = Some 5%positive
      /\ main Demo.fw_without_filter [] (Demo.unlinked [])
         = ([gst_init;
             gst_element_factory_make "uridecodebin" "source";
             gst_element_factory_make "videoconvert" "videoconvert";
             gst_element_factory_make "blurfilter" "blurfilter";
             gst_element_factory_make "autovideosink" "videosink";
             gst_pipeline_new "video-pipeline";
             g_printerr ("All elements could not be created." +:+ LF);
             getchar],
            Exit (-1))).
Proof.
  split; split; try reflexivity.
  vm_compute. repeat (first [left; reflexivity | right]).
Qed.

(** C10 (as the code has it): the switch sets [terminate] to TRUE for an
    error message, to FALSE for end of stream and leaves it alone otherwise;
    the loop, entered with [terminate] FALSE, is left through its test only
    after the report of an error message, and is left otherwise only by the
    [return -1] that follows a failed change to playing; after any other
    message the loop goes round again, and the next iteration starts by
    setting the pipeline to playing. *)
Theorem loop_left_by_error_or_failed_play
    (fw : Framework) (data : CustomData) :
  (forall answer m terminate,
      snd (Main.message_switch fw data answer m terminate) =
        if msg_type m =? GST_MESSAGE_ERROR then true
        else if msg_type m =? GST_MESSAGE_EOS then false
        else terminate)
  /\ (forall rounds w,
        match snd (Main.play_loop fw data rounds w false) with
        | Next bus =>
            exists t0 m,
              msg_type m = GST_MESSAGE_ERROR
              /\ fst (Main.play_loop fw data rounds w false) =
                   t0
                   ++ [gst_bus_timed_pop_filtered
                         (element_get_bus fw (pipeline data))
                         GST_CLOCK_TIME_NONE Main.bus_types (Some m)]
                   ++ error_report fw m ++ [gst_message_unref m]
        | Stop (Exit status) =>
            status = -1
            /\ exists t0,
                 fst (Main.play_loop fw data rounds w false) =
                   t0 ++ [gst_element_set_state (pipeline data)
                            GST_STATE_PLAYING;
                          g_printerr
                            ("Unable to set pipeline to the playing state."
                             +:+ LF);
                          gst_object_unref (pipeline data);
                          getchar]
        | Stop Blocked | Stop Running => True
        end)
  /\ (forall r rounds w m queue,
        set_state_ret r <> GST_STATE_CHANGE_FAILURE ->
        pop_matching Main.bus_types (bus_queue w) = Some (m, queue) ->
        msg_type m <> GST_MESSAGE_ERROR ->
        Main.play_loop fw data (r :: rounds) w false =
          (iteration fw data r w false m
           ++ fst (Main.play_loop fw data rounds
                     (after_wait fw data r w queue) false),
           snd (Main.play_loop fw data rounds
                  (after_wait fw data r w queue) false))
        /\ forall r' rounds',
             exists t,
               fst (Main.play_loop fw data (r' :: rounds')
                      (after_wait fw data r w queue) false) =
                 gst_element_set_state (pipeline data) GST_STATE_PLAYING :: t).
Proof.
  split; [|split].
  - intros answer m terminate. unfold Main.message_switch.
    destruct (msg_type m =? GST_MESSAGE_ERROR); [reflexivity|].
    destruct (msg_type m =? GST_MESSAGE_EOS); [reflexivity|].
    destruct (msg_type m =? GST_MESSAGE_STATE_CHANGED); reflexivity.
  - intros rounds w.
    pose proof (loop_left_run fw data w _ _ (play_loop_run fw data rounds w false))
      as H.
    unfold loop_left in H.
    destruct (snd (Main.play_loop fw data rounds w false)) as [bus|[status| |]];
      try exact I.
    + destruct H as (_ & H). exact H.
    + exact H.
  - intros r rounds w m queue Hr Hq Hm. split.
    + exact (play_loop_again fw data r rounds w m queue Hr Hq Hm).
    + intros r' rounds'. apply play_loop_starts_playing.
Qed.

Lemma loop_left_by_error_or_failed_play_witness :
  Main.play_loop Demo.fw Demo.data
    [Demo.round GST_STATE_CHANGE_ASYNC [Demo.video_pad] true;
     Demo.round GST_STATE_CHANGE_FAILURE [] true]
    (Demo.unlinked [Demo.message GST_MESSAGE_EOS 5%positive]) false
  = (iteration Demo.fw Demo.data
       (Demo.round GST_STATE_CHANGE_ASYNC [Demo.video_pad] true)
       (Demo.unlinked [Demo.message GST_MESSAGE_EOS 5%positive]) false
       (Demo.message GST_MESSAGE_EOS 5%positive)
     ++ set_state_failed Demo.data,
     Stop (Exit (-1))).
Proof.
  destruct (proj2 (proj2 (loop_left_by_error_or_failed_play Demo.fw Demo.data))
              (Demo.round GST_STATE_CHANGE_ASYNC [Demo.video_pad] true)
              [Demo.round GST_STATE_CHANGE_FAILURE [] true]
              (Demo.unlinked [Demo.message GST_MESSAGE_EOS 5%positive])
              (Demo.message GST_MESSAGE_EOS 5%positive) [])
    as [H _].
  - discriminate.
  - reflexivity.
  - discriminate.
  - rewrite H. reflexivity.
Defined.

(** C10 as it is stated fails: the pipeline cannot be set to playing in the
    first iteration, and the loop, and [main] with it, is left with status
    -1 although the bus was never read, let alone an error message
    received. *)
Lemma loop_left_counterexample :
  main Demo.fw [Demo.round GST_STATE_CHANGE_FAILURE [] true]
    (Demo.unlinked [Demo.message GST_MESSAGE_STATE_CHANGED 5%positive])
  = (Main.create ++ static_phase Demo.data
     ++ [gst_element_set_state 5%positive GST_STATE_PLAYING;
         g_printerr ("Unable to set pipeline to the playing state." +:+ LF);
         gst_object_unref 5%positive;
         getchar],
     Exit (-1))
  /\ List.filter is_bus_wait
       (fst (main Demo.fw [Demo.round GST_STATE_CHANGE_FAILURE [] true]
               (Demo.unlinked
                  [Demo.message GST_MESSAGE_STATE_CHANGED 5%positive])))
     = [].
Proof. split; reflexivity. Qed.

(** ** Pad links over a whole run *)

Section Links.

Variable fw : Framework.
Variable data : CustomData.

Lemma switch_no_link (answer : bool) (m : GstMessage) (terminate : bool) :
  link_attempts (fst (Main.message_switch fw data answer m terminate)) = [].
Proof.
  unfold Main.message_switch.
  destruct (msg_type m =? GST_MESSAGE_ERROR); [reflexivity|].
  destruct (msg_type m =? GST_MESSAGE_EOS); [destruct answer; reflexivity|].
  destruct (msg_type m =? GST_MESSAGE_STATE_CHANGED); [|reflexivity].
  destruct (Pos.eqb _ _); reflexivity.
Qed.

Lemma signals_link_attempts (evs : list PadAdded) (w : World) :
  Forall (links_converter fw data)
    (link_attempts (fst (pad_added_signals fw evs data w))).
Proof.
  revert w. induction evs as [|ev evs IH]; intros w; [constructor|].
  cbn [pad_added_signals].
  pose proof (handler_link_attempts fw data ev w) as Hh.
  destruct (pad_added_handler fw ev data w) as [t w1]. cbn [fst] in Hh.
  specialize (IH w1). destruct (pad_added_signals fw evs data w1) as [t' w2].
  cbn [fst] in *. rewrite link_attempts_app, Hh. apply Forall_app. split.
  - destruct (_ && _); constructor; [|constructor].
    eexists _, _. reflexivity.
  - exact IH.
Qed.

Lemma link_attempts_iteration (r : Round) (w : World) (terminate : bool)
    (m : GstMessage) :
  link_attempts (iteration fw data r w terminate m) =
    link_attempts (fst (pad_added_signals fw (pads r) data w)).
Proof.
  unfold iteration, until_wait.
  rewrite !link_attempts_app, switch_no_link. cbn. apply app_nil_r.
Qed.

Lemma links_left_after_wait (r : Round) (w : World)
    (queue : list GstMessage) :
  links_left fw data (after_wait fw data r w queue) =
    links_left fw data (snd (pad_added_signals fw (pads r) data w)).
Proof. reflexivity. Qed.

Lemma links_within_loop (w : World) (terminate : bool) (t : Trace)
    (s : Step GstObject) :
  LoopRun fw data w terminate t s -> links_within fw data w t.
Proof.
  induction 1 as [| |w terminate r Hq|w terminate r m queue Hq Ht
                  |w terminate r m queue t s Hq Ht Hrun IH].
  - split; [cbn; lia|constructor].
  - split; [cbn; lia|constructor].
  - pose proof (signals_links_left fw data (pads r) w) as Hl.
    split.
    + unfold until_wait. rewrite links_established_app. cbn [app length links_established List.filter is_link_established]. lia.
    + unfold until_wait. rewrite link_attempts_app. cbn [app link_attempts List.filter is_pad_link].
      apply signals_link_attempts.
  - pose proof (signals_links_left fw data (pads r) w) as Hl.
    split.
    + rewrite links_established_attempts, link_attempts_iteration,
        <- links_established_attempts. lia.
    + rewrite link_attempts_iteration. apply signals_link_attempts.
  - pose proof (signals_links_left fw data (pads r) w) as Hl.
    destruct IH as [IH1 IH2]. rewrite links_left_after_wait in IH1.
    split.
    + rewrite links_established_app, length_app.
      rewrite (links_established_attempts (iteration _ _ _ _ _ _)),
        link_attempts_iteration, <- links_established_attempts. lia.
    + rewrite link_attempts_app, link_attempts_iteration.
      apply Forall_app. split; [apply signals_link_attempts|exact IH2].
Qed.

End Links.

Lemma links_within_main (fw : Framework) (w : World) (t : Trace)
    (o : Outcome) :
  MainRun fw w t o ->
  (length (links_established t) <= 1)%nat
  /\ (forall data, created fw = Some data ->
      Forall (links_converter fw data) (link_attempts t)).
Proof.
  intros [Hc|data Hc H1|data Hc H1 H2|data t' s Hc H1 H2 Hrun];
    try (split; [cbn; lia|intros; constructor]).
  destruct (links_within_loop fw data w false t' s Hrun) as [Hn Hf].
  assert (He : link_attempts (Main.create ++ static_phase data ++ t'
                              ++ finish data s) = link_attempts t').
  { rewrite !link_attempts_app.
    replace (link_attempts (finish data s)) with (@nil Call)
      by (destruct s; reflexivity).
    cbn. apply app_nil_r. }
  split.
  - rewrite links_established_attempts, He, <- links_established_attempts.
    unfold links_left in Hn. destruct (pad_is_linked _ _); lia.
  - intros data' Hc'. rewrite Hc in Hc'. injection Hc' as <-.
    rewrite He. exact Hf.
Qed.

(** C2: when the converter's sink pad is already linked the handler prints
    its two lines, releases the pad and does nothing else: no call of
    [gst_pad_link], and the pads are as before.  Hence over any sequence of
    pad-added signals at most one call of [gst_pad_link] succeeds, and none
    if the pad was linked at the start; and in a whole run of [main] at most
    one call of [gst_pad_link] succeeds. *)
Theorem pad_added_handler_links_at_most_once
    (fw : Framework) (data : CustomData) :
  (forall ev w,
      pad_is_linked w (video_sink_pad fw data) = true ->
      link_attempts (fst (pad_added_handler fw ev data w)) = []
      /\ snd (pad_added_handler fw ev data w) = w
      /\ fst (pad_added_handler fw ev data w) =
           [gst_element_get_static_pad (videoconvert data) "sink";
            g_print ("Received new pad " +:+ object_name fw (pa_pad ev)
                     +:+ " from " +:+ object_name fw (pa_src ev) +:+ ":"
                     +:+ LF);
            gst_pad_is_linked (video_sink_pad fw data);
            g_print ("We are already linked. Ignoring." +:+ LF);
            gst_object_unref (video_sink_pad fw data)])
  /\ (forall evs w,
        (length (links_established (fst (pad_added_signals fw evs data w)))
         <= 1)%nat
        /\ (pad_is_linked w (video_sink_pad fw data) = true ->
            link_attempts (fst (pad_added_signals fw evs data w)) = []
            /\ snd (pad_added_signals fw evs data w) = w))
  /\ (forall rounds w,
        (length (links_established (fst (main fw rounds w))) <= 1)%nat).
Proof.
  split; [|split].
  - intros ev w Hl. rewrite (handler_already_linked fw data ev w Hl).
    repeat split.
  - intros evs w. split.
    + pose proof (signals_links_left fw data evs w) as H.
      unfold links_left in H at 2.
      destruct (pad_is_linked w (video_sink_pad fw data)); lia.
    + intros Hl. induction evs as [|ev evs IH]; cbn [pad_added_signals].
      * split; reflexivity.
      * rewrite (handler_already_linked fw data ev w Hl).
        destruct (pad_added_signals fw evs data w) as [t' w2].
        cbn [fst snd] in *. destruct IH as [IH1 IH2]. split.
        -- rewrite link_attempts_app, IH1. reflexivity.
        -- exact IH2.
  - intros rounds w.
    exact (proj1 (links_within_main fw w _ _ (main_run fw rounds w))).
Qed.

Lemma pad_added_handler_links_at_most_once_witness :
  link_attempts (fst (pad_added_handler Demo.fw Demo.video_pad Demo.data
                        (Demo.linked []))) = []
  /\ snd (pad_added_handler Demo.fw Demo.video_pad Demo.data (Demo.linked []))
     = Demo.linked []
  /\ link_attempts
       (fst (pad_added_signals Demo.fw [Demo.video_pad; Demo.video_pad]
               Demo.data (Demo.linked []))) = [].
Proof.
  destruct (pad_added_handler_links_at_most_once Demo.fw Demo.data)
    as (Hone & Hmany & _).
  destruct (Hone Demo.video_pad (Demo.linked []) eq_refl) as (H1 & H2 & _).
  destruct (Hmany [Demo.video_pad; Demo.video_pad] (Demo.linked []))
    as [_ H3].
  split; [exact H1|]. split; [exact H2|]. exact (proj1 (H3 eq_refl)).
Defined.

(** C8: when the five elements exist and the two static links succeed,
    [main] makes its calls in this order: the creation of source, converter,
    filter, sink and pipeline; the assembly of the pipeline and the static
    links converter to filter and filter to sink; the uri and the
    registration of [pad_added_handler] for the source's pad-added signal;
    then the playback loop and what follows it.  Before the loop the only
    element links are those two and no pad is linked; every pad link of the
    run is made in the loop, by the handler, onto the converter's sink pad. *)
Theorem main_runs_in_order
    (fw : Framework) (rounds : list Round) (w : World) (data : CustomData) :
  created fw = Some data ->
  element_link fw (videoconvert data) (filter data) = true ->
  element_link fw (filter data) (videosink data) = true ->
  let before_loop :=
    [gst_init;
     gst_element_factory_make "uridecodebin" "source";
     gst_element_factory_make "videoconvert" "videoconvert";
     gst_element_factory_make "blurfilter" "blurfilter";
     gst_element_factory_make "autovideosink" "videosink";
     gst_pipeline_new "video-pipeline";
     gst_bin_add_many (pipeline data)
       [source data; videoconvert data; filter data; videosink data];
     gst_element_link (videoconvert data) (filter data);
     gst_element_link (filter data) (videosink data);
     g_object_set (source data) "uri"
       "file:///C:/Change/to/Address/to/Repository/ContextVision/media/testvideo4.mp4";
     g_signal_connect (source data) "pad-added" CALLBACK_pad_added_handler] in
  fst (main fw rounds w) =
    before_loop
    ++ fst (Main.play_loop fw data rounds w false)
    ++ finish data (snd (Main.play_loop fw data rounds w false))
  /\ List.filter is_element_link before_loop =
       [gst_element_link (videoconvert data) (filter data);
        gst_element_link (filter data) (videosink data)]
  /\ link_attempts before_loop = []
  /\ Forall (links_converter fw data) (link_attempts (fst (main fw rounds w)))
  /\ (forall r rounds', rounds = r :: rounds' ->
      exists t,
        fst (Main.play_loop fw data rounds w false) =
          gst_element_set_state (pipeline data) GST_STATE_PLAYING :: t).
Proof.
  intros Hc H1 H2 before_loop.
  split; [|split; [reflexivity|split; [reflexivity|split]]].
  - rewrite (main_enters_loop fw rounds w data Hc H1 H2). reflexivity.
  - exact (proj2 (links_within_main fw w _ _ (main_run fw rounds w)) data Hc).
  - intros r rounds' ->. apply play_loop_starts_playing.
Qed.

Lemma main_runs_in_order_witness :
  link_attempts
    (firstn 11 (fst (main Demo.fw
                       [Demo.round GST_STATE_CHANGE_ASYNC [Demo.video_pad] true]
                       (Demo.unlinked [])))) = []
  /\ link_attempts
       (fst (main Demo.fw
               [Demo.round GST_STATE_CHANGE_ASYNC [Demo.video_pad] true]
               (Demo.unlinked [])))
     = [gst_pad_link 8%positive 7%positive GST_PAD_LINK_OK].
Proof.
  destruct (main_runs_in_order Demo.fw
              [Demo.round GST_STATE_CHANGE_ASYNC [Demo.video_pad] true]
              (Demo.unlinked []) Demo.data eq_refl eq_refl eq_refl)
    as (H & _ & _ & _ & _).
  rewrite H. split; reflexivity.
Defined.

(** ** [operator |] on message types *)

Lemma is_int_shiftr (x : Z) :
  is_int x <-> Z.shiftr x 31 = 0 \/ Z.shiftr x 31 = -1.
Proof.
  unfold is_int. rewrite Z.shiftr_div_pow2 by lia.
  change (2 ^ 31) with 2147483648.
  pose proof (Z.div_mod x 2147483648 ltac:(lia)) as Hd.
  pose proof (Z.mod_pos_bound x 2147483648 ltac:(lia)) as Hm.
  lia.
Qed.

Lemma operator_or_is_int (lhs rhs : Z) :
  is_int lhs -> is_int rhs -> is_int (operator_or lhs rhs).
Proof.
  rewrite !is_int_shiftr. unfold operator_or. rewrite Z.shiftr_lor.
  intros [-> | ->] [-> | ->]; cbn; tauto.
Qed.

(** On an [int] the extended bit of a message type or mask is its sign. *)
Lemma extended_bit (x : Z) :
  is_int x -> (Z.land x GST_MESSAGE_EXTENDED =? 0) = (0 <=? x).
Proof.
  intros Hx. destruct (Z.leb_spec 0 x) as [Hp|Hn].
  - apply Z.eqb_eq.
    change GST_MESSAGE_EXTENDED with (Z.lnot (Z.ones 31)).
    rewrite <- Z.ldiff_land, Z.ldiff_ones_r by lia.
    apply is_int_shiftr in Hx as [-> | Hs]; [reflexivity|].
    rewrite Z.shiftr_div_pow2 in Hs by lia.
    pose proof (Z.div_pos x (2 ^ 31) Hp ltac:(lia)). lia.
  - apply Z.eqb_neq.
    assert (H : Z.land x GST_MESSAGE_EXTENDED < 0)
      by (apply Z.land_neg; split; [exact Hn|reflexivity]).
    lia.
Qed.

Lemma land_negative (x y : Z) : x < 0 -> y < 0 -> (Z.land x y =? 0) = false.
Proof.
  intros Hx Hy. apply Z.eqb_neq.
  assert (H : Z.land x y < 0) by (apply Z.land_neg; split; assumption).
  lia.
Qed.

(** X1: [operator |] stays within [int], so the casts of the source lose
    nothing; it sets exactly the bits set in one of its operands, and the
    order and grouping of the operands do not matter. *)
Theorem operator_or_on_int (lhs rhs : GstMessageType) :
  is_int lhs -> is_int rhs ->
  is_int (operator_or lhs rhs)
  /\ (forall n, Z.testbit (operator_or lhs rhs) n
                = Z.testbit lhs n || Z.testbit rhs n)
  /\ operator_or lhs rhs = operator_or rhs lhs
  /\ (forall other,
        operator_or (operator_or lhs rhs) other
        = operator_or lhs (operator_or rhs other)).
Proof.
  intros Hl Hr. split; [exact (operator_or_is_int lhs rhs Hl Hr)|].
  unfold operator_or. split; [intros n; apply Z.lor_spec|].
  split; [apply Z.lor_comm|intros other; symmetry; apply Z.lor_assoc].
Qed.

Lemma operator_or_on_int_witness :
  is_int (operator_or GST_MESSAGE_EXTENDED GST_MESSAGE_HAVE_CONTEXT).
Proof.
  apply (operator_or_on_int GST_MESSAGE_EXTENDED GST_MESSAGE_HAVE_CONTEXT).
  - unfold is_int. vm_compute. split; [discriminate|reflexivity].
  - unfold is_int. vm_compute. split; [discriminate|reflexivity].
Defined.

(** X2: a mask built with [operator |] lets a message through the bus
    filter exactly when one of the two operands does. *)
Theorem operator_or_filters_union (a b : GstMessageType) (m : GstMessage) :
  is_int a -> is_int b -> is_int (msg_type m) ->
  message_matches (operator_or a b) m
  = message_matches a m || message_matches b m.
Proof.
  intros Ha Hb Hm.
  pose proof (operator_or_is_int a b Ha Hb) as Hab.
  unfold message_matches, GST_MESSAGE_TYPE_IS_EXTENDED.
  rewrite !extended_bit by assumption.
  unfold operator_or in *. rewrite Z.land_lor_distr_r.
  assert (Hor : (Z.lor (Z.land (msg_type m) a) (Z.land (msg_type m) b) =? 0)
                = (Z.land (msg_type m) a =? 0) && (Z.land (msg_type m) b =? 0)).
  { destruct (Z.eqb_spec (Z.land (msg_type m) a) 0) as [Ea|Ea];
      destruct (Z.eqb_spec (Z.land (msg_type m) b) 0) as [Eb|Eb]; cbn [andb];
      [apply Z.eqb_eq; apply Z.lor_eq_0_iff; tauto
      |apply Z.eqb_neq; rewrite Z.lor_eq_0_iff; tauto ..]. }
  rewrite Hor.
  assert (Hs : (0 <=? Z.lor a b) = (0 <=? a) && (0 <=? b)).
  { pose proof (Z.lor_neg a b) as Hn.
    destruct (Z.leb_spec 0 a), (Z.leb_spec 0 b), (Z.leb_spec 0 (Z.lor a b));
      cbn [andb]; try reflexivity; lia. }
  rewrite Hs.
  destruct (Z.leb_spec 0 (msg_type m)) as [Hp|Hn].
  - cbn [negb orb]. rewrite !andb_true_r.
    destruct (Z.land (msg_type m) a =? 0), (Z.land (msg_type m) b =? 0);
      reflexivity.
  - cbn [negb orb].
    destruct (Z.leb_spec 0 a) as [Pa|Na]; destruct (Z.leb_spec 0 b) as [Pb|Nb];
      cbn [negb andb orb];
      rewrite ?(land_negative _ _ Hn Na), ?(land_negative _ _ Hn Nb);
      cbn [negb andb orb]; rewrite ?andb_false_r, ?andb_true_r, ?orb_false_r,
        ?orb_true_r; try reflexivity;
      destruct (Z.land (msg_type m) a =? 0), (Z.land (msg_type m) b =? 0);
      reflexivity.
Qed.

Lemma operator_or_filters_union_witness :
  message_matches (operator_or GST_MESSAGE_EOS GST_MESSAGE_EXTENDED)
    (Demo.message GST_MESSAGE_DEVICE_ADDED 1%positive)
  = message_matches GST_MESSAGE_EOS
      (Demo.message GST_MESSAGE_DEVICE_ADDED 1%positive)
    || message_matches GST_MESSAGE_EXTENDED
         (Demo.message GST_MESSAGE_DEVICE_ADDED 1%positive).
Proof.
  apply (operator_or_filters_union GST_MESSAGE_EOS GST_MESSAGE_EXTENDED
           (Demo.message GST_MESSAGE_DEVICE_ADDED 1%positive));
    unfold is_int; vm_compute; (split; [discriminate|reflexivity]).
Defined.

(** ** References taken and released by the handler *)

(** X3: every run of the handler takes the converter's sink pad once and
    ends by unreferencing it, its only [gst_object_unref]; it asks for the
    new pad's caps only when the converter is still unlinked, and calls
    [gst_caps_unref] once on those caps if it got any, and never otherwise. *)
Theorem pad_added_handler_balances_references
    (fw : Framework) (ev : PadAdded) (data : CustomData) (w : World) :
  List.filter is_get_static_pad (fst (pad_added_handler fw ev data w))
  = [gst_element_get_static_pad (videoconvert data) "sink"]
  /\ List.filter is_object_unref (fst (pad_added_handler fw ev data w))
     = [gst_object_unref (video_sink_pad fw data)]
  /\ (exists t0, fst (pad_added_handler fw ev data w)
                 = t0 ++ [gst_object_unref (video_sink_pad fw data)])
  /\ List.filter is_get_current_caps (fst (pad_added_handler fw ev data w))
     = (if pad_is_linked w (video_sink_pad fw data) then []
        else [gst_pad_get_current_caps (pa_pad ev)])
  /\ caps_unrefs (fst (pad_added_handler fw ev data w))
     = (if pad_is_linked w (video_sink_pad fw data) then []
        else match pa_caps ev with
             | Some caps => [caps]
             | None => []
             end).
Proof.
  assert (Hlast : exists t0, fst (pad_added_handler fw ev data w)
                             = t0 ++ [gst_object_unref (video_sink_pad fw data)]).
  { unfold pad_added_handler. fold (video_sink_pad fw data).
    destruct (PadAddedHandler.body fw ev data (video_sink_pad fw data) w)
      as [[t caps] w'].
    cbn [fst]. unfold PadAddedHandler.exit_label.
    exists ([gst_element_get_static_pad (videoconvert data) "sink"] ++ t
            ++ match caps with
               | Some c => [gst_caps_unref c]
               | None => []
               end).
    rewrite <- !app_assoc. reflexivity. }
  split; [|split; [|split; [exact Hlast|]]]; clear Hlast;
    unfold pad_added_handler, PadAddedHandler.body, PadAddedHandler.exit_label;
    fold (video_sink_pad fw data);
    destruct (pad_is_linked w (video_sink_pad fw data));
    try (split; reflexivity); try reflexivity;
    destruct (negb (g_str_has_prefix _ _));
    try destruct (GST_PAD_LINK_FAILED (pa_link ev));
    destruct (pa_caps ev); try (split; reflexivity); reflexivity.
Qed.

(** X4: for a raw-video pad arriving while the converter is unlinked, the
    handler makes one link attempt, from the new pad to the converter's sink
    pad.  If the framework answers [GST_PAD_LINK_OK] it prints "Link
    succeeded" and the two pads are each other's peers afterwards; on any
    other answer it prints "link failed" and the pads are as before. *)
Theorem pad_added_handler_link_outcome
    (fw : Framework) (ev : PadAdded) (data : CustomData) (w : World)
    (type : string) :
  pad_is_linked w (video_sink_pad fw data) = false ->
  new_pad_type ev = Some type ->
  String.prefix "video/x-raw" type = true ->
  link_attempts (fst (pad_added_handler fw ev data w))
  = [gst_pad_link (pa_pad ev) (video_sink_pad fw data) (pa_link ev)]
  /\ (pa_link ev = GST_PAD_LINK_OK ->
      console (fst (pad_added_handler fw ev data w))
      = [g_print ("Received new pad " +:+ object_name fw (pa_pad ev)
                  +:+ " from " +:+ object_name fw (pa_src ev) +:+ ":" +:+ LF);
         g_print ("Link succeeded (type '" +:+ type +:+ "'). " +:+ LF)]
      /\ peers (snd (pad_added_handler fw ev data w))
           !! video_sink_pad fw data = Some (pa_pad ev)
      /\ peers (snd (pad_added_handler fw ev data w))
           !! pa_pad ev = Some (video_sink_pad fw data)
      /\ bus_queue (snd (pad_added_handler fw ev data w)) = bus_queue w)
  /\ (pa_link ev <> GST_PAD_LINK_OK ->
      console (fst (pad_added_handler fw ev data w))
      = [g_print ("Received new pad " +:+ object_name fw (pa_pad ev)
                  +:+ " from " +:+ object_name fw (pa_src ev) +:+ ":" +:+ LF);
         g_print ("Type is '" +:+ type +:+ "', but link failed." +:+ LF)]
      /\ snd (pad_added_handler fw ev data w) = w).
Proof.
  intros Hl Ht Hp.
  assert (Hpre : g_str_has_prefix (new_pad_type ev) "video/x-raw" = true)
    by (rewrite Ht; exact Hp).
  split; [|split].
  - rewrite handler_link_attempts, Hl, Hpre. reflexivity.
  - intros Hok. rewrite handler_world, Hl, Hpre. cbn [negb andb].
    unfold pad_added_handler, PadAddedHandler.body.
    fold (video_sink_pad fw data) (new_pad_type ev).
    rewrite Hl, Hpre, Ht, Hok. cbn [negb GST_PAD_LINK_FAILED fst].
    split; [destruct (pa_caps ev); reflexivity|].
    unfold pad_link. cbn [peers bus_queue]. split; [|split; [|reflexivity]].
    + destruct (decide (pa_pad ev = video_sink_pad fw data)) as [He|Hne].
      * rewrite He. apply lookup_insert_eq.
      * rewrite lookup_insert_ne by exact Hne. apply lookup_insert_eq.
    + apply lookup_insert_eq.
  - intros Hno. rewrite handler_world, Hl, Hpre. cbn [negb andb].
    unfold pad_added_handler, PadAddedHandler.body.
    fold (video_sink_pad fw data) (new_pad_type ev).
    rewrite Hl, Hpre, Ht. cbn [negb fst].
    destruct (pa_link ev); [contradiction Hno; reflexivity| ..];
      (split; [destruct (pa_caps ev); reflexivity|reflexivity]).
Qed.

Lemma pad_added_handler_link_outcome_witness :
  peers (snd (pad_added_handler Demo.fw Demo.video_pad Demo.data
                (Demo.unlinked [])))
    !! 7%positive = Some 8%positive.
Proof.
  destruct (pad_added_handler_link_outcome Demo.fw Demo.video_pad Demo.data
              (Demo.unlinked []) "video/x-raw" eq_refl eq_refl eq_refl)
    as (_ & Hok & _).
  destruct (Hok eq_refl) as (_ & H & _). exact H.
Defined.

(** ** Counting calls over a run *)

Lemma filter_nothing (kind f : Call -> bool) (t : Trace) :
  (forall c, kind c = true -> f c = false) ->
  forallb kind t = true ->
  List.filter f t = [].
Proof.
  intros Hf. induction t as [|c t IH]; [reflexivity|].
  cbn [forallb List.filter]. intros H. apply andb_prop in H as [Hc Ht].
  rewrite (Hf c Hc). exact (IH Ht).
Qed.

Lemma flat_map_nothing {A : Type} (kind : Call -> bool) (f : Call -> list A)
    (t : Trace) :
  (forall c, kind c = true -> f c = []) ->
  forallb kind t = true ->
  flat_map f t = [].
Proof.
  intros Hf. induction t as [|c t IH]; [reflexivity|].
  cbn [forallb flat_map]. intros H. apply andb_prop in H as [Hc Ht].
  rewrite (Hf c Hc). exact (IH Ht).
Qed.

Lemma count_app (kind : Call -> bool) (t1 t2 : Trace) :
  count kind (t1 ++ t2) = (count kind t1 + count kind t2)%nat.
Proof. unfold count. rewrite List.filter_app. apply length_app. Qed.

Lemma count_nothing (kind f : Call -> bool) (t : Trace) :
  (forall c, kind c = true -> f c = false) ->
  forallb kind t = true ->
  count f t = 0%nat.
Proof.
  intros Hf Ht. unfold count. rewrite (filter_nothing kind f t Hf Ht).
  reflexivity.
Qed.

Lemma switch_calls (fw : Framework) (data : CustomData) (answer : bool)
    (m : GstMessage) (terminate : bool) :
  forallb is_switch_call
    (fst (Main.message_switch fw data answer m terminate)) = true.
Proof.
  unfold Main.message_switch.
  destruct (msg_type m =? GST_MESSAGE_ERROR); [reflexivity|].
  destruct (msg_type m =? GST_MESSAGE_EOS); [destruct answer; reflexivity|].
  destruct (msg_type m =? GST_MESSAGE_STATE_CHANGED); [|reflexivity].
  destruct (Pos.eqb _ _); reflexivity.
Qed.

(** ** Messages received and released *)

Section Messages.

Variable fw : Framework.
Variable data : CustomData.

Lemma received_app (t1 t2 : Trace) :
  received (t1 ++ t2) = received t1 ++ received t2.
Proof. apply flat_map_app. Qed.

Lemma released_app (t1 t2 : Trace) :
  released (t1 ++ t2) = released t1 ++ released t2.
Proof. apply flat_map_app. Qed.

Lemma received_until_wait (r : Round) (w : World) :
  received (until_wait fw data r w) = [].
Proof.
  unfold until_wait. rewrite received_app. cbn [received flat_map app message_received].
  apply (flat_map_nothing is_handler_call); [|apply signals_calls].
  intros []; (discriminate || reflexivity).
Qed.

Lemma released_until_wait (r : Round) (w : World) :
  released (until_wait fw data r w) = [].
Proof.
  unfold until_wait. rewrite released_app. cbn [released flat_map app message_released].
  apply (flat_map_nothing is_handler_call); [|apply signals_calls].
  intros []; (discriminate || reflexivity).
Qed.

Lemma received_iteration (r : Round) (w : World) (terminate : bool)
    (m : GstMessage) :
  received (iteration fw data r w terminate m) = [m].
Proof.
  assert (Hs : received (fst (Main.message_switch fw data (seek_ret r) m
                                 terminate)) = []).
  { apply (flat_map_nothing is_switch_call); [|apply switch_calls].
    intros []; (discriminate || reflexivity). }
  unfold iteration. rewrite !received_app, received_until_wait, Hs.
  reflexivity.
Qed.

Lemma released_iteration (r : Round) (w : World) (terminate : bool)
    (m : GstMessage) :
  released (iteration fw data r w terminate m) = [m].
Proof.
  assert (Hs : released (fst (Main.message_switch fw data (seek_ret r) m
                                 terminate)) = []).
  { apply (flat_map_nothing is_switch_call); [|apply switch_calls].
    intros []; (discriminate || reflexivity). }
  unfold iteration. rewrite !released_app, released_until_wait, Hs.
  reflexivity.
Qed.

Lemma released_received_loop (w : World) (terminate : bool) (t : Trace)
    (s : Step GstObject) :
  LoopRun fw data w terminate t s -> released t = received t.
Proof.
  induction 1 as [| |w terminate r Hq|w terminate r m queue Hq Ht
                  |w terminate r m queue t s Hq Ht Hrun IH].
  - reflexivity.
  - reflexivity.
  - rewrite received_until_wait, released_until_wait. reflexivity.
  - rewrite received_iteration, released_iteration. reflexivity.
  - rewrite received_app, released_app, received_iteration,
      released_iteration, IH. reflexivity.
Qed.

Lemma filter_discarded (types : GstMessageType) (discarded : list GstMessage) :
  forallb (fun x => negb (message_matches types x)) discarded = true ->
  List.filter (message_matches types) discarded = [].
Proof.
  induction discarded as [|x d IH]; [reflexivity|].
  cbn [forallb List.filter]. intros H. apply andb_prop in H as [Hx Hd].
  apply negb_true_iff in Hx. rewrite Hx. exact (IH Hd).
Qed.

Lemma filter_popped (types : GstMessageType) (queue queue' : list GstMessage)
    (m : GstMessage) :
  pop_matching types queue = Some (m, queue') ->
  List.filter (message_matches types) queue
  = m :: List.filter (message_matches types) queue'.
Proof.
  intros H. destruct (pop_matching_some _ _ _ _ H) as (Hm & d & -> & Hd).
  rewrite List.filter_app, (filter_discarded types d Hd).
  cbn [app List.filter]. rewrite Hm. reflexivity.
Qed.

Lemma filter_not_popped (types : GstMessageType) (queue : list GstMessage) :
  pop_matching types queue = None ->
  List.filter (message_matches types) queue = [].
Proof.
  induction queue as [|x queue IH]; [reflexivity|].
  cbn [pop_matching List.filter].
  destruct (message_matches types x); [discriminate|exact IH].
Qed.

(** The loop receives the matching messages of the queue from the front. *)
Lemma received_in_order_loop (w : World) (terminate : bool) (t : Trace)
    (s : Step GstObject) :
  LoopRun fw data w terminate t s ->
  (exists rest,
      List.filter (message_matches Main.bus_types) (bus_queue w)
      = received t ++ rest)
  /\ (s = Stop Blocked ->
      List.filter (message_matches Main.bus_types) (bus_queue w) = received t).
Proof.
  induction 1 as [| |w terminate r Hq|w terminate r m queue Hq Ht
                  |w terminate r m queue t s Hq Ht Hrun IH].
  - split; [eexists; reflexivity|discriminate].
  - split; [eexists; reflexivity|discriminate].
  - rewrite received_until_wait, (filter_not_popped _ _ Hq).
    split; [exists []; reflexivity|reflexivity].
  - rewrite received_iteration, (filter_popped _ _ _ _ Hq).
    split; [eexists; reflexivity|discriminate].
  - rewrite received_app, received_iteration, (filter_popped _ _ _ _ Hq).
    destruct IH as [[rest IH1] IH2]. cbn [after_wait bus_queue] in IH1, IH2.
    split.
    + exists rest. cbn [app]. rewrite IH1. reflexivity.
    + intros Hs. cbn [app]. rewrite (IH2 Hs). reflexivity.
Qed.

(** Entered with [terminate] FALSE, the loop receives nothing after an
    error message. *)
Lemma error_is_last_loop (w : World) (t : Trace) (s : Step GstObject) :
  LoopRun fw data w false t s -> error_is_last (received t).
Proof.
  intros H. remember false as terminate eqn:E.
  induction H as [| |w terminate r Hq|w terminate r m queue Hq Ht
                  |w terminate r m queue t s Hq Ht Hrun IH]; subst terminate.
  - intros [|? ?] m after Heq; discriminate Heq.
  - intros [|? ?] m after Heq; discriminate Heq.
  - rewrite received_until_wait. intros [|? ?] m after Heq; discriminate Heq.
  - rewrite received_iteration. intros [|? [|? ?]] m' after Heq _;
      try discriminate Heq. injection Heq as _ <-. reflexivity.
  - rewrite received_app, received_iteration. cbn [app].
    intros [|x before] m' after Heq Hm; cbn [app] in Heq.
    + injection Heq as <- _.
      apply (switch_terminate fw data (seek_ret r)) in Hm. congruence.
    + injection Heq as _ Heq. exact (IH eq_refl before m' after Heq Hm).
Qed.

End Messages.

(** Outside the loop [main] neither receives nor releases a message. *)
Lemma received_main (fw : Framework) (w : World) (t : Trace) (o : Outcome) :
  MainRun fw w t o ->
  (received t = [] /\ released t = [] /\ o = Exit (-1))
  \/ exists data t' s,
       created fw = Some data
       /\ LoopRun fw data w false t' s
       /\ o = outcome_of s
       /\ received t = received t' /\ released t = released t'.
Proof.
  intros [Hc|data Hc H1|data Hc H1 H2|data t' s Hc H1 H2 Hrun];
    try (left; repeat split; reflexivity).
  right. exists data, t', s.
  split; [exact Hc|]. split; [exact Hrun|]. split; [reflexivity|].
  rewrite !received_app, !released_app.
  replace (received (finish data s)) with (@nil GstMessage)
    by (destruct s; reflexivity).
  replace (released (finish data s)) with (@nil GstMessage)
    by (destruct s; reflexivity).
  cbn. rewrite !app_nil_r. split; reflexivity.
Qed.

(** X5: in every run of [main] the messages handed to [gst_message_unref]
    are the messages the bus waits returned, each once and in the same
    order: no received message is kept, none is released twice. *)
Theorem received_messages_are_released
    (fw : Framework) (rounds : list Round) (w : World) :
  released (fst (main fw rounds w)) = received (fst (main fw rounds w)).
Proof.
  destruct (received_main fw w _ _ (main_run fw rounds w))
    as [(-> & -> & _)|(data & t' & s & _ & Hrun & _ & -> & ->)]; [reflexivity|].
  exact (released_received_loop fw data w false t' s Hrun).
Qed.

(** X6: a run of [main] receives the messages of the bus that match the
    mask of [main] in the order they were posted, from the first on and
    without a gap; and when the run ends blocked in the bus wait it has
    received every one of them. *)
Theorem messages_are_received_in_order
    (fw : Framework) (rounds : list Round) (w : World) :
  (exists rest,
      List.filter (message_matches Main.bus_types) (bus_queue w)
      = received (fst (main fw rounds w)) ++ rest)
  /\ (snd (main fw rounds w) = Blocked ->
      List.filter (message_matches Main.bus_types) (bus_queue w)
      = received (fst (main fw rounds w))).
Proof.
  pose proof (main_run fw rounds w) as Hmain.
  destruct (received_main fw w _ _ Hmain)
    as [(Hr & _ & Ho)|(data & t' & s & _ & Hrun & Ho & Hr & _)]; rewrite Hr.
  - split; [eexists; reflexivity|].
    intros Hb. rewrite Hb in Ho. discriminate Ho.
  - destruct (received_in_order_loop fw data w false t' s Hrun) as [H1 H2].
    split; [exact H1|]. intros Hb. apply H2. rewrite Hb in Ho.
    destruct s as [bus|o]; [discriminate Ho|cbn in Ho; congruence].
Qed.

(** X7: [main] handles nothing after an error message: among the messages
    a run receives an error message can only be the last.  And [main]
    returns 0 only if an error message was posted on the bus: that message
    is the last one the run received. *)
Theorem error_message_is_the_last_received
    (fw : Framework) (rounds : list Round) (w : World) :
  error_is_last (received (fst (main fw rounds w)))
  /\ (snd (main fw rounds w) = Exit 0 ->
      exists before m,
        received (fst (main fw rounds w)) = before ++ [m]
        /\ msg_type m = GST_MESSAGE_ERROR
        /\ In m (bus_queue w)).
Proof.
  destruct (received_main fw w _ _ (main_run fw rounds w))
    as [(Hr & _ & Ho)|(data & t' & s & _ & Hrun & Ho & Hr & _)]; rewrite Hr.
  - split.
    + intros [|? ?] m after Heq; discriminate Heq.
    + intros Hz. rewrite Hz in Ho. discriminate Ho.
  - split; [exact (error_is_last_loop fw data w t' s Hrun)|].
    intros Hz. rewrite Hz in Ho.
    pose proof (loop_left_run fw data w t' s Hrun) as Hleft.
    destruct s as [bus|[status| |]]; cbn [outcome_of loop_left] in *;
      try discriminate Ho.
    + destruct Hleft as (_ & t0 & m & Hm & ->).
      exists (received t0), m.
      assert (Hrec : received
                (t0 ++ [gst_bus_timed_pop_filtered
                          (element_get_bus fw (pipeline data))
                          GST_CLOCK_TIME_NONE Main.bus_types (Some m)]
                 ++ error_report fw m ++ [gst_message_unref m])
              = received t0 ++ [m])
        by (rewrite !received_app; reflexivity).
      split; [exact Hrec|]. split; [exact Hm|].
      destruct (received_in_order_loop fw data w false _ _ Hrun)
        as [[rest Hq] _].
      rewrite Hrec in Hq.
      assert (Hin : In m (List.filter (message_matches Main.bus_types)
                            (bus_queue w))).
      { rewrite Hq. apply in_or_app. left. apply in_or_app. right.
        left. reflexivity. }
      apply List.filter_In in Hin. exact (proj1 Hin).
    + destruct Hleft as [-> _]. discriminate Ho.
Qed.

Lemma error_message_is_the_last_received_witness :
  exists before m,
    received
      (fst (main Demo.fw
              [Demo.round GST_STATE_CHANGE_ASYNC [] true;
               Demo.round GST_STATE_CHANGE_ASYNC [] true]
              (Demo.unlinked
                 [Demo.message GST_MESSAGE_EOS 5%positive;
                  Demo.message GST_MESSAGE_ERROR 1%positive;
                  Demo.message GST_MESSAGE_EOS 5%positive])))
    = before ++ [m]
    /\ msg_type m = GST_MESSAGE_ERROR
    /\ In m [Demo.message GST_MESSAGE_EOS 5%positive;
             Demo.message GST_MESSAGE_ERROR 1%positive;
             Demo.message GST_MESSAGE_EOS 5%positive].
Proof.
  apply (proj2 (error_message_is_the_last_received Demo.fw
                  [Demo.round GST_STATE_CHANGE_ASYNC [] true;
                   Demo.round GST_STATE_CHANGE_ASYNC [] true]
                  (Demo.unlinked
                     [Demo.message GST_MESSAGE_EOS 5%positive;
                      Demo.message GST_MESSAGE_ERROR 1%positive;
                      Demo.message GST_MESSAGE_EOS 5%positive]))).
  reflexivity.
Defined.

Lemma messages_are_received_in_order_witness :
  List.filter (message_matches Main.bus_types)
    [Demo.message GST_MESSAGE_TAG 1%positive;
     Demo.message GST_MESSAGE_STATE_CHANGED 5%positive;
     Demo.message GST_MESSAGE_TAG 1%positive]
  = received
      (fst (main Demo.fw
              [Demo.round GST_STATE_CHANGE_ASYNC [] true;
               Demo.round GST_STATE_CHANGE_ASYNC [] true]
              (Demo.unlinked
                 [Demo.message GST_MESSAGE_TAG 1%positive;
                  Demo.message GST_MESSAGE_STATE_CHANGED 5%positive;
                  Demo.message GST_MESSAGE_TAG 1%positive]))).
Proof.
  apply (proj2 (messages_are_received_in_order Demo.fw
                  [Demo.round GST_STATE_CHANGE_ASYNC [] true;
                   Demo.round GST_STATE_CHANGE_ASYNC [] true]
                  (Demo.unlinked
                     [Demo.message GST_MESSAGE_TAG 1%positive;
                      Demo.message GST_MESSAGE_STATE_CHANGED 5%positive;
                      Demo.message GST_MESSAGE_TAG 1%positive]))).
  reflexivity.
Defined.

(** ** Iterations of the loop *)

Section Iterations.

Variable fw : Framework.
Variable data : CustomData.

Lemma count_signals (kind : Call -> bool) (evs : list PadAdded) (w : World) :
  (forall c, is_handler_call c = true -> kind c = false) ->
  count kind (fst (pad_added_signals fw evs data w)) = 0%nat.
Proof.
  intros H. apply (count_nothing is_handler_call); [exact H|apply signals_calls].
Qed.

Lemma count_switch (kind : Call -> bool) (answer : bool) (m : GstMessage)
    (terminate : bool) :
  (forall c, is_switch_call c = true -> kind c = false) ->
  count kind (fst (Main.message_switch fw data answer m terminate)) = 0%nat.
Proof.
  intros H. apply (count_nothing is_switch_call); [exact H|apply switch_calls].
Qed.

Lemma count_until_wait (kind : Call -> bool) (r : Round) (w : World) :
  (forall c, is_handler_call c = true -> kind c = false) ->
  count kind (until_wait fw data r w)
  = count kind [gst_element_set_state (pipeline data) GST_STATE_PLAYING;
                gst_element_get_bus (pipeline data)].
Proof.
  intros H. unfold until_wait. rewrite count_app, (count_signals kind _ _ H).
  apply Nat.add_0_r.
Qed.

Lemma count_iteration (kind : Call -> bool) (r : Round) (w : World)
    (terminate : bool) (m : GstMessage) :
  (forall c, is_handler_call c = true -> kind c = false) ->
  (forall c, is_switch_call c = true -> kind c = false) ->
  count kind (iteration fw data r w terminate m)
  = count kind
      [gst_element_set_state (pipeline data) GST_STATE_PLAYING;
       gst_element_get_bus (pipeline data);
       gst_bus_timed_pop_filtered (element_get_bus fw (pipeline data))
         GST_CLOCK_TIME_NONE Main.bus_types (Some m);
       gst_message_unref m].
Proof.
  intros Hh Hs. unfold iteration.
  rewrite !count_app, (count_until_wait kind r w Hh),
    (count_switch kind _ _ _ Hs).
  unfold count. cbn [List.filter].
  destruct (kind _), (kind _), (kind _), (kind _); reflexivity.
Qed.

Lemma iterations_accounted_loop (w : World) (terminate : bool) (t : Trace)
    (s : Step GstObject) :
  LoopRun fw data w terminate t s -> iterations_accounted t s.
Proof.
  assert (Hp : forall c, is_handler_call c = true -> is_set_playing c = false)
    by (intros []; (discriminate || reflexivity)).
  assert (Hb : forall c, is_handler_call c = true -> is_get_bus c = false)
    by (intros []; (discriminate || reflexivity)).
  assert (Hp' : forall c, is_switch_call c = true -> is_set_playing c = false)
    by (intros []; (discriminate || reflexivity)).
  assert (Hb' : forall c, is_switch_call c = true -> is_get_bus c = false)
    by (intros []; (discriminate || reflexivity)).
  induction 1 as [| |w terminate r Hq|w terminate r m queue Hq Ht
                  |w terminate r m queue t s Hq Ht Hrun IH];
    unfold iterations_accounted in *.
  - repeat split.
  - repeat split.
  - rewrite !count_until_wait, received_until_wait by assumption.
    repeat split.
  - rewrite !count_iteration, received_iteration by assumption.
    repeat split. cbn. lia.
  - rewrite !count_app, received_app, length_app, !count_iteration,
      received_iteration by assumption.
    cbn [count List.filter is_set_playing is_get_bus length].
    destruct s as [bus|[status| |]]; cbn zeta in IH; lia.
Qed.

End Iterations.

(** X8: the loop body begins with [gst_element_set_state (PLAYING)],
    fetches the bus, then waits for one message.  So a run of the loop left
    through its test, or stopped at the head of the loop, has set the
    pipeline to playing, fetched the bus and received a message equally
    often; a run ended by a failed state change has set the state once more
    than it fetched the bus; a run blocked in the wait has fetched the bus
    once more than it received a message. *)
Theorem loop_iterations_are_accounted
    (fw : Framework) (data : CustomData) (rounds : list Round) (w : World)
    (terminate : bool) :
  let t := fst (Main.play_loop fw data rounds w terminate) in
  let playing := count is_set_playing t in
  let buses := count is_get_bus t in
  let messages := length (received t) in
  match snd (Main.play_loop fw data rounds w terminate) with
  | Next _ => playing = buses /\ buses = messages /\ (1 <= messages)%nat
  | Stop (Exit _) => playing = S buses /\ buses = messages
  | Stop Blocked => playing = buses /\ buses = S messages
  | Stop Running => playing = buses /\ buses = messages
  end.
Proof.
  exact (iterations_accounted_loop fw data w terminate _ _
           (play_loop_run fw data rounds w terminate)).
Qed.

(** ** Returning from [main] *)

Lemma getchar_loop (fw : Framework) (data : CustomData) (w : World)
    (terminate : bool) (t : Trace) (s : Step GstObject) :
  LoopRun fw data w terminate t s ->
  count is_getchar t = (match s with Stop (Exit _) => 1 | _ => 0 end)%nat
  /\ (forall status, s = Stop (Exit status) -> exists t0, t = t0 ++ [getchar]).
Proof.
  assert (Hh : forall c, is_handler_call c = true -> is_getchar c = false)
    by (intros []; (discriminate || reflexivity)).
  assert (Hs : forall c, is_switch_call c = true -> is_getchar c = false)
    by (intros []; (discriminate || reflexivity)).
  induction 1 as [| |w terminate r Hq|w terminate r m queue Hq Ht
                  |w terminate r m queue t s Hq Ht Hrun IH].
  - split; [reflexivity|discriminate].
  - split; [reflexivity|]. intros _ _. eexists [_; _; _]. reflexivity.
  - rewrite count_until_wait by exact Hh. split; [reflexivity|discriminate].
  - rewrite count_iteration by assumption. split; [reflexivity|discriminate].
  - destruct IH as [IH1 IH2].
    rewrite count_app, count_iteration, IH1 by assumption.
    split; [reflexivity|]. intros status E.
    destruct (IH2 status E) as [t0 ->].
    exists (iteration fw data r w terminate m ++ t0).
    rewrite <- app_assoc. reflexivity.
Qed.

(** X9: every [return] of [main] is preceded by [getchar]: a run that
    returns made exactly one call of [getchar], as its last call, and a run
    that has not returned made none.  The status returned is -1 or 0. *)
Theorem main_reads_a_key_before_returning
    (fw : Framework) (rounds : list Round) (w : World) :
  count is_getchar (fst (main fw rounds w))
  = (if is_exit (snd (main fw rounds w)) then 1 else 0)%nat
  /\ (forall status,
        snd (main fw rounds w) = Exit status ->
        (status = -1 \/ status = 0)
        /\ exists t0, fst (main fw rounds w) = t0 ++ [getchar]).
Proof.
  destruct (main_run fw rounds w)
    as [Hc|data Hc H1|data Hc H1 H2|data t s Hc H1 H2 Hrun].
  - split; [reflexivity|]. intros status E. injection E as <-.
    split; [left; reflexivity|]. eexists (_ ++ [_]).
    unfold not_created. rewrite <- app_assoc. reflexivity.
  - split; [reflexivity|]. intros status E. injection E as <-.
    split; [left; reflexivity|]. eexists (_ ++ [_; _; _; _]).
    unfold first_link_failed. rewrite <- app_assoc. reflexivity.
  - split; [reflexivity|]. intros status E. injection E as <-.
    split; [left; reflexivity|]. eexists (_ ++ [_; _; _; _; _]).
    unfold second_link_failed. rewrite <- app_assoc. reflexivity.
  - destruct (getchar_loop fw data w false t s Hrun) as [Hn Hlast].
    pose proof (loop_left_run fw data w t s Hrun) as Hleft.
    split.
    + rewrite !count_app, Hn.
      destruct s as [bus|[status| |]]; reflexivity.
    + intros status Ho. destruct s as [bus|o].
      * injection Ho as <-. split; [right; reflexivity|].
        exists (Main.create ++ static_phase data ++ t
                ++ [gst_object_unref bus;
                    gst_element_set_state (pipeline data) GST_STATE_NULL;
                    gst_object_unref (pipeline data)]).
        cbn [finish shutdown]. rewrite <- !app_assoc. reflexivity.
      * cbn [outcome_of] in Ho. subst o. cbn [loop_left] in Hleft.
        split; [left; exact (proj1 Hleft)|].
        destruct (Hlast status eq_refl) as [t0 ->].
        exists (Main.create ++ static_phase data ++ t0).
        cbn [finish]. rewrite app_nil_r, <- !app_assoc. reflexivity.
Qed.

Lemma main_reads_a_key_before_returning_witness :
  exists t0,
    fst (main Demo.fw [Demo.round GST_STATE_CHANGE_FAILURE [] true]
           (Demo.unlinked [])) = t0 ++ [getchar].
Proof.
  apply (proj2 (main_reads_a_key_before_returning Demo.fw
                  [Demo.round GST_STATE_CHANGE_FAILURE [] true]
                  (Demo.unlinked [])) (-1) eq_refl).
Defined.

(** ** References to the pipeline and to the bus *)

Section Unrefs.

Variable fw : Framework.
Variable data : CustomData.
Variable object : GstObject.
Hypothesis not_the_sink_pad : video_sink_pad fw data <> object.

Lemma unrefs_of_app (t1 t2 : Trace) :
  unrefs_of object (t1 ++ t2)
  = (unrefs_of object t1 + unrefs_of object t2)%nat.
Proof. apply (count_app (is_unref_of object)). Qed.

Lemma unrefs_of_handler (ev : PadAdded) (w : World) :
  unrefs_of object (fst (pad_added_handler fw ev data w)) = 0%nat.
Proof.
  apply Pos.eqb_neq in not_the_sink_pad.
  unfold unrefs_of, pad_added_handler, PadAddedHandler.body,
    PadAddedHandler.exit_label.
  fold (video_sink_pad fw data).
  destruct (pad_is_linked w (video_sink_pad fw data)).
  - cbn [fst app List.filter is_unref_of]. rewrite not_the_sink_pad.
    reflexivity.
  - destruct (negb (g_str_has_prefix _ _));
      [|destruct (GST_PAD_LINK_FAILED (pa_link ev))];
      destruct (pa_caps ev);
      cbn [fst app List.filter is_unref_of]; rewrite not_the_sink_pad;
      reflexivity.
Qed.

Lemma unrefs_of_signals (evs : list PadAdded) (w : World) :
  unrefs_of object (fst (pad_added_signals fw evs data w)) = 0%nat.
Proof.
  revert w. induction evs as [|ev evs IH]; intros w; [reflexivity|].
  cbn [pad_added_signals].
  pose proof (unrefs_of_handler ev w) as Hh.
  destruct (pad_added_handler fw ev data w) as [t w1]. cbn [fst] in Hh.
  specialize (IH w1). destruct (pad_added_signals fw evs data w1) as [t' w2].
  cbn [fst] in *. rewrite unrefs_of_app, Hh, IH. reflexivity.
Qed.

Lemma unrefs_of_until_wait (r : Round) (w : World) :
  unrefs_of object (until_wait fw data r w) = 0%nat.
Proof.
  unfold until_wait. rewrite unrefs_of_app, unrefs_of_signals. reflexivity.
Qed.

Lemma unrefs_of_iteration (r : Round) (w : World) (terminate : bool)
    (m : GstMessage) :
  unrefs_of object (iteration fw data r w terminate m) = 0%nat.
Proof.
  unfold iteration. rewrite !unrefs_of_app, unrefs_of_until_wait.
  assert (Hs : unrefs_of object
                 (fst (Main.message_switch fw data (seek_ret r) m terminate))
               = 0%nat).
  { apply (count_nothing is_switch_call); [|apply switch_calls].
    intros []; (discriminate || reflexivity). }
  rewrite Hs. reflexivity.
Qed.

(** The loop unreferences nothing but the sink pad, except the pipeline
    once when the change to playing fails. *)
Lemma unrefs_of_loop (w : World) (terminate : bool) (t : Trace)
    (s : Step GstObject) :
  LoopRun fw data w terminate t s ->
  unrefs_of object t
  = (match s with
     | Stop (Exit _) => if Pos.eqb (pipeline data) object then 1 else 0
     | _ => 0
     end)%nat
  /\ (forall bus, s = Next bus -> bus = element_get_bus fw (pipeline data)).
Proof.
  induction 1 as [| |w terminate r Hq|w terminate r m queue Hq Ht
                  |w terminate r m queue t s Hq Ht Hrun IH].
  - split; [reflexivity|discriminate].
  - split; [|discriminate]. unfold unrefs_of, set_state_failed.
    cbn [List.filter is_unref_of].
    destruct (Pos.eqb (pipeline data) object); reflexivity.
  - rewrite unrefs_of_until_wait. split; [reflexivity|discriminate].
  - rewrite unrefs_of_iteration. split; [reflexivity|].
    intros bus E. injection E as <-. reflexivity.
  - destruct IH as [IH1 IH2].
    rewrite unrefs_of_app, unrefs_of_iteration, IH1.
    split; [reflexivity|exact IH2].
Qed.

End Unrefs.

(** X10: when the five elements exist and the converter's sink pad, the bus
    and the pipeline are three different objects, [main] unreferences the
    pipeline exactly once on every path that returns and not before; it
    unreferences the bus once when it returns 0 and never otherwise,
    whatever the number of iterations that fetched the bus. *)
Theorem pipeline_and_bus_unreferenced_once
    (fw : Framework) (rounds : list Round) (w : World) (data : CustomData) :
  created fw = Some data ->
  video_sink_pad fw data <> pipeline data ->
  video_sink_pad fw data <> element_get_bus fw (pipeline data) ->
  element_get_bus fw (pipeline data) <> pipeline data ->
  unrefs_of (pipeline data) (fst (main fw rounds w))
  = (if is_exit (snd (main fw rounds w)) then 1 else 0)%nat
  /\ unrefs_of (element_get_bus fw (pipeline data)) (fst (main fw rounds w))
     = match snd (main fw rounds w) with
       | Exit status => if (status =? 0)%Z then 1%nat else 0%nat
       | _ => 0%nat
       end.
Proof.
  intros Hd Hsp Hsb Hbp.
  pose proof (proj2 (Pos.eqb_neq _ _) Hbp) as Ebp.
  assert (Epb : Pos.eqb (pipeline data) (element_get_bus fw (pipeline data))
                = false) by (apply Pos.eqb_neq; congruence).
  destruct (main_run fw rounds w)
    as [Hc|data' Hc H1|data' Hc H1 H2|data' t s Hc H1 H2 Hrun];
    try (rewrite Hc in Hd; injection Hd as ->).
  - congruence.
  - unfold unrefs_of, first_link_failed, Main.create.
    cbn [app List.filter is_unref_of]. rewrite Pos.eqb_refl, Epb.
    split; reflexivity.
  - unfold unrefs_of, second_link_failed, Main.create.
    cbn [app List.filter is_unref_of]. rewrite Pos.eqb_refl, Epb.
    split; reflexivity.
  - destruct (unrefs_of_loop fw data (pipeline data) Hsp w false t s Hrun)
      as [Hp Hbus].
    destruct (unrefs_of_loop fw data (element_get_bus fw (pipeline data)) Hsb
                w false t s Hrun) as [Hb _].
    rewrite !unrefs_of_app, Hp, Hb.
    pose proof (loop_left_run fw data w t s Hrun) as Hleft.
    destruct s as [bus|[status| |]]; cbn [finish outcome_of is_exit loop_left] in *.
    + rewrite (Hbus bus eq_refl). unfold unrefs_of, shutdown, static_phase.
      cbn [app List.filter is_unref_of Main.create].
      rewrite !Pos.eqb_refl, Ebp, Epb. split; reflexivity.
    + destruct Hleft as [-> _]. rewrite Pos.eqb_refl, Epb. split; reflexivity.
    + split; reflexivity.
    + split; reflexivity.
Qed.

Lemma pipeline_and_bus_unreferenced_once_witness :
  unrefs_of 6%positive
    (fst (main Demo.fw
            [Demo.round GST_STATE_CHANGE_ASYNC [Demo.video_pad] true;
             Demo.round GST_STATE_CHANGE_ASYNC [] true;
             Demo.round GST_STATE_CHANGE_FAILURE [] true]
            (Demo.unlinked
               [Demo.message GST_MESSAGE_EOS 5%positive;
                Demo.message GST_MESSAGE_STATE_CHANGED 5%positive])))
  = 0%nat.
Proof.
  apply (proj2 (pipeline_and_bus_unreferenced_once Demo.fw
                  [Demo.round GST_STATE_CHANGE_ASYNC [Demo.video_pad] true;
                   Demo.round GST_STATE_CHANGE_ASYNC [] true;
                   Demo.round GST_STATE_CHANGE_FAILURE [] true]
                  (Demo.unlinked
                     [Demo.message GST_MESSAGE_EOS 5%positive;
                      Demo.message GST_MESSAGE_STATE_CHANGED 5%positive])
                  Demo.data eq_refl ltac:(discriminate) ltac:(discriminate)
                  ltac:(discriminate))).
Defined.

(** ** Which pad the converter is linked to *)

Section FirstPad.

Variable fw : Framework.
Variable data : CustomData.

Lemma link_failed_iff (r : GstPadLinkReturn) :
  GST_PAD_LINK_FAILED r = false <-> r = GST_PAD_LINK_OK.
Proof. destruct r; cbn; split; (reflexivity || discriminate). Qed.

Lemma signals_already_linked (evs : list PadAdded) (w : World) :
  pad_is_linked w (video_sink_pad fw data) = true ->
  snd (pad_added_signals fw evs data w) = w.
Proof.
  intros Hl. induction evs as [|ev evs IH]; [reflexivity|].
  cbn [pad_added_signals].
  rewrite (handler_already_linked fw data ev w Hl).
  destruct (pad_added_signals fw evs data w) as [t' w2]. exact IH.
Qed.

Lemma sink_peer_after_link (w : World) (new_pad : GstObject) :
  peers (pad_link w new_pad (video_sink_pad fw data) GST_PAD_LINK_OK)
    !! video_sink_pad fw data = Some new_pad.
Proof.
  unfold pad_link. cbn [peers].
  destruct (decide (new_pad = video_sink_pad fw data)) as [He|Hne].
  - rewrite He. apply lookup_insert_eq.
  - rewrite lookup_insert_ne by exact Hne. apply lookup_insert_eq.
Qed.

Lemma signals_first_linkable (evs : list PadAdded) (w : World) :
  pad_is_linked w (video_sink_pad fw data) = false ->
  peers (snd (pad_added_signals fw evs data w)) !! video_sink_pad fw data
  = match find linkable evs with
    | Some ev => Some (pa_pad ev)
    | None => None
    end.
Proof.
  revert w. induction evs as [|ev evs IH]; intros w Hl.
  - cbn. unfold pad_is_linked in Hl.
    destruct (peers w !! video_sink_pad fw data); [discriminate Hl|reflexivity].
  - cbn [pad_added_signals find].
    pose proof (handler_world fw data ev w) as Hw. rewrite Hl in Hw.
    cbn [negb andb] in Hw.
    destruct (pad_added_handler fw ev data w) as [t w1]. cbn [snd] in Hw.
    unfold linkable.
    destruct (g_str_has_prefix (new_pad_type ev) "video/x-raw");
      cbn [andb]; subst w1.
    + destruct (GST_PAD_LINK_FAILED (pa_link ev)) eqn:Hf; cbn [negb].
      * assert (Hsame : pad_link w (pa_pad ev) (video_sink_pad fw data)
                          (pa_link ev) = w)
          by (destruct (pa_link ev); [discriminate Hf|reflexivity ..]).
        rewrite Hsame. specialize (IH w Hl).
        destruct (pad_added_signals fw evs data w) as [t' w2]. exact IH.
      * apply link_failed_iff in Hf. rewrite Hf.
        pose proof (signals_already_linked evs _
                      (pad_link_ok_linked w (pa_pad ev)
                         (video_sink_pad fw data))) as Hs.
        destruct (pad_added_signals fw evs data _) as [t' w2].
        cbn [snd] in *. rewrite Hs. apply sink_peer_after_link.
    + specialize (IH w Hl).
      destruct (pad_added_signals fw evs data w) as [t' w2]. exact IH.
Qed.

End FirstPad.

(** X11: of the pads announced while the converter is unlinked, the first
    one that carries raw video and whose link the framework accepts becomes
    the peer of the converter's sink pad, whatever is announced after it;
    if there is no such pad the converter stays unlinked. *)
Theorem first_linkable_pad_is_linked
    (fw : Framework) (data : CustomData) (evs : list PadAdded) (w : World) :
  pad_is_linked w (video_sink_pad fw data) = false ->
  peers (snd (pad_added_signals fw evs data w)) !! video_sink_pad fw data
  = match find linkable evs with
    | Some ev => Some (pa_pad ev)
    | None => None
    end.
Proof. exact (signals_first_linkable fw data evs w). Qed.

Lemma first_linkable_pad_is_linked_witness :
  peers (snd (pad_added_signals Demo.fw
                [Demo.audio_pad; Demo.pad_without_caps; Demo.video_pad;
                 Demo.audio_pad]
                Demo.data (Demo.unlinked [])))
    !! 7%positive = Some 8%positive.
Proof.
  apply (first_linkable_pad_is_linked Demo.fw Demo.data
           [Demo.audio_pad; Demo.pad_without_caps; Demo.video_pad;
            Demo.audio_pad]
           (Demo.unlinked [])).
  reflexivity.
Defined.

(** ** The control thread and the handler *)

(** Unless the elements exist and both static links succeed, [main] ends
    the same way whatever the script and the world. *)
Lemma main_startup (fw : Framework) :
  (forall rounds w rounds' w', main fw rounds w = main fw rounds' w')
  \/ exists data,
       created fw = Some data
       /\ element_link fw (videoconvert data) (filter data) = true
       /\ element_link fw (filter data) (videosink data) = true.
Proof.
  destruct (created fw) as [data|] eqn:Hc.
  - destruct (element_link fw (videoconvert data) (filter data)) eqn:H1.
    + destruct (element_link fw (filter data) (videosink data)) eqn:H2.
      * right. exists data. repeat split; assumption.
      * left. intros rounds w rounds' w'.
        rewrite !(main_created fw _ _ data Hc),
          !(play_second_link_fails fw data _ _ H1 H2). reflexivity.
    + left. intros rounds w rounds' w'.
      rewrite !(main_created fw _ _ data Hc),
        !(play_first_link_fails fw data _ _ H1). reflexivity.
  - left. intros rounds w rounds' w'.
    rewrite !(main_not_created fw _ _ Hc). reflexivity.
Qed.

Section Independence.

Variable fw : Framework.
Variable data : CustomData.

Lemma seeks_until_wait (r : Round) (w : World) :
  seeks (until_wait fw data r w) = [].
Proof.
  unfold until_wait. rewrite seeks_app. cbn [seeks List.filter is_seek app].
  apply (filter_nothing is_handler_call); [|apply signals_calls].
  intros []; (discriminate || reflexivity).
Qed.

Lemma play_loop_without_signals (rounds : list Round) (w w' : World)
    (terminate : bool) :
  bus_queue w = bus_queue w' ->
  snd (Main.play_loop fw data rounds w terminate)
  = snd (Main.play_loop fw data (map without_signals rounds) w' terminate)
  /\ received (fst (Main.play_loop fw data rounds w terminate))
     = received (fst (Main.play_loop fw data (map without_signals rounds) w'
                        terminate))
  /\ seeks (fst (Main.play_loop fw data rounds w terminate))
     = seeks (fst (Main.play_loop fw data (map without_signals rounds) w'
                     terminate)).
Proof.
  revert w w' terminate.
  induction rounds as [|r rounds IH]; intros w w' terminate Hq.
  - repeat split.
  - cbn [map]. rewrite !play_loop_cons.
    assert (Hdec : set_state_ret r = GST_STATE_CHANGE_FAILURE
                   \/ set_state_ret r <> GST_STATE_CHANGE_FAILURE)
      by (destruct (set_state_ret r); (left; reflexivity) || (right; discriminate)).
    destruct Hdec as [Hf|Hf].
    + rewrite (loop_body_failure fw data r w terminate Hf),
        (loop_body_failure fw data (without_signals r) w' terminate Hf).
      repeat split.
    + destruct (pop_matching Main.bus_types (bus_queue w))
        as [[m queue]|] eqn:Hp.
      * rewrite (loop_body_message fw data r w terminate m queue Hf Hp).
        rewrite Hq in Hp.
        rewrite (loop_body_message fw data (without_signals r) w' terminate
                   m queue Hf Hp).
        cbn [seek_ret without_signals].
        destruct (snd (Main.message_switch fw data (seek_ret r) m terminate));
          cbn [fst snd].
        -- rewrite !received_iteration, !seeks_iteration. repeat split.
        -- rewrite !received_app, !seeks_app, !received_iteration,
             !seeks_iteration. cbn [seek_ret without_signals].
           destruct (IH (after_wait fw data r w queue)
                       (after_wait fw data (without_signals r) w' queue)
                       false eq_refl) as (E1 & E2 & E3).
           rewrite E1, E2, E3. repeat split.
      * rewrite (loop_body_blocked fw data r w terminate Hf Hp).
        rewrite Hq in Hp.
        rewrite (loop_body_blocked fw data (without_signals r) w' terminate
                   Hf Hp).
        cbn [fst snd].
        rewrite !received_until_wait, !seeks_until_wait. repeat split.
Qed.

End Independence.

(** X12: the pad-added signals do not steer the control thread: a run of
    [main] returns, blocks or goes on in the same way, receives the same
    messages and requests the same seeks as a run on the same bus queue
    in which no pad is ever announced, whatever is linked at the start. *)
Theorem signals_do_not_steer_main
    (fw : Framework) (rounds : list Round) (w w' : World) :
  bus_queue w = bus_queue w' ->
  snd (main fw rounds w) = snd (main fw (map without_signals rounds) w')
  /\ received (fst (main fw rounds w))
     = received (fst (main fw (map without_signals rounds) w'))
  /\ seeks (fst (main fw rounds w))
     = seeks (fst (main fw (map without_signals rounds) w')).
Proof.
  intros Hq. destruct (main_startup fw) as [Hs|(data & Hc & H1 & H2)].
  - rewrite (Hs rounds w (map without_signals rounds) w'). repeat split.
  - rewrite !(main_enters_loop fw _ _ data Hc H1 H2). cbn [fst snd].
    destruct (play_loop_without_signals fw data rounds w w' false Hq)
      as (E1 & E2 & E3).
    rewrite !received_app, !seeks_app, E1, E2, E3. repeat split.
Qed.

Lemma signals_do_not_steer_main_witness :
  snd (main Demo.fw
         [Demo.round GST_STATE_CHANGE_ASYNC [Demo.video_pad; Demo.audio_pad]
            false]
         (Demo.linked [Demo.message GST_MESSAGE_ERROR 1%positive]))
  = Exit 0.
Proof.
  rewrite (proj1 (signals_do_not_steer_main Demo.fw
                    [Demo.round GST_STATE_CHANGE_ASYNC
                       [Demo.video_pad; Demo.audio_pad] false]
                    (Demo.linked [Demo.message GST_MESSAGE_ERROR 1%positive])
                    (Demo.unlinked [Demo.message GST_MESSAGE_ERROR 1%positive])
                    eq_refl)).
  reflexivity.
Defined.

Lemma set_null_loop (fw : Framework) (data : CustomData) (w : World)
    (terminate : bool) (t : Trace) (s : Step GstObject) :
  LoopRun fw data w terminate t s -> count is_set_null t = 0%nat.
Proof.
  assert (Hh : forall c, is_handler_call c = true -> is_set_null c = false)
    by (intros []; (discriminate || reflexivity)).
  assert (Hs : forall c, is_switch_call c = true -> is_set_null c = false)
    by (intros []; (discriminate || reflexivity)).
  induction 1 as [| |w terminate r Hq|w terminate r m queue Hq Ht
                  |w terminate r m queue t s Hq Ht Hrun IH].
  - reflexivity.
  - reflexivity.
  - rewrite count_until_wait by exact Hh. reflexivity.
  - rewrite count_iteration by assumption. reflexivity.
  - rewrite count_app, count_iteration, IH by assumption. reflexivity.
Qed.

(** X13: the pipeline is set to [GST_STATE_NULL] only on the way to
    [return 0]: a run that returns 0 made that call once, and every other
    run, also one that returns -1 after the pipeline was playing, never
    made it. *)
Theorem pipeline_set_to_null_only_on_return_0
    (fw : Framework) (rounds : list Round) (w : World) :
  count is_set_null (fst (main fw rounds w))
  = match snd (main fw rounds w) with
    | Exit status => if (status =? 0)%Z then 1%nat else 0%nat
    | _ => 0%nat
    end.
Proof.
  destruct (main_run fw rounds w)
    as [Hc|data Hc H1|data Hc H1 H2|data t s Hc H1 H2 Hrun];
    try reflexivity.
  pose proof (loop_left_run fw data w t s Hrun) as Hleft.
  rewrite !count_app, (set_null_loop fw data w false t s Hrun).
  destruct s as [bus|[status| |]]; cbn [finish outcome_of loop_left] in *;
    try reflexivity.
  destruct Hleft as [-> _]. reflexivity.
Qed.

(** ** Failures in the middle of a run *)

Section MidRun.

Variable fw : Framework.
Variable data : CustomData.

(** The loop body returns, blocks or ends the iteration; it does not stop
    for want of answers. *)
Lemma loop_body_not_running (r : Round) (w : World) (terminate : bool) :
  snd (Main.loop_body fw data r w terminate) <> Stop Running.
Proof.
  assert (Hdec : set_state_ret r = GST_STATE_CHANGE_FAILURE
                 \/ set_state_ret r <> GST_STATE_CHANGE_FAILURE)
    by (destruct (set_state_ret r); (left; reflexivity) || (right; discriminate)).
  destruct Hdec as [Hf|Hf].
  - rewrite (loop_body_failure fw data r w terminate Hf). discriminate.
  - destruct (pop_matching Main.bus_types (bus_queue w))
      as [[m queue]|] eqn:Hq.
    + rewrite (loop_body_message fw data r w terminate m queue Hf Hq).
      discriminate.
    + rewrite (loop_body_blocked fw data r w terminate Hf Hq). discriminate.
Qed.

(** The bus wait returns the first message the filter keeps. *)
Lemma pop_matching_of_filter (types : GstMessageType)
    (queue later : list GstMessage) (m : GstMessage) :
  List.filter (message_matches types) queue = m :: later ->
  exists queue', pop_matching types queue = Some (m, queue').
Proof.
  induction queue as [|x queue IH]; [discriminate|].
  cbn [List.filter pop_matching].
  destruct (message_matches types x).
  - intros H. injection H as -> _. eexists. reflexivity.
  - exact IH.
Qed.

(** A run of the loop that has used up its script stands at the head of
    the loop in some world: the matching messages not yet received are those
    of that world's queue, and on a longer script the run goes on from
    there. *)
Lemma play_loop_running_split (before : list Round) (w : World) :
  snd (Main.play_loop fw data before w false) = Stop Running ->
  exists w_end,
    List.filter (message_matches Main.bus_types) (bus_queue w)
    = received (fst (Main.play_loop fw data before w false))
      ++ List.filter (message_matches Main.bus_types) (bus_queue w_end)
    /\ forall more,
         Main.play_loop fw data (before ++ more) w false
         = (fst (Main.play_loop fw data before w false)
            ++ fst (Main.play_loop fw data more w_end false),
            snd (Main.play_loop fw data more w_end false)).
Proof.
  revert w. induction before as [|r before IH]; intros w Hrun.
  - exists w. split; [reflexivity|]. intros more. cbn [app fst].
    destruct (Main.play_loop fw data more w false); reflexivity.
  - rewrite play_loop_cons in Hrun.
    assert (Hdec : set_state_ret r = GST_STATE_CHANGE_FAILURE
                   \/ set_state_ret r <> GST_STATE_CHANGE_FAILURE)
      by (destruct (set_state_ret r); (left; reflexivity) || (right; discriminate)).
    destruct Hdec as [Hf|Hf].
    + rewrite (loop_body_failure fw data r w false Hf) in Hrun.
      discriminate Hrun.
    + destruct (pop_matching Main.bus_types (bus_queue w))
        as [[m queue]|] eqn:Hq.
      * rewrite (loop_body_message fw data r w false m queue Hf Hq) in Hrun.
        destruct (snd (Main.message_switch fw data (seek_ret r) m false))
          eqn:Ht; [discriminate Hrun|].
        cbn [snd] in Hrun.
        destruct (IH (after_wait fw data r w queue) Hrun) as (w_end & Hr & Hmore).
        exists w_end. split.
        -- rewrite play_loop_cons,
             (loop_body_message fw data r w false m queue Hf Hq), Ht.
           cbn [fst]. rewrite received_app, received_iteration.
           rewrite (filter_popped _ _ _ _ Hq).
           cbn [after_wait bus_queue] in Hr. rewrite Hr. reflexivity.
        -- intros more. cbn [app].
           rewrite !play_loop_cons,
             (loop_body_message fw data r w false m queue Hf Hq), Ht.
           rewrite (Hmore more). cbn [fst snd].
           rewrite app_assoc. reflexivity.
      * rewrite (loop_body_blocked fw data r w false Hf Hq) in Hrun.
        discriminate Hrun.
Qed.

End MidRun.

(** A run of [main] that is still going has got past the start-up and
    stands at the head of the loop. *)
Lemma main_running (fw : Framework) (before : list Round) (w : World)
    (data : CustomData) :
  created fw = Some data ->
  snd (main fw before w) = Running ->
  element_link fw (videoconvert data) (filter data) = true
  /\ element_link fw (filter data) (videosink data) = true
  /\ snd (Main.play_loop fw data before w false) = Stop Running
  /\ fst (main fw before w)
     = Main.create ++ static_phase data
       ++ fst (Main.play_loop fw data before w false).
Proof.
  intros Hc Hrun.
  destruct (element_link fw (videoconvert data) (filter data)) eqn:H1.
  - destruct (element_link fw (filter data) (videosink data)) eqn:H2.
    + rewrite (main_enters_loop fw before w data Hc H1 H2) in Hrun |- *.
      cbn [fst snd] in *.
      destruct (snd (Main.play_loop fw data before w false)) as [bus|o];
        cbn [outcome_of finish] in *; [discriminate Hrun|subst o].
      rewrite app_nil_r. repeat split.
    + rewrite (main_created fw before w data Hc),
        (play_second_link_fails fw data before w H1 H2) in Hrun.
      discriminate Hrun.
  - rewrite (main_created fw before w data Hc),
      (play_first_link_fails fw data before w H1) in Hrun.
    discriminate Hrun.
Qed.

(** C3 (as the code has it): a failed static link and a failed change to
    playing are reported on the console, the pipeline is unreferenced and
    [main] returns -1; a failed element creation is reported and [main]
    returns -1; an error message on the bus is reported, the loop is left,
    the bus is unreferenced, the pipeline is set to NULL and unreferenced,
    and [main] returns 0.  [main] returns in no other way.  The last two
    are also stated of [main] in the middle of a run: when the run over the
    answers so far stands at the head of the loop and the next change to
    playing fails, or the next message the bus lets through is an error
    message, [main] makes the calls above and returns -1, or 0. *)
Theorem fatal_failures_end_the_process
    (fw : Framework) (rounds : list Round) (w : World) :
  (created fw = None ->
   snd (main fw rounds w) = Exit (-1)
   /\ console (fst (main fw rounds w))
      = [g_printerr ("All elements could not be created." +:+ LF)])
  /\ (forall data,
        created fw = Some data ->
        element_link fw (videoconvert data) (filter data) = false
        \/ element_link fw (filter data) (videosink data) = false ->
        snd (main fw rounds w) = Exit (-1)
        /\ exists t0,
             fst (main fw rounds w) =
               t0 ++ [g_printerr ("Elements could not be linked." +:+ LF);
                      gst_object_unref (pipeline data);
                      getchar])
  /\ (forall data r w' terminate,
        set_state_ret r = GST_STATE_CHANGE_FAILURE ->
        Main.loop_body fw data r w' terminate =
          ([gst_element_set_state (pipeline data) GST_STATE_PLAYING;
            g_printerr ("Unable to set pipeline to the playing state." +:+ LF);
            gst_object_unref (pipeline data);
            getchar],
           Stop (Exit (-1))))
  /\ (forall data r rest w' m queue,
        set_state_ret r <> GST_STATE_CHANGE_FAILURE ->
        pop_matching Main.bus_types (bus_queue w') = Some (m, queue) ->
        msg_type m = GST_MESSAGE_ERROR ->
        Main.play_loop fw data (r :: rest) w' false =
          (until_wait fw data r w'
           ++ [gst_bus_timed_pop_filtered (element_get_bus fw (pipeline data))
                 GST_CLOCK_TIME_NONE Main.bus_types (Some m)]
           ++ error_report fw m ++ [gst_message_unref m],
           Next (element_get_bus fw (pipeline data))))
  /\ (forall data,
        created fw = Some data ->
        element_link fw (videoconvert data) (filter data) = true ->
        element_link fw (filter data) (videosink data) = true ->
        forall status,
          snd (main fw rounds w) = Exit status ->
          (status = -1
           /\ exists t0,
                fst (main fw rounds w) =
                  t0 ++ [gst_element_set_state (pipeline data) GST_STATE_PLAYING;
                         g_printerr ("Unable to set pipeline to the playing state."
                                     +:+ LF);
                         gst_object_unref (pipeline data);
                         getchar])
          \/ (status = 0
              /\ exists t0 m,
                   msg_type m = GST_MESSAGE_ERROR
                   /\ fst (main fw rounds w) =
                        t0 ++ error_report fw m
                        ++ [gst_message_unref m;
                            gst_object_unref (element_get_bus fw (pipeline data));
                            gst_element_set_state (pipeline data) GST_STATE_NULL;
                            gst_object_unref (pipeline data);
                            getchar]))
  /\ (forall data before r rest,
        created fw = Some data ->
        rounds = before ++ r :: rest ->
        snd (main fw before w) = Running ->
        set_state_ret r = GST_STATE_CHANGE_FAILURE ->
        main fw rounds w =
          (fst (main fw before w)
           ++ [gst_element_set_state (pipeline data) GST_STATE_PLAYING;
               g_printerr ("Unable to set pipeline to the playing state."
                           +:+ LF);
               gst_object_unref (pipeline data);
               getchar],
           Exit (-1)))
  /\ (forall data before r rest m later,
        created fw = Some data ->
        rounds = before ++ r :: rest ->
        snd (main fw before w) = Running ->
        set_state_ret r <> GST_STATE_CHANGE_FAILURE ->
        List.filter (message_matches Main.bus_types) (bus_queue w)
        = received (fst (main fw before w)) ++ m :: later ->
        msg_type m = GST_MESSAGE_ERROR ->
        snd (main fw rounds w) = Exit 0
        /\ exists signals,
             forallb is_handler_call signals = true
             /\ fst (main fw rounds w) =
                  fst (main fw before w)
                  ++ [gst_element_set_state (pipeline data) GST_STATE_PLAYING;
                      gst_element_get_bus (pipeline data)]
                  ++ signals
                  ++ [gst_bus_timed_pop_filtered
                        (element_get_bus fw (pipeline data))
                        GST_CLOCK_TIME_NONE Main.bus_types (Some m)]
                  ++ error_report fw m
                  ++ [gst_message_unref m;
                      gst_object_unref (element_get_bus fw (pipeline data));
                      gst_element_set_state (pipeline data) GST_STATE_NULL;
                      gst_object_unref (pipeline data);
                      getchar]).
Proof.
  split; [|split; [|split; [|split; [|split; [|split]]]]].
  - intros Hc. rewrite (main_not_created fw rounds w Hc). split; reflexivity.
  - intros data Hc Hl. rewrite (main_created fw rounds w data Hc).
    destruct (element_link fw (videoconvert data) (filter data)) eqn:H1.
    + destruct Hl as [Hl|Hl]; [discriminate Hl|].
      rewrite (play_second_link_fails fw data rounds w H1 Hl).
      split; [reflexivity|].
      exists (Main.create
              ++ [gst_bin_add_many (pipeline data)
                    [source data; videoconvert data; filter data; videosink data];
                  gst_element_link (videoconvert data) (filter data);
                  gst_element_link (filter data) (videosink data)]).
      reflexivity.
    + rewrite (play_first_link_fails fw data rounds w H1).
      split; [reflexivity|].
      exists (Main.create
              ++ [gst_bin_add_many (pipeline data)
                    [source data; videoconvert data; filter data; videosink data];
                  gst_element_link (videoconvert data) (filter data)]).
      reflexivity.
  - intros data r w' terminate Hf. exact (loop_body_failure fw data r w' terminate Hf).
  - intros data r rest w' m queue Hr Hq Hm.
    rewrite play_loop_cons, (loop_body_message fw data r w' false m queue Hr Hq).
    unfold iteration. rewrite switch_error by exact Hm. reflexivity.
  - intros data Hc H1 H2 status Hs.
    rewrite (main_enters_loop fw rounds w data Hc H1 H2) in Hs |- *.
    cbn [fst snd] in *.
    pose proof (loop_left_run fw data w _ _ (play_loop_run fw data rounds w false))
      as Hleft.
    destruct (Main.play_loop fw data rounds w false) as [t [bus|o]];
      cbn [fst snd outcome_of finish loop_left] in *.
    + right. injection Hs as <-. split; [reflexivity|].
      destruct Hleft as (-> & t0 & m & Hm & ->).
      exists (Main.create ++ static_phase data ++ t0
              ++ [gst_bus_timed_pop_filtered (element_get_bus fw (pipeline data))
                    GST_CLOCK_TIME_NONE Main.bus_types (Some m)]), m.
      split; [exact Hm|]. unfold shutdown.
      rewrite <- !app_assoc. reflexivity.
    + subst o. destruct Hleft as (-> & t0 & ->). left. split; [reflexivity|].
      exists (Main.create ++ static_phase data ++ t0).
      rewrite app_nil_r, <- !app_assoc. reflexivity.
  - intros data before r rest Hc -> Hrun Hf.
    destruct (main_running fw before w data Hc Hrun) as (H1 & H2 & Hloop & Hfst).
    destruct (play_loop_running_split fw data before w Hloop)
      as (w_end & _ & Hmore).
    rewrite (main_enters_loop fw _ w data Hc H1 H2), (Hmore (r :: rest)),
      play_loop_cons, (loop_body_failure fw data r w_end false Hf), Hfst.
    cbn [fst snd finish outcome_of]. rewrite app_nil_r, <- !app_assoc.
    reflexivity.
  - intros data before r rest m later Hc -> Hrun Hf Hqueue Hm.
    destruct (main_running fw before w data Hc Hrun) as (H1 & H2 & Hloop & Hfst).
    destruct (play_loop_running_split fw data before w Hloop)
      as (w_end & Hrec & Hmore).
    assert (Hsame : received (fst (main fw before w))
                    = received (fst (Main.play_loop fw data before w false)))
      by (rewrite Hfst, !received_app; reflexivity).
    rewrite Hsame, Hrec in Hqueue. apply app_inv_head in Hqueue.
    destruct (pop_matching_of_filter _ _ _ _ Hqueue) as [queue Hpop].
    rewrite (main_enters_loop fw _ w data Hc H1 H2), (Hmore (r :: rest)),
      play_loop_cons, (loop_body_message fw data r w_end false m queue Hf Hpop),
      (switch_error fw data _ m false Hm), Hfst.
    cbn [fst snd finish outcome_of]. split; [reflexivity|].
    exists (fst (pad_added_signals fw (pads r) data w_end)).
    split; [apply signals_calls|].
    unfold iteration, until_wait, shutdown.
    rewrite (switch_error fw data _ m false Hm). cbn [fst].
    rewrite <- !app_assoc. reflexivity.
Qed.

Lemma fatal_failures_end_the_process_witness :
  (snd (main Demo.fw_without_filter [] (Demo.unlinked [])) = Exit (-1)
   /\ console (fst (main Demo.fw_without_filter [] (Demo.unlinked [])))
      = [g_printerr ("All elements could not be created." +:+ LF)])
  /\ Main.loop_body Demo.fw Demo.data
       (Demo.round GST_STATE_CHANGE_FAILURE [] true) (Demo.unlinked []) false
     = (set_state_failed Demo.data, Stop (Exit (-1)))
  /\ snd (Main.play_loop Demo.fw Demo.data
            [Demo.round GST_STATE_CHANGE_ASYNC [] true]
            (Demo.unlinked [Demo.message GST_MESSAGE_ERROR 1%positive]) false)
     = Next 6%positive
  /\ ((0 = -1
       /\ exists t0,
            fst (main Demo.fw [Demo.round GST_STATE_CHANGE_ASYNC [] true]
                   (Demo.unlinked [Demo.message GST_MESSAGE_ERROR 1%positive]))
            = t0 ++ set_state_failed Demo.data)
      \/ (0 = 0
          /\ exists t0 m,
               msg_type m = GST_MESSAGE_ERROR
               /\ fst (main Demo.fw [Demo.round GST_STATE_CHANGE_ASYNC [] true]
                         (Demo.unlinked
                            [Demo.message GST_MESSAGE_ERROR 1%positive]))
                  = t0 ++ error_report Demo.fw m
                    ++ [gst_message_unref m] ++ shutdown Demo.data 6%positive))
  /\ snd (main Demo.fw
            ([Demo.round GST_STATE_CHANGE_ASYNC [Demo.video_pad] true]
             ++ [Demo.round GST_STATE_CHANGE_FAILURE [] true])
            (Demo.unlinked [Demo.message GST_MESSAGE_EOS 5%positive]))
     = Exit (-1)
  /\ snd (main Demo.fw
            ([Demo.round GST_STATE_CHANGE_ASYNC [Demo.video_pad] true]
             ++ [Demo.round GST_STATE_CHANGE_SUCCESS [Demo.audio_pad] true])
            (Demo.unlinked
               [Demo.message GST_MESSAGE_EOS 5%positive;
                Demo.message GST_MESSAGE_TAG 1%positive;
                Demo.message GST_MESSAGE_ERROR 1%positive]))
     = Exit 0.
Proof.
  split; [|split; [|split; [|split; [|split]]]].
  - apply (proj1 (fatal_failures_end_the_process Demo.fw_without_filter []
                    (Demo.unlinked []))).
    reflexivity.
  - apply (proj1 (proj2 (proj2 (fatal_failures_end_the_process Demo.fw []
                                  (Demo.unlinked []))))).
    reflexivity.
  - rewrite (proj1 (proj2 (proj2 (proj2
               (fatal_failures_end_the_process Demo.fw [] (Demo.unlinked [])))))
               Demo.data (Demo.round GST_STATE_CHANGE_ASYNC [] true) []
               (Demo.unlinked [Demo.message GST_MESSAGE_ERROR 1%positive])
               (Demo.message GST_MESSAGE_ERROR 1%positive) []);
      [reflexivity|discriminate|reflexivity|reflexivity].
  - apply (proj2 (proj2 (proj2 (proj2
             (fatal_failures_end_the_process Demo.fw
                [Demo.round GST_STATE_CHANGE_ASYNC [] true]
                (Demo.unlinked [Demo.message GST_MESSAGE_ERROR 1%positive]))))))
      with (data := Demo.data); reflexivity.
  - rewrite (proj1 (proj2 (proj2 (proj2 (proj2 (proj2
               (fatal_failures_end_the_process Demo.fw
                  ([Demo.round GST_STATE_CHANGE_ASYNC [Demo.video_pad] true]
                   ++ [Demo.round GST_STATE_CHANGE_FAILURE [] true])
                  (Demo.unlinked [Demo.message GST_MESSAGE_EOS 5%positive])))))))
               Demo.data
               [Demo.round GST_STATE_CHANGE_ASYNC [Demo.video_pad] true]
               (Demo.round GST_STATE_CHANGE_FAILURE [] true) []
               eq_refl eq_refl eq_refl eq_refl).
    reflexivity.
  - apply (proj2 (proj2 (proj2 (proj2 (proj2 (proj2
             (fatal_failures_end_the_process Demo.fw
                ([Demo.round GST_STATE_CHANGE_ASYNC [Demo.video_pad] true]
                 ++ [Demo.round GST_STATE_CHANGE_SUCCESS [Demo.audio_pad] true])
                (Demo.unlinked
                   [Demo.message GST_MESSAGE_EOS 5%positive;
                    Demo.message GST_MESSAGE_TAG 1%positive;
                    Demo.message GST_MESSAGE_ERROR 1%positive])))))))
             Demo.data
             [Demo.round GST_STATE_CHANGE_ASYNC [Demo.video_pad] true]
             (Demo.round GST_STATE_CHANGE_SUCCESS [Demo.audio_pad] true) []
             (Demo.message GST_MESSAGE_ERROR 1%positive) []
             eq_refl eq_refl eq_refl ltac:(discriminate) eq_refl eq_refl).
Defined.
